(** * Tic-tac-toe move selector ([minimax_ai.py]): model and properties

  The Python module is embedded shallowly.  Python objects that are
  mutated in place (the working board of the search) live in an explicit
  object store; every function of the module that reads or writes a board
  is a computation in a state-and-exception monad over that store.
  Recursion of the evaluator is bounded by an explicit fuel argument; the
  termination results show that a fuel above the number of empty cells is
  always enough. *)

From Stdlib Require Import ZArith QArith Lia.
From stdpp Require Import base list.
From Equations Require Import Equations.
From Stdlib Require Import Sorted.

Close Scope Q_scope.
Open Scope Z_scope.
Open Scope nat_scope.

(** ** Data model *)

(** Modelled from the spec: [Side] is imported from the module [game], which
    is not part of the sources.  The specification describes it as "one of
    two values", written X and O in its scenarios. *)
Inductive Side : Set := X | O.

(** Modelled from the spec: the method [Side.swap_side] of the module [game],
    "a swap operation returning the opposite side". *)
Definition swap_side (s : Side) : Side :=
  match s with X => O | O => X end.

Definition side_eqb (a b : Side) : bool :=
  match a, b with
  | X, X | O, O => true
  | _, _ => false
  end.

(** A tile is [None] (empty) or owned by a side; a board is a Python
    sequence of tiles. *)
Abbreviation Tile := (option Side).
Abbreviation Board := (list (option Side)).

Definition is_none (t : Tile) : bool :=
  match t with None => true | Some _ => false end.

(** ** Object store and the monad of Python computations *)

(** References are positions in the store; allocation appends. *)
Abbreviation Ref := nat.
Abbreviation Heap := (list (list (option Side))).

Inductive Exn : Set :=
| IndexError
| ValueError
| StopIteration
| DanglingRef
| OutOfFuel.

Inductive Res (A : Type) : Type :=
| Ok (a : A)
| Raise (e : Exn).
Arguments Ok {A} a.
Arguments Raise {A} e.

Definition Py (A : Type) : Type := Heap -> Res (A * Heap).

Definition ret {A} (a : A) : Py A := fun h => Ok (a, h).

Definition bind {A B} (m : Py A) (k : A -> Py B) : Py B :=
  fun h => match m h with
           | Ok (a, h') => k a h'
           | Raise e => Raise e
           end.

Definition raise {A} (e : Exn) : Py A := fun _ => Raise e.

Declare Scope py_scope.
Delimit Scope py_scope with py.
Notation "x <- c ;; k" := (bind c (fun x => k))
  (at level 100, c at next level, right associativity) : py_scope.
Notation "c ;;; k" := (bind c (fun _ => k))
  (at level 100, right associativity) : py_scope.
Open Scope py_scope.

(** The sequence an object reference denotes. *)
Definition deref (r : Ref) : Py Board :=
  fun h => match h !! r with
           | Some b => Ok (b, h)
           | None => Raise DanglingRef
           end.

(** [board[i]] with a non-negative index. *)
Definition getitem (r : Ref) (i : nat) : Py Tile :=
  b <- deref r ;;
  match b !! i with
  | Some t => ret t
  | None => raise IndexError
  end.

(** [board[i] = t]: in-place update of the list object, [IndexError] when
    the index is out of range. *)
Definition setitem (r : Ref) (i : nat) (t : Tile) : Py unit :=
  fun h => match h !! r with
           | Some b =>
               if i <? length b
               then Ok (tt, <[r := <[i := t]> b]> h)
               else Raise IndexError
           | None => Raise DanglingRef
           end.

(** [len(board)]. *)
Definition len (r : Ref) : Py nat :=
  b <- deref r ;; ret (length b).

(** [list(board_view)]: a fresh list object with the same tiles. *)
Definition list_copy (r : Ref) : Py Ref :=
  fun h => match h !! r with
           | Some b => Ok (length h, h ++ [b])
           | None => Raise DanglingRef
           end.

(** ** The winning lines *)

(** [to_checks] of [_find_win_move]: rows, then columns, then diagonals. *)
Definition to_checks : list (list nat) :=
  [ [0; 1; 2]; [3; 4; 5]; [6; 7; 8];
    [0; 3; 6]; [1; 4; 7]; [2; 5; 8];
    [0; 4; 8]; [2; 4; 6] ].

(** The cell [i] of the board holds a mark of [side]. *)
Definition owned_by (b : Board) (side : Side) (i : nat) : bool :=
  match b !! i with
  | Some (Some s) => side_eqb s side
  | _ => false
  end.

(** Modelled from the spec: the lines of the board as section 3 of the
    specification lists them, rows {0,1,2},{3,4,5},{6,7,8}, columns
    {0,3,6},{1,4,7},{2,5,8} and diagonals {0,4,8},{2,4,6}. *)
Definition winning_lines : list (list nat) :=
  [ [0; 1; 2]; [3; 4; 5]; [6; 7; 8];
    [0; 3; 6]; [1; 4; 7]; [2; 5; 8];
    [0; 4; 8]; [2; 4; 6] ].

(** Modelled from the spec: [has_won] is imported from the module [game],
    which is not part of the sources.  The specification describes it as the
    predicate [hasWon(board, side)] "checking all 8 lines for three-in-a-row
    of side" on a 9-cell board. *)
Definition board_has_won (b : Board) (side : Side) : bool :=
  existsb (forallb (owned_by b side)) winning_lines.

(** Modelled from the spec: the call [has_won(board, side)], which reads the
    board object and leaves it as it is. *)
Definition has_won (board : Ref) (side : Side) : Py bool :=
  b <- deref board ;; ret (board_has_won b side).

(** ** [_find_win_move] *)

(** The inner loop [for i in to_check], threading [count] and
    [empty_spot]. *)
Fixpoint scan_line (board : Ref) (side : Side) (to_check : list nat)
    (count : nat) (empty_spot : option nat) : Py (nat * option nat) :=
  match to_check with
  | [] => ret (count, empty_spot)
  | i :: rest =>
      t <- getitem board i ;;
      match t with
      | None => scan_line board side rest count (Some i)
      | Some s =>
          if side_eqb s side
          then scan_line board side rest (S count) empty_spot
          else scan_line board side rest count empty_spot
      end
  end.

(** The outer loop [for to_check in to_checks]. *)
Fixpoint find_in_lines (board : Ref) (side : Side) (lines : list (list nat))
    : Py (option nat) :=
  match lines with
  | [] => ret None
  | to_check :: rest =>
      r <- scan_line board side to_check 0 None ;;
      let '(count, empty_spot) := r in
      if (count =? 2) && bool_decide (empty_spot <> None)
      then ret empty_spot
      else find_in_lines board side rest
  end.

Definition _find_win_move (board : Ref) (side : Side) : Py (option nat) :=
  find_in_lines board side to_checks.

(** ** [_move_scores] and [_max_score] *)

(** [max(scores)] and [min(scores)] over a generator: [ValueError] when it
    yields nothing. *)
Definition py_max (scores : list Z) : Py Z :=
  match scores with
  | [] => raise ValueError
  | s :: rest => ret (fold_left Z.max rest s)
  end.

Definition py_min (scores : list Z) : Py Z :=
  match scores with
  | [] => raise ValueError
  | s :: rest => ret (fold_left Z.min rest s)
  end.

Section MoveGenerator.

(** The evaluator called on each candidate. *)
Variable eval : Ref -> Side -> bool -> Py Z.

(** The body of the generator [_move_scores], run to exhaustion over the
    indices that [range(len(board))] still has to deliver.  The inner
    generator expression filters lazily: [board[i] is None] is read from
    the store when index [i] is reached, after the marks of the earlier
    candidates have been undone.  Consumers in this module ([max], [min],
    the [for] loop of [decide_move]) drain the generator without touching
    the board in between, so the pairs are collected in a list in the
    order they are yielded. *)
Fixpoint move_scores_from (pending : list nat) (board : Ref)
    (current_side : Side) (is_maximizing : bool) : Py (list (nat * Z)) :=
  match pending with
  | [] => ret []
  | i :: rest =>
      t <- getitem board i ;;
      if is_none t then
        setitem board i
          (Some (if is_maximizing then current_side
                 else swap_side current_side)) ;;;
        max_score <- eval board current_side is_maximizing ;;
        setitem board i None ;;;
        more <- move_scores_from rest board current_side is_maximizing ;;
        ret ((i, max_score) :: more)
      else move_scores_from rest board current_side is_maximizing
  end.

End MoveGenerator.

Fixpoint _max_score (fuel : nat) (board : Ref) (current_side : Side)
    (is_maximizing : bool) : Py Z :=
  match fuel with
  | 0 => raise OutOfFuel
  | S fuel' =>
      won <- (if is_maximizing then has_won board current_side
              else ret false) ;;
      if won then ret 1%Z else
      lost <- (if negb is_maximizing
               then has_won board (swap_side current_side)
               else ret false) ;;
      if lost then ret (-1)%Z else
      b <- deref board ;;
      if forallb (fun t => negb (is_none t)) b then ret 0%Z else
      let is_maximizing := negb is_maximizing in
      n <- len board ;;
      pairs <- move_scores_from (_max_score fuel') (seq 0 n) board
                 current_side is_maximizing ;;
      let scores := map snd pairs in
      if is_maximizing then py_max scores else py_min scores
  end.

Definition _move_scores (fuel : nat) (board : Ref) (current_side : Side)
    (is_maximizing : bool) : Py (list (nat * Z)) :=
  n <- len board ;;
  move_scores_from (_max_score fuel) (seq 0 n) board current_side
    is_maximizing.

(** ** [MinimaxAi.decide_move] *)

(** The frozen dataclass: [think_chance] holds the chance of thinking
    deeply and the chance of looking for obvious moves otherwise.  The
    chances are floats in the source; every finite float is a rational and
    float comparison of finite values is comparison of those rationals, so
    the chances and the draws of [random.random()] are taken in [Q]. *)
Record MinimaxAi : Type := { think_chance : Q * Q }.

Definition default_ai : MinimaxAi := {| think_chance := (1%Q, 1%Q) |}.

(** The outcomes of the calls to [random] made by one call of
    [decide_move]: the first and the second [random.random()], and the
    entropy consumed by [random.randrange] or [random.choice] (each call of
    [decide_move] reaches at most one of the two). *)
Record Draws : Type := {
  first_random : Q;
  second_random : Q;
  pick : nat
}.

(** [random.random()] lies in [0, 1). *)
Definition unit_interval (q : Q) : Prop := (0 <= q)%Q /\ (q < 1)%Q.

(** [random.randrange(start, stop)]: any integer of the range. *)
Definition randrange (d : Draws) (start stop : nat) : nat :=
  start + pick d mod (stop - start).

(** [random.choice(seq)]: any element of the sequence, [IndexError] when it
    is empty. *)
Definition choice {A} (d : Draws) (l : list A) : Py A :=
  match l !! (pick d mod length l) with
  | Some x => ret x
  | None => raise IndexError
  end.

Definition enumerate {A} (l : list A) : list (nat * A) :=
  combine (seq 0 (length l)) l.

(** [[i for i, tile in enumerate(board_view) if tile is None]] *)
Definition avail_moves (view : Board) : list nat :=
  map fst (List.filter (fun p => is_none (snd p)) (enumerate view)).

(** One iteration of [for move, score in move_scores], on the pair
    ([best_move], [max_score]). *)
Definition best_step (acc : list nat * Z) (ms : nat * Z) : list nat * Z :=
  let '(best_move, max_score) := acc in
  let '(move, score) := ms in
  if (score >? max_score)%Z then ([move], score)
  else if (score =? max_score)%Z then (best_move ++ [move], max_score)
  else (best_move, max_score).

(** The last part of [decide_move]: the search on a working copy. *)
Definition minimax_move (d : Draws) (fuel : nat) (board_view : Ref)
    (current_side : Side) : Py nat :=
  board <- list_copy board_view ;;
  move_scores <- _move_scores fuel board current_side true ;;
  match move_scores with
  | [] => raise StopIteration
  | (best_move, max_score) :: rest =>
      choice d (fst (fold_left best_step rest ([best_move], max_score)))
  end.

(** The [return] statement that produced the move. *)
Inductive ReturnSite : Set :=
| OpeningReturn
| WinReturn
| BlockReturn
| RandomReturn
| MinimaxReturn.

Definition decide_move_at (self : MinimaxAi) (d : Draws) (fuel : nat)
    (board_view : Ref) (current_side : Side) : Py (ReturnSite * nat) :=
  view <- deref board_view ;;
  if forallb is_none view then ret (OpeningReturn, randrange d 0 9)
  else if Qle_bool (fst (think_chance self)) (first_random d) then
    obvious <-
      (if negb (Qle_bool (snd (think_chance self)) (second_random d)) then
         own <- _find_win_move board_view current_side ;;
         match own with
         | Some spot => ret (Some (WinReturn, spot))
         | None =>
             block <- _find_win_move board_view (swap_side current_side) ;;
             match block with
             | Some spot => ret (Some (BlockReturn, spot))
             | None => ret None
             end
         end
       else ret None) ;;
    match obvious with
    | Some r => ret r
    | None =>
        view <- deref board_view ;;
        spot <- choice d (avail_moves view) ;;
        ret (RandomReturn, spot)
    end
  else
    spot <- minimax_move d fuel board_view current_side ;;
    ret (MinimaxReturn, spot).

Definition decide_move (self : MinimaxAi) (d : Draws) (fuel : nat)
    (board_view : Ref) (current_side : Side) : Py nat :=
  r <- decide_move_at self d fuel board_view current_side ;;
  ret (snd r).

(** ** Reference definitions, in the words of the specification *)

(** The cell [i] of the board is empty. *)
Definition empty_at (b : Board) (i : nat) : bool :=
  match b !! i with
  | Some None => true
  | _ => false
  end.

(** The indices of the empty cells, in ascending order. *)
Definition empties (b : Board) : list nat :=
  List.filter (empty_at b) (seq 0 (length b)).

(** The number of empty cells. *)
Definition count_empty (b : Board) : nat :=
  length (List.filter is_none b).

(** Placing a mark. *)
Definition place (b : Board) (i : nat) (s : Side) : Board :=
  <[i := Some s]> b.

(** The side whose mark is placed for a given [maximizing] flag. *)
Definition mover (rootSide : Side) (maximizing : bool) : Side :=
  if maximizing then rootSide else swap_side rootSide.

(** No empty cell remains. *)
Definition board_full (b : Board) : bool :=
  forallb (fun t => negb (is_none t)) b.

(** Maximum and minimum of the scores of the children.  The recursive case
    is only reached with at least one empty cell, so the value on the empty
    list is immaterial. *)
Definition maximum (l : list Z) : Z :=
  match l with [] => 0%Z | s :: rest => fold_left Z.max rest s end.

Definition minimum (l : list Z) : Z :=
  match l with [] => 0%Z | s :: rest => fold_left Z.min rest s end.

Definition aggregate (maximizing : bool) (l : list Z) : Z :=
  if maximizing then maximum l else minimum l.

(** Map over a list with a function that may use membership. *)
Fixpoint map_in {A B} (l : list A) : (forall x, In x l -> B) -> list B :=
  match l with
  | [] => fun _ => []
  | x :: xs => fun f =>
      f x (or_introl eq_refl) :: map_in xs (fun y Hy => f y (or_intror Hy))
  end.

(** The value of a position, section 4.2 of the specification: the three
    base cases in order, then the flip of [maximizing], one child per empty
    cell carrying the mark of the new [maximizing] value, and the maximum or
    the minimum of the children.  The recursion is on the number of empty
    cells. *)
Equations? game_value (board : Board) (rootSide : Side) (maximizing : bool)
    : Z by wf (count_empty board) lt :=
  game_value board rootSide maximizing :=
    if maximizing && board_has_won board rootSide then 1%Z
    else if negb maximizing && board_has_won board (swap_side rootSide)
    then (-1)%Z
    else if board_full board then 0%Z
    else
      aggregate (negb maximizing)
        (map_in (empties board) (fun i Hi =>
           game_value (place board i (mover rootSide (negb maximizing)))
             rootSide (negb maximizing))).
Proof.
  unfold empties in Hi. apply filter_In in Hi as [_ Hi].
  unfold empty_at in Hi.
  destruct (board !! i) as [[s|]|] eqn:Hcell; try discriminate Hi.
  clear Hi game_value. unfold place, count_empty. revert i Hcell.
  generalize (mover rootSide (negb maximizing)). intros s.
  induction board as [|t board IH]; intros [|i] Hcell; simpl in *;
    try discriminate.
  - injection Hcell as ->. simpl. lia.
  - specialize (IH i Hcell). destruct (is_none t); simpl; lia.
Qed.

(** The score minimax gives to a move of [side] on board [b]. *)
Definition minimax_score (b : Board) (side : Side) (i : nat) : Z :=
  game_value (place b i side) side true.

(** ** The immediate-win finder, in the words of the specification *)

(** Section 3 of the specification: the index mapping of the lines. *)
Definition rows : list (list nat) := [ [0; 1; 2]; [3; 4; 5]; [6; 7; 8] ].
Definition columns : list (list nat) := [ [0; 3; 6]; [1; 4; 7]; [2; 5; 8] ].
Definition diagonals : list (list nat) := [ [0; 4; 8]; [2; 4; 6] ].

(** Section 4.1: a line qualifies if exactly 2 cells belong to [side] and
    exactly 1 is empty; the move is that empty cell, for the first
    qualifying line in the order rows, columns, diagonals. *)
Definition count_owned (b : Board) (side : Side) (line : list nat) : nat :=
  length (List.filter (owned_by b side) line).

Definition count_free (b : Board) (line : list nat) : nat :=
  length (List.filter (empty_at b) line).

Definition qualifies (b : Board) (side : Side) (line : list nat) : bool :=
  (count_owned b side line =? 2) && (count_free b line =? 1).

Definition free_cell (b : Board) (line : list nat) : option nat :=
  List.find (empty_at b) line.

Definition first_win_move (b : Board) (side : Side) : option nat :=
  match List.find (qualifies b side) (rows ++ columns ++ diagonals) with
  | Some line => free_cell b line
  | None => None
  end.

(** ** Auxiliary notions of the proofs *)

(** What the inner loop leaves in [empty_spot]: the last empty cell met. *)
Definition last_free (b : Board) (line : list nat) (e : option nat)
    : option nat :=
  fold_left (fun e i => if empty_at b i then Some i else e) line e.

Definition triple_in (n : nat) (line : list nat) : Prop :=
  exists i j k, line = [i; j; k] /\ i < n /\ j < n /\ k < n.

Definition is_score (v : Z) : Prop := v = (-1)%Z \/ v = 0%Z \/ v = 1%Z.

(** The moves attaining the maximum score, in the order they are yielded. *)
Definition best_of (pairs : list (nat * Z)) : list nat * Z :=
  let top := maximum (map snd pairs) in
  (map fst (List.filter (fun p => (snd p =? top)%Z) pairs), top).

(** The pairs yielded to [decide_move]: each empty cell with its score. *)
Definition root_scores (b : Board) (side : Side) : list (nat * Z) :=
  map (fun i => (i, minimax_score b side i)) (empties b).

(** The board with the marks of the two sides exchanged. *)
Definition swap_board (b : Board) : Board := map (option_map swap_side) b.

(** A computation preserves the store when every normal return leaves it
    as it was on entry. *)
Definition preserves {A} (m : Py A) : Prop :=
  forall h a h', m h = Ok (a, h') -> h' = h.

(** A line of three different cells. *)
Definition distinct_triple (line : list nat) : Prop :=
  exists x y z, line = [x; y; z] /\ x <> y /\ x <> z /\ y <> z.

(** The moves among which the search branch draws. *)
Definition best_moves (b : Board) (side : Side) : list nat :=
  fst (best_of (root_scores b side)).

(** ** Observed runs *)

(** To speak of the stores a run goes through, and not only of the stores
    at its two ends, the functions of the module are also given with their
    store operations observed.  An observation carries the store at the
    moment it is made: after [list(board_view)] has created an object, after
    an assignment [board[i] = t], and when the generator tests
    [board[i] is None] for its next candidate. *)
Inductive Obs : Type :=
| Allocated (r : Ref) (h : Heap)
| Wrote (r : Ref) (i : nat) (t : Tile) (h : Heap)
| Considered (r : Ref) (i : nat) (h : Heap).

(** An observed computation returns the observations made, also when it
    raises. *)
Definition Traced (A : Type) : Type := Heap -> list Obs * Res (A * Heap).

Definition tret {A} (a : A) : Traced A := fun h => ([], Ok (a, h)).

Definition tbind {A B} (m : Traced A) (k : A -> Traced B) : Traced B :=
  fun h => match m h with
           | (l1, Ok (a, h1)) => (l1 ++ fst (k a h1), snd (k a h1))
           | (l1, Raise e) => (l1, Raise e)
           end.

Declare Scope traced_scope.
Delimit Scope traced_scope with traced.
Notation "x <~ c ;; k" := (tbind c (fun x => k))
  (at level 100, c at next level, right associativity) : traced_scope.
Notation "c ;;~ k" := (tbind c (fun _ => k))
  (at level 100, right associativity) : traced_scope.
Open Scope traced_scope.

(** A computation that makes no observation; used for the reads
    ([board[i]], [len], [has_won], iteration over the view) and for
    [random.choice], none of which assigns to a board. *)
Definition silent {A} (m : Py A) : Traced A := fun h => ([], m h).

(** [board[i] = t], observed. *)
Definition setitem_traced (r : Ref) (i : nat) (t : Tile) : Traced unit :=
  fun h => match setitem r i t h with
           | Ok (u, h') => ([Wrote r i t h'], Ok (u, h'))
           | Raise e => ([], Raise e)
           end.

(** [list(board_view)], observed. *)
Definition list_copy_traced (r : Ref) : Traced Ref :=
  fun h => match list_copy r h with
           | Ok (w, h') => ([Allocated w h'], Ok (w, h'))
           | Raise e => ([], Raise e)
           end.

(** The test [board[i] is None] of the generator, observed. *)
Definition consider (r : Ref) (i : nat) : Traced Tile :=
  fun h => ([Considered r i h], getitem r i h).

Fixpoint scan_line_traced (board : Ref) (side : Side) (to_check : list nat)
    (count : nat) (empty_spot : option nat) : Traced (nat * option nat) :=
  match to_check with
  | [] => tret (count, empty_spot)
  | i :: rest =>
      t <~ silent (getitem board i) ;;
      match t with
      | None => scan_line_traced board side rest count (Some i)
      | Some s =>
          if side_eqb s side
          then scan_line_traced board side rest (S count) empty_spot
          else scan_line_traced board side rest count empty_spot
      end
  end.

Fixpoint find_in_lines_traced (board : Ref) (side : Side)
    (lines : list (list nat)) : Traced (option nat) :=
  match lines with
  | [] => tret None
  | to_check :: rest =>
      r <~ scan_line_traced board side to_check 0 None ;;
      let '(count, empty_spot) := r in
      if (count =? 2) && bool_decide (empty_spot <> None)
      then tret empty_spot
      else find_in_lines_traced board side rest
  end.

Definition _find_win_move_traced (board : Ref) (side : Side)
    : Traced (option nat) :=
  find_in_lines_traced board side to_checks.

Section ObservedGenerator.

Variable eval : Ref -> Side -> bool -> Traced Z.

Fixpoint move_scores_from_traced (pending : list nat) (board : Ref)
    (current_side : Side) (is_maximizing : bool)
    : Traced (list (nat * Z)) :=
  match pending with
  | [] => tret []
  | i :: rest =>
      t <~ consider board i ;;
      if is_none t then
        setitem_traced board i
          (Some (if is_maximizing then current_side
                 else swap_side current_side)) ;;~
        max_score <~ eval board current_side is_maximizing ;;
        setitem_traced board i None ;;~
        more <~ move_scores_from_traced rest board current_side
                  is_maximizing ;;
        tret ((i, max_score) :: more)
      else move_scores_from_traced rest board current_side is_maximizing
  end.

End ObservedGenerator.

Fixpoint _max_score_traced (fuel : nat) (board : Ref) (current_side : Side)
    (is_maximizing : bool) : Traced Z :=
  match fuel with
  | 0 => silent (raise OutOfFuel)
  | S fuel' =>
      won <~ silent (if is_maximizing then has_won board current_side
                     else ret false) ;;
      if won then tret 1%Z else
      lost <~ silent (if negb is_maximizing
                      then has_won board (swap_side current_side)
                      else ret false) ;;
      if lost then tret (-1)%Z else
      b <~ silent (deref board) ;;
      if forallb (fun t => negb (is_none t)) b then tret 0%Z else
      let is_maximizing := negb is_maximizing in
      n <~ silent (len board) ;;
      pairs <~ move_scores_from_traced (_max_score_traced fuel') (seq 0 n)
                 board current_side is_maximizing ;;
      let scores := map snd pairs in
      silent (if is_maximizing then py_max scores else py_min scores)
  end.

Definition _move_scores_traced (fuel : nat) (board : Ref)
    (current_side : Side) (is_maximizing : bool)
    : Traced (list (nat * Z)) :=
  n <~ silent (len board) ;;
  move_scores_from_traced (_max_score_traced fuel) (seq 0 n) board
    current_side is_maximizing.

Definition minimax_move_traced (d : Draws) (fuel : nat) (board_view : Ref)
    (current_side : Side) : Traced nat :=
  board <~ list_copy_traced board_view ;;
  move_scores <~ _move_scores_traced fuel board current_side true ;;
  match move_scores with
  | [] => silent (raise StopIteration)
  | (best_move, max_score) :: rest =>
      silent
        (choice d (fst (fold_left best_step rest ([best_move], max_score))))
  end.

Definition decide_move_at_traced (self : MinimaxAi) (d : Draws) (fuel : nat)
    (board_view : Ref) (current_side : Side) : Traced (ReturnSite * nat) :=
  view <~ silent (deref board_view) ;;
  if forallb is_none view then tret (OpeningReturn, randrange d 0 9)
  else if Qle_bool (fst (think_chance self)) (first_random d) then
    obvious <~
      (if negb (Qle_bool (snd (think_chance self)) (second_random d)) then
         own <~ _find_win_move_traced board_view current_side ;;
         match own with
         | Some spot => tret (Some (WinReturn, spot))
         | None =>
             block <~ _find_win_move_traced board_view
                        (swap_side current_side) ;;
             match block with
             | Some spot => tret (Some (BlockReturn, spot))
             | None => tret None
             end
         end
       else tret None) ;;
    match obvious with
    | Some r => tret r
    | None =>
        view <~ silent (deref board_view) ;;
        spot <~ silent (choice d (avail_moves view)) ;;
        tret (RandomReturn, spot)
    end
  else
    spot <~ minimax_move_traced d fuel board_view current_side ;;
    tret (MinimaxReturn, spot).

Definition decide_move_traced (self : MinimaxAi) (d : Draws) (fuel : nat)
    (board_view : Ref) (current_side : Side) : Traced nat :=
  r <~ decide_move_at_traced self d fuel board_view current_side ;;
  tret (snd r).

(** The store and the object of an observation. *)
Definition obs_store (o : Obs) : Heap :=
  match o with
  | Allocated _ h | Wrote _ _ _ h | Considered _ _ h => h
  end.

Definition obs_ref (o : Obs) : Ref :=
  match o with
  | Allocated r _ | Wrote r _ _ _ | Considered r _ _ => r
  end.

Definition is_allocation (o : Obs) : bool :=
  match o with
  | Allocated _ _ => true
  | _ => false
  end.

(** Two stores hold the same objects, except possibly at [w]. *)
Definition off_board (w : Ref) (h hk : Heap) : Prop :=
  length hk = length h /\ forall r, r <> w -> hk !! r = h !! r.

(** The observation concerns the object [w] alone. *)
Definition obs_on (w : Ref) (h : Heap) (o : Obs) : Prop :=
  is_allocation o = false /\ obs_ref o = w /\ off_board w h (obs_store o).

(** A computation confined to the object [w]: it allocates nothing, and
    every store it goes through, and the store it returns, differ from the
    store on entry at most at [w]. *)
Definition confined {A} (w : Ref) (m : Traced A) : Prop :=
  forall h,
    Forall (obs_on w h) (fst (m h))
    /\ forall a h', snd (m h) = Ok (a, h') -> off_board w h h'.

(** A computation that makes no observation and returns the store as it
    found it. *)
Definition quiet {A} (m : Traced A) : Prop :=
  forall h,
    fst (m h) = [] /\ forall a h', snd (m h) = Ok (a, h') -> h' = h.

(** The plain computation under an observed one. *)
Definition erase {A} (m : Traced A) : Py A := fun h => snd (m h).

(** The observations the generator makes for one candidate [i], run from
    the store [h] in which its board holds [b]: the test of the cell in the
    store [h]; and, when the cell is empty, the mark written, the
    observations of the evaluator on the marked board, and the mark removed,
    which gives the store [h] back. *)
Definition candidate_obs (eval : Ref -> Side -> bool -> Traced Z)
    (board : Ref) (side : Side) (m : bool) (h : Heap) (b : Board) (i : nat)
    : list Obs :=
  Considered board i h
  :: (if empty_at b i
      then Wrote board i (Some (mover side m))
             (<[board := place b i (mover side m)]> h)
           :: fst (eval board side m (<[board := place b i (mover side m)]> h))
           ++ [Wrote board i None h]
      else []).

(** Whether [decide_move] searches: the view is not all empty and the first
    draw is below the chance to think deeply. *)
Definition searches (self : MinimaxAi) (d : Draws) (b : Board) : bool :=
  negb (forallb is_none b)
  && negb (Qle_bool (fst (think_chance self)) (first_random d)).

(** ** Boards and draws of the concrete scenarios *)

Definition empty_board : Board := replicate 9 None.

(** [[X, X, None, None, O, None, None, None, None]] *)
Definition top_row_board : Board :=
  [Some X; Some X; None; None; Some O; None; None; None; None].

(** [[X, X, None, O, O, None, None, None, None]] *)
Definition block_board : Board :=
  [Some X; Some X; None; Some O; Some O; None; None; None; None].

(** A board no alternating play reaches: both sides have a full line, and
    the middle row holds two [O] and one [X]. *)
Definition unreachable_board : Board :=
  [Some X; Some X; Some X; Some O; Some O; Some X; Some O; Some O; Some O].

Definition zero_draws : Draws :=
  {| first_random := 0%Q; second_random := 0%Q; pick := 0 |}.

Definition pick_one : Draws :=
  {| first_random := 0%Q; second_random := 0%Q; pick := 1 |}.

(** * Properties *)

(** ** Empty cells *)

Lemma map_in_ext {A B} (l : list A) (f : forall x, In x l -> B) (g : A -> B) :
  (forall x H, f x H = g x) -> map_in l f = map g l.
Proof.
  induction l as [|x xs IH]; intros Hfg; simpl; [reflexivity|].
  rewrite Hfg. f_equal. apply IH. intros y Hy. apply Hfg.
Qed.

Lemma count_empty_insert_some (b : Board) (i : nat) (s : Side) :
  b !! i = Some None ->
  S (count_empty (<[i := Some s]> b)) = count_empty b.
Proof.
  unfold count_empty. revert i.
  induction b as [|t b IH]; intros [|i] Hi; simpl in *; try discriminate.
  - inversion Hi; subst. reflexivity.
  - destruct (is_none t); simpl; rewrite <- (IH i Hi); reflexivity.
Qed.

Lemma empty_at_true (b : Board) (i : nat) :
  empty_at b i = true <-> b !! i = Some None.
Proof.
  unfold empty_at. destruct (b !! i) as [[s|]|]; split; congruence.
Qed.

Lemma in_empties (b : Board) (i : nat) :
  In i (empties b) <-> b !! i = Some None.
Proof.
  unfold empties. rewrite filter_In, empty_at_true, in_seq. split.
  - intros [_ H]; exact H.
  - intros H. split; [|exact H]. apply lookup_lt_Some in H. lia.
Qed.

(** ** Reasoning about the store primitives *)

Lemma bind_Ok {A B} (m : Py A) (k : A -> Py B) (h h' : Heap) (a : A) :
  m h = Ok (a, h') -> bind m k h = k a h'.
Proof. unfold bind. intros ->. reflexivity. Qed.

Lemma bind_Raise {A B} (m : Py A) (k : A -> Py B) (h : Heap) (e : Exn) :
  m h = Raise e -> bind m k h = Raise e.
Proof. unfold bind. intros ->. reflexivity. Qed.

Lemma bind_inv {A B} (m : Py A) (k : A -> Py B) (h h2 : Heap) (y : B) :
  bind m k h = Ok (y, h2) ->
  exists a h1, m h = Ok (a, h1) /\ k a h1 = Ok (y, h2).
Proof.
  unfold bind. destruct (m h) as [[a h1]|e]; [|discriminate].
  intros H. exists a, h1. split; [reflexivity|exact H].
Qed.

Lemma deref_Ok (r : Ref) (h : Heap) (b : Board) :
  h !! r = Some b -> deref r h = Ok (b, h).
Proof. unfold deref. intros ->. reflexivity. Qed.

Lemma deref_inv (r : Ref) (h h' : Heap) (b : Board) :
  deref r h = Ok (b, h') -> h !! r = Some b /\ h' = h.
Proof.
  unfold deref. destruct (h !! r); [|discriminate].
  intros [= -> ->]. split; reflexivity.
Qed.

Lemma getitem_Ok (r : Ref) (i : nat) (h : Heap) (b : Board) (t : Tile) :
  h !! r = Some b -> b !! i = Some t -> getitem r i h = Ok (t, h).
Proof.
  intros Hr Hi. unfold getitem. rewrite (bind_Ok _ _ _ _ _ (deref_Ok _ _ _ Hr)).
  rewrite Hi. reflexivity.
Qed.

Lemma getitem_inv (r : Ref) (i : nat) (h h' : Heap) (t : Tile) :
  getitem r i h = Ok (t, h') ->
  h' = h /\ exists b, h !! r = Some b /\ b !! i = Some t.
Proof.
  unfold getitem. intros H. apply bind_inv in H as (b & h1 & Hd & Hk).
  apply deref_inv in Hd as [Hb ->].
  destruct (b !! i) as [t'|] eqn:Hi; [|discriminate].
  injection Hk as -> ->. split; [reflexivity|]. exists b. split; assumption.
Qed.

Lemma setitem_Ok (r : Ref) (i : nat) (t : Tile) (h : Heap) (b : Board) :
  h !! r = Some b -> i < length b ->
  setitem r i t h = Ok (tt, <[r := <[i := t]> b]> h).
Proof.
  intros Hr Hi. unfold setitem. rewrite Hr.
  apply Nat.ltb_lt in Hi. rewrite Hi. reflexivity.
Qed.

Lemma setitem_inv (r : Ref) (i : nat) (t : Tile) (h h' : Heap) (u : unit) :
  setitem r i t h = Ok (u, h') ->
  exists b, h !! r = Some b /\ i < length b /\ h' = <[r := <[i := t]> b]> h.
Proof.
  unfold setitem. destruct (h !! r) as [b|] eqn:Hr; [|discriminate].
  destruct (i <? length b) eqn:Hi; [|discriminate].
  intros [= <-]. exists b. apply Nat.ltb_lt in Hi. auto.
Qed.

Lemma len_Ok (r : Ref) (h : Heap) (b : Board) :
  h !! r = Some b -> len r h = Ok (length b, h).
Proof.
  intros Hr. unfold len. rewrite (bind_Ok _ _ _ _ _ (deref_Ok _ _ _ Hr)).
  reflexivity.
Qed.

Lemma has_won_Ok (r : Ref) (side : Side) (h : Heap) (b : Board) :
  h !! r = Some b -> has_won r side h = Ok (board_has_won b side, h).
Proof.
  intros Hr. unfold has_won.
  rewrite (bind_Ok _ _ _ _ _ (deref_Ok _ _ _ Hr)). reflexivity.
Qed.

(** Writing a tile and writing the old tile back restores the store. *)
Lemma store_restore (h : Heap) (r : Ref) (b : Board) (i : nat) (t s : Tile) :
  h !! r = Some b -> b !! i = Some t ->
  <[r := <[i := t]> (<[i := s]> b)]> (<[r := <[i := s]> b]> h) = h.
Proof.
  intros Hr Hi.
  rewrite !list_insert_insert_eq, (list_insert_id b i t Hi).
  apply list_insert_id, Hr.
Qed.

Lemma lookup_store_insert (h : Heap) (r : Ref) (b b' : Board) :
  h !! r = Some b -> <[r := b']> h !! r = Some b'.
Proof. intros Hr. apply list_lookup_insert_eq. eapply lookup_lt_Some, Hr. Qed.

(** ** The generator restores the board and scores the empty cells *)

Section GeneratorSpec.

Variable eval : Ref -> Side -> bool -> Py Z.
Variables (board : Ref) (side : Side) (m : bool).
Variables (b : Board) (h : Heap) (score : nat -> Z).

Hypothesis Hboard : h !! board = Some b.
Hypothesis Heval : forall i,
  b !! i = Some None ->
  eval board side m (<[board := place b i (mover side m)]> h)
  = Ok (score i, <[board := place b i (mover side m)]> h).

Lemma move_scores_from_Ok (pending : list nat) :
  (forall i, In i pending -> i < length b) ->
  move_scores_from eval pending board side m h
  = Ok (map (fun i => (i, score i)) (List.filter (empty_at b) pending), h).
Proof.
  induction pending as [|i rest IH]; intros Hrange; [reflexivity|].
  assert (Hi : i < length b) by (apply Hrange; left; reflexivity).
  assert (IH' := IH (fun j Hj => Hrange j (or_intror Hj))). clear IH.
  destruct (lookup_lt_is_Some_2 b i Hi) as [t Ht].
  cbn [move_scores_from List.filter].
  rewrite (bind_Ok _ _ _ _ _ (getitem_Ok _ _ _ _ _ Hboard Ht)).
  unfold empty_at at 1. rewrite Ht.
  destruct t as [s|]; cbn [is_none]; [exact IH'|].
  rewrite (bind_Ok _ _ _ _ _ (setitem_Ok _ _ _ _ _ Hboard Hi)).
  fold (mover side m). fold (place b i (mover side m)).
  rewrite (bind_Ok _ _ _ _ _ (Heval i Ht)).
  assert (Hi' : i < length (place b i (mover side m)))
    by (unfold place; rewrite length_insert; exact Hi).
  rewrite (bind_Ok _ _ _ _ _
             (setitem_Ok _ _ None _ _
                (lookup_store_insert _ _ _ _ Hboard) Hi')).
  unfold place at 1 2. rewrite (store_restore h board b i None _ Hboard Ht).
  rewrite (bind_Ok _ _ _ _ _ IH'). reflexivity.
Qed.

End GeneratorSpec.

(** ** The evaluator computes the value of the position *)

Lemma game_value_cases (b : Board) (s : Side) (m : bool) :
  game_value b s m =
    if m && board_has_won b s then 1%Z
    else if negb m && board_has_won b (swap_side s) then (-1)%Z
    else if board_full b then 0%Z
    else aggregate (negb m)
           (map (fun i => game_value (place b i (mover s (negb m))) s (negb m))
              (empties b)).
Proof.
  rewrite game_value_equation_1.
  rewrite (map_in_ext (empties b) _
             (fun i => game_value (place b i (mover s (negb m))) s (negb m)));
    [reflexivity|].
  intros i Hi. reflexivity.
Qed.

Lemma empties_nonempty (b : Board) :
  board_full b = false -> exists i rest, empties b = i :: rest.
Proof.
  intros Hfull.
  assert (Hex : exists i, b !! i = Some None).
  { unfold board_full in Hfull.
    induction b as [|t b IH]; [discriminate|].
    destruct t as [s|].
    - destruct (IH Hfull) as [i Hi]. exists (S i). exact Hi.
    - exists 0. reflexivity. }
  destruct Hex as [i Hi]. apply in_empties in Hi.
  destruct (empties b) as [|j rest]; [destruct Hi|]. eauto.
Qed.

Lemma max_score_Ok (fuel : nat) :
  forall (board : Ref) (side : Side) (m : bool) (h : Heap) (b : Board),
    h !! board = Some b ->
    count_empty b < fuel ->
    _max_score fuel board side m h = Ok (game_value b side m, h).
Proof.
  induction fuel as [|fuel IH]; intros board side m h b Hb Hfuel; [lia|].
  assert (Hrec : forall m',
    move_scores_from (_max_score fuel) (seq 0 (length b)) board side m' h
    = Ok (map (fun i => (i, game_value (place b i (mover side m')) side m'))
            (empties b), h)).
  { intros m'. unfold empties.
    apply (move_scores_from_Ok (_max_score fuel) board side m' b h
             (fun i => game_value (place b i (mover side m')) side m') Hb).
    - intros i Hi. apply IH.
      + apply (lookup_store_insert _ _ _ _ Hb).
      + unfold place.
        pose proof (count_empty_insert_some b i (mover side m') Hi). lia.
    - intros i Hi. apply in_seq in Hi. lia. }
  rewrite game_value_cases. cbn [_max_score].
  assert (Hcont :
    bind (deref board) (fun b0 =>
      if forallb (fun t => negb (is_none t)) b0 then ret 0%Z
      else bind (len board) (fun n =>
        bind (move_scores_from (_max_score fuel) (seq 0 n) board side (negb m))
          (fun pairs =>
             if negb m then py_max (map snd pairs)
             else py_min (map snd pairs)))) h
    = Ok (if board_full b then 0%Z
          else aggregate (negb m)
                 (map (fun i => game_value (place b i (mover side (negb m)))
                                  side (negb m)) (empties b)), h)).
  { rewrite (bind_Ok _ _ _ _ _ (deref_Ok _ _ _ Hb)).
    fold (board_full b). destruct (board_full b) eqn:Hfull; [reflexivity|].
    rewrite (bind_Ok _ _ _ _ _ (len_Ok _ _ _ Hb)).
    rewrite (bind_Ok _ _ _ _ _ (Hrec (negb m))).
    rewrite map_map. cbn [snd].
    destruct (empties_nonempty b Hfull) as (i & rest & ->).
    destruct (negb m); reflexivity. }
  destruct m; cbn [negb andb].
  - rewrite (bind_Ok _ _ _ _ _ (has_won_Ok _ side _ _ Hb)).
    destruct (board_has_won b side); [reflexivity|].
    exact Hcont.
  - change (bind (ret false) ?k h) with (k false h). cbn beta iota.
    rewrite (bind_Ok _ _ _ _ _ (has_won_Ok _ (swap_side side) _ _ Hb)).
    destruct (board_has_won b (swap_side side)); [reflexivity|].
    exact Hcont.
Qed.

(** ** Scores lie in {-1, 0, 1} *)

Lemma fold_max_score (l : list Z) (a : Z) :
  is_score a -> Forall is_score l -> is_score (fold_left Z.max l a).
Proof.
  revert a. induction l as [|x l IH]; intros a Ha Hl; [exact Ha|].
  inversion Hl as [|? ? Hx Hl']; subst. cbn [fold_left]. apply IH; [|exact Hl'].
  unfold is_score in *. lia.
Qed.

Lemma fold_min_score (l : list Z) (a : Z) :
  is_score a -> Forall is_score l -> is_score (fold_left Z.min l a).
Proof.
  revert a. induction l as [|x l IH]; intros a Ha Hl; [exact Ha|].
  inversion Hl as [|? ? Hx Hl']; subst. cbn [fold_left]. apply IH; [|exact Hl'].
  unfold is_score in *. lia.
Qed.

Lemma aggregate_score (m : bool) (l : list Z) :
  Forall is_score l -> is_score (aggregate m l).
Proof.
  intros Hl. unfold aggregate, maximum, minimum.
  destruct m, l as [|x l]; try (right; left; reflexivity);
    inversion Hl; subst; auto using fold_max_score, fold_min_score.
Qed.

Lemma game_value_score (b : Board) (s : Side) (m : bool) :
  is_score (game_value b s m).
Proof.
  remember (count_empty b) as n eqn:Hn. revert b s m Hn.
  induction n as [n IH] using lt_wf_ind. intros b s m Hn.
  rewrite game_value_cases.
  destruct (m && board_has_won b s); [right; right; reflexivity|].
  destruct (negb m && board_has_won b (swap_side s)); [left; reflexivity|].
  destruct (board_full b); [right; left; reflexivity|].
  apply aggregate_score, List.Forall_forall. intros v Hv.
  apply in_map_iff in Hv as (i & <- & Hi). apply in_empties in Hi.
  apply (IH (count_empty (place b i (mover s (negb m))))); [|reflexivity].
  pose proof (count_empty_insert_some b i (mover s (negb m)) Hi).
  unfold place. lia.
Qed.

(** ** The immediate-win finder *)

Lemma scan_line_Ok (board : Ref) (side : Side) (h : Heap) (b : Board) :
  h !! board = Some b ->
  forall (line : list nat) (count : nat) (e : option nat),
    Forall (fun i => i < length b) line ->
    scan_line board side line count e h
    = Ok ((count + count_owned b side line, last_free b line e), h).
Proof.
  intros Hb. induction line as [|i line IH]; intros count e Hline.
  - cbn. rewrite Nat.add_0_r. reflexivity.
  - apply Forall_cons in Hline as [Hi Hline].
    destruct (lookup_lt_is_Some_2 b i Hi) as [t Ht].
    cbn [scan_line]. rewrite (bind_Ok _ _ _ _ _ (getitem_Ok _ _ _ _ _ Hb Ht)).
    assert (Ho : owned_by b side i
                 = match t with Some s => side_eqb s side | None => false end)
      by (unfold owned_by; rewrite Ht; reflexivity).
    assert (He : empty_at b i = is_none t)
      by (unfold empty_at; rewrite Ht; destruct t; reflexivity).
    unfold count_owned, last_free. cbn [List.filter fold_left].
    rewrite Ho, He.
    destruct t as [s|]; [destruct (side_eqb s side)|];
      rewrite (IH _ _ Hline); unfold count_owned, last_free;
      cbn [length Nat.add is_none]; rewrite ?Nat.add_succ_r; reflexivity.
Qed.

(** On a line of three cells the test of the source, [count == 2] with a
    recorded empty spot, is the test of the specification, and the recorded
    spot is the only empty cell. *)
Lemma line_test_agrees (b : Board) (side : Side) (i j k : nat) :
  (count_owned b side [i; j; k] =? 2)
    && bool_decide (last_free b [i; j; k] None <> None)
  = qualifies b side [i; j; k]
  /\ (qualifies b side [i; j; k] = true ->
      last_free b [i; j; k] None = free_cell b [i; j; k]).
Proof.
  unfold qualifies, count_owned, count_free, last_free, free_cell.
  cbn [List.filter fold_left List.find].
  unfold owned_by, empty_at.
  destruct (b !! i) as [[si|]|], (b !! j) as [[sj|]|], (b !! k) as [[sk|]|];
    try destruct (side_eqb si side); try destruct (side_eqb sj side);
    try destruct (side_eqb sk side);
    cbn; split; (reflexivity || discriminate || auto).
Qed.

Lemma find_in_lines_Ok (board : Ref) (side : Side) (h : Heap) (b : Board) :
  h !! board = Some b ->
  forall lines : list (list nat),
    Forall (triple_in (length b)) lines ->
    find_in_lines board side lines h
    = Ok (match List.find (qualifies b side) lines with
          | Some line => free_cell b line
          | None => None
          end, h).
Proof.
  intros Hb. induction lines as [|line lines IH]; intros Hlines;
    [reflexivity|].
  apply Forall_cons in Hlines as [(i & j & k & -> & Hi & Hj & Hk) Hlines].
  cbn [find_in_lines List.find].
  rewrite (bind_Ok _ _ _ _ _
             (scan_line_Ok board side h b Hb [i; j; k] 0 None
                ltac:(repeat constructor; assumption))).
  cbn [Nat.add].
  destruct (line_test_agrees b side i j k) as [Htest Hspot].
  rewrite Htest. destruct (qualifies b side [i; j; k]).
  - rewrite (Hspot eq_refl). reflexivity.
  - apply IH, Hlines.
Qed.

Lemma to_checks_triples : Forall (triple_in 9) to_checks.
Proof.
  unfold to_checks.
  repeat (constructor;
          [eexists _, _, _; split; [reflexivity|]; repeat split; lia|]).
  constructor.
Qed.

Lemma find_win_move_Ok (board : Ref) (side : Side) (h : Heap) (b : Board) :
  h !! board = Some b -> length b = 9 ->
  _find_win_move board side h = Ok (first_win_move b side, h).
Proof.
  intros Hb Hlen. unfold _find_win_move, first_win_move.
  apply (find_in_lines_Ok board side h b Hb to_checks).
  rewrite Hlen. exact to_checks_triples.
Qed.

Lemma first_win_move_free (b : Board) (side : Side) (i : nat) :
  first_win_move b side = Some i -> b !! i = Some None.
Proof.
  unfold first_win_move, free_cell.
  destruct (List.find (qualifies b side) _) as [line|]; [|discriminate].
  intros H. apply find_some in H as [_ H]. apply empty_at_true, H.
Qed.

(** ** The moves generated at the root *)

Lemma move_scores_Ok (fuel : nat) (board : Ref) (side : Side) (m : bool)
    (h : Heap) (b : Board) :
  h !! board = Some b ->
  count_empty b <= fuel ->
  _move_scores fuel board side m h
  = Ok (map (fun i => (i, game_value (place b i (mover side m)) side m))
          (empties b), h).
Proof.
  intros Hb Hfuel. unfold _move_scores.
  rewrite (bind_Ok _ _ _ _ _ (len_Ok _ _ _ Hb)). unfold empties.
  apply (move_scores_from_Ok (_max_score fuel) board side m b h
           (fun i => game_value (place b i (mover side m)) side m) Hb).
  - intros i Hi. apply max_score_Ok.
    + apply (lookup_store_insert _ _ _ _ Hb).
    + unfold place.
      pose proof (count_empty_insert_some b i (mover side m) Hi). lia.
  - intros i Hi. apply in_seq in Hi. lia.
Qed.

(** ** The best moves kept by the loop of [decide_move] *)

Lemma maximum_snoc (l : list Z) (x : Z) :
  l <> [] -> maximum (l ++ [x]) = Z.max (maximum l) x.
Proof.
  destruct l as [|a l]; [congruence|]. intros _.
  cbn [maximum app]. rewrite fold_left_app. reflexivity.
Qed.

Lemma fold_max_ge (l : list Z) (a : Z) :
  (a <= fold_left Z.max l a)%Z
  /\ forall x, In x l -> (x <= fold_left Z.max l a)%Z.
Proof.
  revert a. induction l as [|y l IH]; intros a; cbn [fold_left].
  - split; [lia|]. intros x [].
  - destruct (IH (Z.max a y)) as [H1 H2]. split; [lia|].
    intros x [<-|Hx]; [lia|]. apply H2, Hx.
Qed.

Lemma maximum_ge (l : list Z) (x : Z) : In x l -> (x <= maximum l)%Z.
Proof.
  destruct l as [|a l]; [intros []|]. cbn [maximum].
  destruct (fold_max_ge l a) as [H1 H2].
  intros [<-|Hx]; [exact H1|]. apply H2, Hx.
Qed.

Lemma fold_max_in (l : list Z) (a : Z) :
  fold_left Z.max l a = a \/ In (fold_left Z.max l a) l.
Proof.
  revert a. induction l as [|y l IH]; intros a; cbn [fold_left];
    [left; reflexivity|].
  destruct (IH (Z.max a y)) as [H|H].
  - rewrite H. destruct (Z.max_spec a y) as [[_ ->]|[_ ->]];
      [right; left; reflexivity|left; reflexivity].
  - right. right. exact H.
Qed.

Lemma maximum_in (l : list Z) : l <> [] -> In (maximum l) l.
Proof.
  destruct l as [|a l]; [congruence|]. intros _. cbn [maximum].
  destruct (fold_max_in l a) as [->|H]; [left; reflexivity|right; exact H].
Qed.

Lemma filter_none {A} (f : A -> bool) (l : list A) :
  (forall x, In x l -> f x = false) -> List.filter f l = [].
Proof.
  induction l as [|x l IH]; intros H; [reflexivity|]. cbn [List.filter].
  rewrite (H x (or_introl eq_refl)). apply IH. intros y Hy. apply H.
  right. exact Hy.
Qed.

Lemma best_step_snoc (seen : list (nat * Z)) (p : nat * Z) :
  seen <> [] -> best_step (best_of seen) p = best_of (seen ++ [p]).
Proof.
  intros Hseen. destruct p as [move score]. unfold best_of, best_step.
  rewrite map_app. cbn [map snd].
  rewrite maximum_snoc by (destruct seen; [congruence|discriminate]).
  set (top := maximum (map snd seen)).
  rewrite List.filter_app, map_app. cbn [List.filter snd].
  destruct (score >? top)%Z eqn:Hgt; [|destruct (score =? top)%Z eqn:Heq].
  - apply Z.gtb_lt in Hgt. rewrite Z.max_r by lia. rewrite Z.eqb_refl.
    rewrite filter_none; [reflexivity|].
    intros q Hq. apply Z.eqb_neq.
    assert (snd q <= top)%Z by (apply maximum_ge, in_map, Hq). lia.
  - apply Z.eqb_eq in Heq. subst score. rewrite Z.max_id, Z.eqb_refl.
    reflexivity.
  - apply Z.eqb_neq in Heq. rewrite Z.gtb_ltb in Hgt.
    apply Z.ltb_ge in Hgt. rewrite Z.max_l by lia.
    apply Z.eqb_neq in Heq. rewrite Heq. cbn [map]. rewrite app_nil_r.
    reflexivity.
Qed.

Lemma best_fold (rest seen : list (nat * Z)) :
  seen <> [] ->
  fold_left best_step rest (best_of seen) = best_of (seen ++ rest).
Proof.
  revert seen. induction rest as [|p rest IH]; intros seen Hseen.
  - rewrite app_nil_r. reflexivity.
  - cbn [fold_left]. rewrite best_step_snoc by exact Hseen.
    rewrite IH by (destruct seen; discriminate).
    rewrite <- app_assoc. reflexivity.
Qed.

Lemma best_loop (p : nat * Z) (rest : list (nat * Z)) :
  fold_left best_step rest ([fst p], snd p) = best_of (p :: rest).
Proof.
  change (p :: rest) with ([p] ++ rest).
  rewrite <- (best_fold rest [p]) by discriminate.
  unfold best_of. cbn. rewrite Z.eqb_refl. reflexivity.
Qed.

Lemma best_of_nonempty (pairs : list (nat * Z)) :
  pairs <> [] -> fst (best_of pairs) <> [].
Proof.
  intros Hne. unfold best_of. cbn [fst].
  assert (Hin : In (maximum (map snd pairs)) (map snd pairs))
    by (apply maximum_in; destruct pairs; [congruence|discriminate]).
  apply in_map_iff in Hin as (q & Hq & Hin).
  assert (Hf : In q (List.filter
                       (fun p => (snd p =? maximum (map snd pairs))%Z) pairs))
    by (apply filter_In; split; [exact Hin|apply Z.eqb_eq, Hq]).
  intros Hnil. apply (in_map fst) in Hf. rewrite Hnil in Hf. destruct Hf.
Qed.

Lemma best_of_in (pairs : list (nat * Z)) (move : nat) :
  In move (fst (best_of pairs)) ->
  In (move, snd (best_of pairs)) pairs
  /\ forall q, In q pairs -> (snd q <= snd (best_of pairs))%Z.
Proof.
  unfold best_of. cbn [fst snd]. intros H.
  apply in_map_iff in H as ([mv sc] & <- & Hq).
  apply filter_In in Hq as [Hin Heq]. apply Z.eqb_eq in Heq.
  cbn [snd fst] in *. subst sc. split; [exact Hin|].
  intros q Hq. apply maximum_ge, in_map, Hq.
Qed.

(** [random.choice] returns an element of a non-empty sequence. *)
Lemma choice_Ok {A} (d : Draws) (l : list A) (h : Heap) :
  l <> [] -> exists x, choice d l h = Ok (x, h) /\ In x l.
Proof.
  intros Hne. unfold choice.
  assert (Hlt : pick d mod length l < length l)
    by (apply Nat.mod_upper_bound; destruct l; [congruence|discriminate]).
  destruct (lookup_lt_is_Some_2 l _ Hlt) as [x Hx]. rewrite Hx.
  exists x. split; [reflexivity|].
  apply list_elem_of_In, list_elem_of_lookup. eauto.
Qed.

(** ** The search branch of [decide_move] *)

Lemma list_copy_Ok (r : Ref) (h : Heap) (b : Board) :
  h !! r = Some b ->
  list_copy r h = Ok (length h, h ++ [b])
  /\ (h ++ [b]) !! length h = Some b.
Proof.
  intros Hr. unfold list_copy. rewrite Hr. split; [reflexivity|].
  apply list_lookup_middle. reflexivity.
Qed.

Lemma has_empty_empties (b : Board) :
  (exists i, b !! i = Some None) -> empties b <> [].
Proof.
  intros [i Hi] Hnil. apply in_empties in Hi. rewrite Hnil in Hi. exact Hi.
Qed.

Lemma minimax_move_Ok (d : Draws) (fuel : nat) (view : Ref) (side : Side)
    (h : Heap) (b : Board) :
  h !! view = Some b ->
  count_empty b <= fuel ->
  (exists i, b !! i = Some None) ->
  exists mv,
    minimax_move d fuel view side h = Ok (mv, h ++ [b])
    /\ In mv (fst (best_of (root_scores b side))).
Proof.
  intros Hb Hfuel Hfree. unfold minimax_move.
  destruct (list_copy_Ok view h b Hb) as [Hcopy Hwork].
  rewrite (bind_Ok _ _ _ _ _ Hcopy).
  rewrite (bind_Ok _ _ _ _ _
             (move_scores_Ok fuel _ side true _ b Hwork Hfuel)).
  change (map _ (empties b)) with (root_scores b side).
  assert (Hne : root_scores b side <> []).
  { unfold root_scores. intros Hnil. apply map_eq_nil in Hnil.
    exact (has_empty_empties b Hfree Hnil). }
  destruct (root_scores b side) as [|[m0 s0] rest] eqn:Hpairs;
    [congruence|].
  pose proof (best_loop (m0, s0) rest) as Hloop.
  change (fold_left best_step rest ([m0], s0) = best_of ((m0, s0) :: rest))
    in Hloop.
  cbn beta iota. rewrite Hloop.
  destruct (choice_Ok d (fst (best_of ((m0, s0) :: rest))) (h ++ [b])
              (best_of_nonempty _ Hne)) as (mv & Hmv & Hin).
  exists mv. split; assumption.
Qed.

(** On a board without an empty cell the generator yields nothing and
    [next] raises [StopIteration]. *)
Lemma minimax_move_full (d : Draws) (fuel : nat) (view : Ref) (side : Side)
    (h : Heap) (b : Board) :
  h !! view = Some b ->
  empties b = [] ->
  minimax_move d fuel view side h = Raise StopIteration.
Proof.
  intros Hb Hfull. unfold minimax_move.
  destruct (list_copy_Ok view h b Hb) as [Hcopy Hwork].
  rewrite (bind_Ok _ _ _ _ _ Hcopy).
  assert (Hcount : count_empty b <= fuel).
  { enough (count_empty b = 0) by lia.
    unfold count_empty. apply length_zero_iff_nil, filter_none.
    intros t Ht. destruct t as [s|]; [reflexivity|].
    apply list_elem_of_In, list_elem_of_lookup in Ht as [i Hi].
    apply in_empties in Hi. rewrite Hfull in Hi. destruct Hi. }
  rewrite (bind_Ok _ _ _ _ _
             (move_scores_Ok fuel _ side true _ b Hwork Hcount)).
  rewrite Hfull. reflexivity.
Qed.

(** ** The moves of the random branch *)

Lemma avail_moves_from (pre b : Board) :
  map fst (List.filter (fun p : nat * Tile => is_none (snd p))
             (combine (seq (length pre) (length b)) b))
  = List.filter (empty_at (pre ++ b)) (seq (length pre) (length b)).
Proof.
  revert pre. induction b as [|t b IH]; intros pre; [reflexivity|].
  cbn [length seq combine List.filter snd].
  assert (He : empty_at (pre ++ t :: b) (length pre) = is_none t).
  { unfold empty_at. rewrite list_lookup_middle by reflexivity.
    destruct t; reflexivity. }
  rewrite He.
  specialize (IH (pre ++ [t])).
  rewrite length_app, Nat.add_1_r, <- app_assoc in IH. cbn [app] in IH.
  destruct (is_none t); cbn [map fst]; rewrite IH; reflexivity.
Qed.

Lemma avail_moves_empties (b : Board) : avail_moves b = empties b.
Proof. exact (avail_moves_from [] b). Qed.

Lemma all_none_lookup (b : Board) (i : nat) :
  forallb is_none b = true -> i < length b -> b !! i = Some None.
Proof.
  intros Hall Hi. destruct (lookup_lt_is_Some_2 b i Hi) as [t Ht].
  rewrite forallb_forall in Hall.
  assert (Hin : In t b)
    by (apply list_elem_of_In, list_elem_of_lookup; eauto).
  specialize (Hall t Hin). destruct t; [discriminate|exact Ht].
Qed.

(** ** Every branch of [decide_move] returns an empty cell *)

Lemma bind_assoc {A B C} (m : Py A) (k : A -> Py B) (k' : B -> Py C)
    (h : Heap) :
  bind (bind m k) k' h = bind m (fun a => bind (k a) k') h.
Proof. unfold bind. destruct (m h) as [[a h1]|e]; reflexivity. Qed.

Lemma random_move_Ok (d : Draws) (view : Ref) (h : Heap) (b : Board) :
  h !! view = Some b ->
  (exists i, b !! i = Some None) ->
  exists mv,
    bind (deref view) (fun v =>
      bind (choice d (avail_moves v)) (fun spot => ret (RandomReturn, spot))) h
    = Ok ((RandomReturn, mv), h)
    /\ b !! mv = Some None.
Proof.
  intros Hb Hfree. rewrite (bind_Ok _ _ _ _ _ (deref_Ok _ _ _ Hb)).
  rewrite avail_moves_empties.
  destruct (choice_Ok d (empties b) h (has_empty_empties b Hfree))
    as (mv & Hmv & Hin).
  rewrite (bind_Ok _ _ _ _ _ Hmv). exists mv. split; [reflexivity|].
  apply in_empties, Hin.
Qed.

Lemma decide_move_at_Ok (self : MinimaxAi) (d : Draws) (fuel : nat)
    (view : Ref) (side : Side) (h : Heap) (b : Board) :
  h !! view = Some b ->
  length b = 9 ->
  (exists i, b !! i = Some None) ->
  count_empty b <= fuel ->
  exists site mv h',
    decide_move_at self d fuel view side h = Ok ((site, mv), h')
    /\ b !! mv = Some None
    /\ (h' = h \/ h' = h ++ [b]).
Proof.
  intros Hb Hlen Hfree Hfuel. unfold decide_move_at.
  rewrite (bind_Ok _ _ _ _ _ (deref_Ok _ _ _ Hb)).
  destruct (forallb is_none b) eqn:Hall.
  { eexists _, _, _. split; [reflexivity|]. split; [|left; reflexivity].
    apply all_none_lookup; [exact Hall|]. rewrite Hlen. unfold randrange.
    pose proof (Nat.mod_upper_bound (pick d) (9 - 0)). lia. }
  destruct (Qle_bool _ _).
  2:{ destruct (minimax_move_Ok d fuel view side h b Hb Hfuel Hfree)
        as (mv & Hmv & Hin).
      rewrite (bind_Ok _ _ _ _ _ Hmv). eexists _, mv, _.
      split; [reflexivity|]. split; [|right; reflexivity].
      apply best_of_in in Hin as [Hin _]. unfold root_scores in Hin.
      apply in_map_iff in Hin as (i & [= -> _] & Hi).
      apply in_empties, Hi. }
  destruct (random_move_Ok d view h b Hb Hfree) as (rmv & Hrandom & Hrfree).
  destruct (negb (Qle_bool _ _)).
  2:{ change (bind (ret None) ?k h) with (k (@None (ReturnSite * nat)) h).
      cbn beta iota. rewrite Hrandom. eauto 8. }
  rewrite bind_assoc.
  rewrite (bind_Ok _ _ _ _ _ (find_win_move_Ok view side h b Hb Hlen)).
  destruct (first_win_move b side) as [spot|] eqn:Hown.
  { eexists _, spot, _. split; [reflexivity|]. split; [|left; reflexivity].
    eapply first_win_move_free, Hown. }
  rewrite bind_assoc.
  rewrite (bind_Ok _ _ _ _ _
             (find_win_move_Ok view (swap_side side) h b Hb Hlen)).
  destruct (first_win_move b (swap_side side)) as [spot|] eqn:Hblock.
  { eexists _, spot, _. split; [reflexivity|]. split; [|left; reflexivity].
    eapply first_win_move_free, Hblock. }
  change (bind (ret None) ?k h) with (k (@None (ReturnSite * nat)) h).
  cbn beta iota. rewrite Hrandom. eauto 8.
Qed.

(** ** Frame: what a computation leaves in the store *)

Lemma preserves_ret {A} (a : A) : preserves (ret a).
Proof. intros h a' h' [= _ ->]. reflexivity. Qed.

Lemma preserves_raise {A} (e : Exn) : preserves (@raise A e).
Proof. intros h a h' H. discriminate H. Qed.

Lemma preserves_bind {A B} (m : Py A) (k : A -> Py B) :
  preserves m -> (forall a, preserves (k a)) -> preserves (bind m k).
Proof.
  intros Hm Hk h y h2 H. apply bind_inv in H as (a & h1 & H1 & H2).
  apply Hm in H1 as ->. apply Hk in H2. exact H2.
Qed.

Lemma preserves_deref (r : Ref) : preserves (deref r).
Proof. intros h b h' H. apply deref_inv in H as [_ ->]. reflexivity. Qed.

Lemma preserves_getitem (r : Ref) (i : nat) : preserves (getitem r i).
Proof. intros h t h' H. apply getitem_inv in H as [-> _]. reflexivity. Qed.

Lemma preserves_len (r : Ref) : preserves (len r).
Proof.
  apply preserves_bind; [apply preserves_deref|]. intros b.
  apply preserves_ret.
Qed.

Lemma preserves_has_won (r : Ref) (side : Side) : preserves (has_won r side).
Proof.
  apply preserves_bind; [apply preserves_deref|]. intros b.
  apply preserves_ret.
Qed.

Lemma preserves_choice {A} (d : Draws) (l : list A) : preserves (choice d l).
Proof.
  unfold choice. destruct (l !! _);
    [apply preserves_ret|apply preserves_raise].
Qed.

Lemma preserves_py_max (l : list Z) : preserves (py_max l).
Proof. destruct l; [apply preserves_raise|apply preserves_ret]. Qed.

Lemma preserves_py_min (l : list Z) : preserves (py_min l).
Proof. destruct l; [apply preserves_raise|apply preserves_ret]. Qed.

Lemma preserves_scan_line (board : Ref) (side : Side) (line : list nat) :
  forall count e, preserves (scan_line board side line count e).
Proof.
  induction line as [|i line IH]; intros count e; cbn [scan_line];
    [apply preserves_ret|].
  apply preserves_bind; [apply preserves_getitem|].
  intros [s|]; [destruct (side_eqb s side)|]; apply IH.
Qed.

Lemma preserves_find_in_lines (board : Ref) (side : Side)
    (lines : list (list nat)) :
  preserves (find_in_lines board side lines).
Proof.
  induction lines as [|line lines IH]; cbn [find_in_lines];
    [apply preserves_ret|].
  apply preserves_bind; [apply preserves_scan_line|].
  intros [count e]. destruct (_ && _); [apply preserves_ret|exact IH].
Qed.

Lemma preserves_find_win_move (board : Ref) (side : Side) :
  preserves (_find_win_move board side).
Proof. apply preserves_find_in_lines. Qed.

(** The generator: each mark is removed before the next index is tried, so
    a drained generator leaves the store as it found it. *)
Lemma preserves_move_scores_from (eval : Ref -> Side -> bool -> Py Z)
    (board : Ref) (side : Side) (m : bool) :
  (forall r s m', preserves (eval r s m')) ->
  forall pending, preserves (move_scores_from eval pending board side m).
Proof.
  intros Heval. induction pending as [|i rest IH]; cbn [move_scores_from];
    [apply preserves_ret|].
  intros h ps h' H. apply bind_inv in H as (t & h0 & Hget & H).
  apply getitem_inv in Hget as (-> & b & Hb & Hi).
  destruct t as [s|]; cbn [is_none] in H; [exact (IH _ _ _ H)|].
  apply bind_inv in H as (u1 & h1 & Hset & H).
  apply setitem_inv in Hset as (b1 & Hb1 & Hlt & ->).
  assert (b1 = b) as -> by congruence.
  apply bind_inv in H as (v & h2 & Hev & H). apply Heval in Hev as ->.
  apply bind_inv in H as (u2 & h3 & Hunset & H).
  apply setitem_inv in Hunset as (b2 & Hb2 & _ & ->).
  rewrite (lookup_store_insert _ _ _ _ Hb) in Hb2. injection Hb2 as <-.
  rewrite (store_restore h board b i None _ Hb Hi) in H.
  apply bind_inv in H as (more & h4 & Hmore & H).
  apply IH in Hmore as ->. injection H as _ ->. reflexivity.
Qed.

Lemma preserves_max_score (fuel : nat) :
  forall board side m, preserves (_max_score fuel board side m).
Proof.
  induction fuel as [|fuel IH]; intros board side m; cbn [_max_score];
    [apply preserves_raise|].
  apply preserves_bind;
    [destruct m; [apply preserves_has_won|apply preserves_ret]|].
  intros [|]; [apply preserves_ret|].
  apply preserves_bind;
    [destruct (negb m); [apply preserves_has_won|apply preserves_ret]|].
  intros [|]; [apply preserves_ret|].
  apply preserves_bind; [apply preserves_deref|]. intros b.
  destruct (forallb _ b); [apply preserves_ret|].
  apply preserves_bind; [apply preserves_len|]. intros n.
  apply preserves_bind; [apply preserves_move_scores_from, IH|].
  intros pairs. destruct (negb m);
    [apply preserves_py_max|apply preserves_py_min].
Qed.

Lemma preserves_move_scores (fuel : nat) (board : Ref) (side : Side)
    (m : bool) :
  preserves (_move_scores fuel board side m).
Proof.
  apply preserves_bind; [apply preserves_len|]. intros n.
  apply preserves_move_scores_from, preserves_max_score.
Qed.

(** The search branch allocates the working copy and nothing else. *)
Lemma minimax_move_frame (d : Draws) (fuel : nat) (view : Ref) (side : Side)
    (h h' : Heap) (mv : nat) :
  minimax_move d fuel view side h = Ok (mv, h') ->
  exists b, h !! view = Some b /\ h' = h ++ [b].
Proof.
  unfold minimax_move. intros H.
  apply bind_inv in H as (w & h1 & Hcopy & H).
  unfold list_copy in Hcopy. destruct (h !! view) as [b|]; [|discriminate].
  injection Hcopy as <- <-. exists b. split; [reflexivity|].
  apply bind_inv in H as (ps & h2 & Hps & H).
  apply preserves_move_scores in Hps as ->.
  destruct ps as [|[m0 s0] rest]; [discriminate|].
  apply preserves_choice in H. exact H.
Qed.

Lemma decide_move_at_frame (self : MinimaxAi) (d : Draws) (fuel : nat)
    (view : Ref) (side : Side) (h h' : Heap) (r : ReturnSite * nat) :
  decide_move_at self d fuel view side h = Ok (r, h') ->
  exists b, h !! view = Some b /\ (h' = h \/ h' = h ++ [b]).
Proof.
  unfold decide_move_at. intros H.
  apply bind_inv in H as (b & h0 & Hd & H).
  apply deref_inv in Hd as [Hb ->]. exists b. split; [exact Hb|].
  destruct (forallb is_none b); [left; exact (preserves_ret _ _ _ _ H)|].
  destruct (Qle_bool _ _).
  - left. revert H. apply preserves_bind.
    + destruct (negb _); [|apply preserves_ret].
      apply preserves_bind; [apply preserves_find_win_move|].
      intros [spot|]; [apply preserves_ret|].
      apply preserves_bind; [apply preserves_find_win_move|].
      intros [spot|]; apply preserves_ret.
    + intros [r'|]; [apply preserves_ret|].
      apply preserves_bind; [apply preserves_deref|]. intros v.
      apply preserves_bind; [apply preserves_choice|]. intros spot.
      apply preserves_ret.
  - right. apply bind_inv in H as (spot & h1 & Hmm & H).
    apply minimax_move_frame in Hmm as (b' & Hb' & ->).
    injection H as _ <-. congruence.
Qed.

(** ** Boards without an empty cell *)

Lemma minimax_move_eq (d : Draws) (fuel : nat) (view : Ref) (side : Side)
    (h : Heap) (b : Board) :
  h !! view = Some b ->
  count_empty b <= fuel ->
  minimax_move d fuel view side h
  = match root_scores b side with
    | [] => Raise StopIteration
    | _ :: _ => choice d (fst (best_of (root_scores b side))) (h ++ [b])
    end.
Proof.
  intros Hb Hfuel. unfold minimax_move.
  destruct (list_copy_Ok view h b Hb) as [Hcopy Hwork].
  rewrite (bind_Ok _ _ _ _ _ Hcopy).
  rewrite (bind_Ok _ _ _ _ _
             (move_scores_Ok fuel _ side true _ b Hwork Hfuel)).
  change (map _ (empties b)) with (root_scores b side).
  destruct (root_scores b side) as [|[m0 s0] rest]; [reflexivity|].
  pose proof (best_loop (m0, s0) rest) as Hloop.
  change (fold_left best_step rest ([m0], s0) = best_of ((m0, s0) :: rest))
    in Hloop.
  cbn beta iota. rewrite Hloop. reflexivity.
Qed.

Lemma decide_move_at_full (self : MinimaxAi) (d : Draws) (fuel : nat)
    (view : Ref) (side : Side) (h : Heap) (b : Board) :
  h !! view = Some b ->
  length b = 9 ->
  empties b = [] ->
  decide_move_at self d fuel view side h
  = Raise (if Qle_bool (fst (think_chance self)) (first_random d)
           then IndexError else StopIteration).
Proof.
  intros Hb Hlen Hfull. unfold decide_move_at.
  rewrite (bind_Ok _ _ _ _ _ (deref_Ok _ _ _ Hb)).
  assert (Hnofree : forall i, b !! i <> Some None).
  { intros i Hi. apply in_empties in Hi. rewrite Hfull in Hi. exact Hi. }
  destruct (forallb is_none b) eqn:Hall.
  { exfalso. apply (Hnofree 0), all_none_lookup; [exact Hall|lia]. }
  destruct (Qle_bool _ _).
  2:{ rewrite (bind_Raise _ _ _ _ (minimax_move_full d fuel view side h b
                                      Hb Hfull)).
      reflexivity. }
  assert (Hnone : forall s, first_win_move b s = None).
  { intros s. destruct (first_win_move b s) as [i|] eqn:Hi; [|reflexivity].
    exfalso. exact (Hnofree i (first_win_move_free b s i Hi)). }
  assert (Hrandom :
    bind (deref view) (fun v =>
      bind (choice d (avail_moves v)) (fun spot => ret (RandomReturn, spot))) h
    = Raise IndexError).
  { rewrite (bind_Ok _ _ _ _ _ (deref_Ok _ _ _ Hb)).
    rewrite avail_moves_empties, Hfull. reflexivity. }
  destruct (negb (Qle_bool _ _)).
  2:{ change (bind (ret None) ?k h) with (k (@None (ReturnSite * nat)) h).
      cbn beta iota. exact Hrandom. }
  rewrite bind_assoc.
  rewrite (bind_Ok _ _ _ _ _ (find_win_move_Ok view side h b Hb Hlen)).
  rewrite Hnone, bind_assoc.
  rewrite (bind_Ok _ _ _ _ _
             (find_win_move_Ok view (swap_side side) h b Hb Hlen)).
  rewrite Hnone.
  change (bind (ret None) ?k h) with (k (@None (ReturnSite * nat)) h).
  cbn beta iota. exact Hrandom.
Qed.

Lemma count_empty_le_length (b : Board) : count_empty b <= length b.
Proof. unfold count_empty. apply filter_length_le. Qed.

(** ** Scores obtained by running the generator *)

Lemma root_scores_by_run (b : Board) (side : Side) (fuel : nat)
    (ps : list (nat * Z)) (h' : Heap) :
  count_empty b <= fuel ->
  _move_scores fuel 0 side true [b] = Ok (ps, h') ->
  root_scores b side = ps.
Proof.
  intros Hfuel Hrun.
  rewrite (move_scores_Ok fuel 0 side true [b] b eq_refl Hfuel) in Hrun.
  injection Hrun as <- _. reflexivity.
Qed.

(** ** Exchanging the two sides *)

Lemma swap_side_involutive (s : Side) : swap_side (swap_side s) = s.
Proof. destruct s; reflexivity. Qed.

Lemma lookup_swap_board (b : Board) (i : nat) :
  swap_board b !! i = option_map (option_map swap_side) (b !! i).
Proof.
  revert i. induction b as [|t b IH]; intros [|i]; cbn; try reflexivity.
  apply IH.
Qed.

Lemma owned_by_swap (b : Board) (s : Side) (i : nat) :
  owned_by (swap_board b) (swap_side s) i = owned_by b s i.
Proof.
  unfold owned_by. rewrite lookup_swap_board.
  destruct (b !! i) as [[a|]|]; cbn; try reflexivity.
  destruct a, s; reflexivity.
Qed.

Lemma board_has_won_swap (b : Board) (s : Side) :
  board_has_won (swap_board b) (swap_side s) = board_has_won b s.
Proof.
  unfold board_has_won, winning_lines. cbn [existsb forallb].
  rewrite !owned_by_swap. reflexivity.
Qed.

Lemma board_full_swap (b : Board) : board_full (swap_board b) = board_full b.
Proof.
  unfold board_full. induction b as [|t b IH]; [reflexivity|].
  cbn [swap_board map forallb]. fold (swap_board b). rewrite IH.
  destruct t; reflexivity.
Qed.

Lemma empties_swap (b : Board) : empties (swap_board b) = empties b.
Proof.
  unfold empties, swap_board. rewrite length_map. apply filter_ext.
  intros i. unfold empty_at. fold (swap_board b). rewrite lookup_swap_board.
  destruct (b !! i) as [[a|]|]; reflexivity.
Qed.

Lemma place_swap (b : Board) (i : nat) (s : Side) :
  place (swap_board b) i (swap_side s) = swap_board (place b i s).
Proof.
  unfold place. revert i. induction b as [|t b IH]; intros [|i]; cbn;
    try reflexivity.
  f_equal. apply IH.
Qed.

Lemma mover_swap (root : Side) (m : bool) :
  mover (swap_side root) m = swap_side (mover root m).
Proof. destruct m; reflexivity. Qed.

(** The value of a position does not depend on which side is called X. *)
Lemma game_value_swap (b : Board) (s : Side) (m : bool) :
  game_value (swap_board b) (swap_side s) m = game_value b s m.
Proof.
  remember (count_empty b) as n eqn:Hn. revert b s m Hn.
  induction n as [n IH] using lt_wf_ind. intros b s m Hn.
  rewrite (game_value_cases (swap_board b)), (game_value_cases b).
  rewrite board_has_won_swap, board_full_swap, empties_swap.
  rewrite <- (swap_side_involutive s) at 3. rewrite board_has_won_swap.
  rewrite swap_side_involutive.
  destruct (m && board_has_won b s); [reflexivity|].
  destruct (negb m && board_has_won b (swap_side s)); [reflexivity|].
  destruct (board_full b); [reflexivity|].
  f_equal. apply map_ext_in. intros i Hi. apply in_empties in Hi.
  rewrite mover_swap, place_swap.
  apply (IH (count_empty (place b i (mover s (negb m))))); [|reflexivity].
  pose proof (count_empty_insert_some b i (mover s (negb m)) Hi).
  unfold place. lia.
Qed.

(** Every opening move of X leads to a draw under optimal play. *)
Lemma opening_scores_X :
  root_scores empty_board X = map (fun i => (i, 0%Z)) (seq 0 9).
Proof.
  apply (root_scores_by_run empty_board X 9 _ [empty_board]).
  - vm_compute. lia.
  - vm_compute. reflexivity.
Qed.

(** So does every opening move of either side. *)
Lemma opening_score (side : Side) (i : nat) :
  i < 9 -> minimax_score empty_board side i = 0%Z.
Proof.
  intros Hi.
  assert (HX : minimax_score empty_board X i = 0%Z).
  { pose proof opening_scores_X as H. unfold root_scores in H.
    change (empties empty_board) with (seq 0 9) in H.
    assert (Hin : In i (seq 0 9)) by (apply in_seq; lia).
    apply (f_equal (map snd)) in H. rewrite !map_map in H. cbn [snd] in H.
    exact (proj1 map_ext_in_iff H i Hin). }
  destruct side; [exact HX|].
  rewrite <- HX. unfold minimax_score.
  rewrite <- (game_value_swap (place empty_board i X) X true).
  rewrite <- place_swap.
  change (swap_board empty_board) with empty_board.
  change (swap_side X) with O. reflexivity.
Qed.

Lemma all_none_replicate (b : Board) :
  forallb is_none b = true -> b = replicate (length b) None.
Proof.
  induction b as [|t b IH]; [reflexivity|]. cbn [forallb length replicate].
  destruct t; [discriminate|]. intros H. rewrite <- IH by exact H.
  reflexivity.
Qed.

(** ** Auxiliary facts *)

Lemma board_full_count (b : Board) :
  board_full b = true -> count_empty b = 0.
Proof.
  intros Hfull. unfold count_empty. apply length_zero_iff_nil, filter_none.
  intros t Ht. unfold board_full in Hfull. rewrite forallb_forall in Hfull.
  apply Hfull in Ht. destruct t; [reflexivity|discriminate].
Qed.

Lemma decide_move_unfold (self : MinimaxAi) (d : Draws) (fuel : nat)
    (view : Ref) (side : Side) (h h' : Heap) (site : ReturnSite) (mv : nat) :
  decide_move_at self d fuel view side h = Ok ((site, mv), h') ->
  decide_move self d fuel view side h = Ok (mv, h').
Proof.
  intros H. unfold decide_move. rewrite (bind_Ok _ _ _ _ _ H). reflexivity.
Qed.

(** ** Observed runs: erasure *)

Lemma bind_ext {A B} (m m' : Py A) (k k' : A -> Py B) (h : Heap) :
  m h = m' h ->
  (forall a h1, k a h1 = k' a h1) ->
  bind m k h = bind m' k' h.
Proof.
  intros Hm Hk. unfold bind. rewrite Hm.
  destruct (m' h) as [[a h1]|e]; [apply Hk|reflexivity].
Qed.

Lemma erase_tbind {A B} (m : Traced A) (k : A -> Traced B) (h : Heap) :
  snd (tbind m k h) = bind (erase m) (fun a => erase (k a)) h.
Proof.
  unfold tbind, bind, erase.
  destruct (m h) as [l1 [[a h1]|e]]; reflexivity.
Qed.

Lemma erase_setitem (r : Ref) (i : nat) (t : Tile) (h : Heap) :
  snd (setitem_traced r i t h) = setitem r i t h.
Proof.
  unfold setitem_traced. destruct (setitem r i t h) as [[u h']|e];
    reflexivity.
Qed.

Lemma erase_list_copy (r : Ref) (h : Heap) :
  snd (list_copy_traced r h) = list_copy r h.
Proof.
  unfold list_copy_traced. destruct (list_copy r h) as [[w h']|e];
    reflexivity.
Qed.

Lemma erase_scan_line (board : Ref) (side : Side) (line : list nat) :
  forall count e h,
    snd (scan_line_traced board side line count e h)
    = scan_line board side line count e h.
Proof.
  induction line as [|i line IH]; intros count e h; [reflexivity|].
  cbn [scan_line_traced scan_line]. rewrite erase_tbind.
  apply bind_ext; [reflexivity|].
  intros [s|] h1; unfold erase; [destruct (side_eqb s side)|]; apply IH.
Qed.

Lemma erase_find_in_lines (board : Ref) (side : Side)
    (lines : list (list nat)) (h : Heap) :
  snd (find_in_lines_traced board side lines h)
  = find_in_lines board side lines h.
Proof.
  revert h. induction lines as [|line lines IH]; intros h; [reflexivity|].
  cbn [find_in_lines_traced find_in_lines]. rewrite erase_tbind.
  apply bind_ext; [apply erase_scan_line|].
  intros [count e] h1. unfold erase.
  destruct (_ && _); [reflexivity|apply IH].
Qed.

Lemma erase_find_win_move (board : Ref) (side : Side) (h : Heap) :
  snd (_find_win_move_traced board side h) = _find_win_move board side h.
Proof. apply erase_find_in_lines. Qed.

Lemma erase_move_scores_from (eval_t : Ref -> Side -> bool -> Traced Z)
    (eval : Ref -> Side -> bool -> Py Z) (board : Ref) (side : Side)
    (m : bool) :
  (forall r s m' h, snd (eval_t r s m' h) = eval r s m' h) ->
  forall pending h,
    snd (move_scores_from_traced eval_t pending board side m h)
    = move_scores_from eval pending board side m h.
Proof.
  intros Heval. induction pending as [|i rest IH]; intros h; [reflexivity|].
  cbn [move_scores_from_traced move_scores_from]. rewrite erase_tbind.
  apply bind_ext; [reflexivity|].
  intros t h1. unfold erase. destruct (is_none t); [|apply IH].
  rewrite erase_tbind. apply bind_ext; [apply erase_setitem|].
  intros _ h2. unfold erase. rewrite erase_tbind.
  apply bind_ext; [apply Heval|].
  intros v h3. unfold erase. rewrite erase_tbind.
  apply bind_ext; [apply erase_setitem|].
  intros _ h4. unfold erase. rewrite erase_tbind.
  apply bind_ext; [apply IH|]. reflexivity.
Qed.

Lemma erase_max_score (fuel : nat) :
  forall board side m h,
    snd (_max_score_traced fuel board side m h) = _max_score fuel board side m h.
Proof.
  induction fuel as [|fuel IH]; intros board side m h; [reflexivity|].
  cbn [_max_score_traced _max_score]. rewrite erase_tbind.
  apply bind_ext; [reflexivity|].
  intros [|] h1; unfold erase; [reflexivity|]. rewrite erase_tbind.
  apply bind_ext; [reflexivity|].
  intros [|] h2; unfold erase; [reflexivity|]. rewrite erase_tbind.
  apply bind_ext; [reflexivity|].
  intros b h3. unfold erase. destruct (forallb _ b); [reflexivity|].
  rewrite erase_tbind. apply bind_ext; [reflexivity|].
  intros n h4. unfold erase. rewrite erase_tbind.
  apply bind_ext; [apply erase_move_scores_from, IH|]. reflexivity.
Qed.

Lemma erase_move_scores (fuel : nat) (board : Ref) (side : Side) (m : bool)
    (h : Heap) :
  snd (_move_scores_traced fuel board side m h)
  = _move_scores fuel board side m h.
Proof.
  unfold _move_scores_traced, _move_scores. rewrite erase_tbind.
  apply bind_ext; [reflexivity|].
  intros n h1. apply erase_move_scores_from, erase_max_score.
Qed.

Lemma erase_minimax_move (d : Draws) (fuel : nat) (view : Ref) (side : Side)
    (h : Heap) :
  snd (minimax_move_traced d fuel view side h) = minimax_move d fuel view side h.
Proof.
  unfold minimax_move_traced, minimax_move. rewrite erase_tbind.
  apply bind_ext; [apply erase_list_copy|].
  intros w h1. unfold erase. rewrite erase_tbind.
  apply bind_ext; [apply erase_move_scores|].
  intros [|[m0 s0] rest] h2; reflexivity.
Qed.

Lemma erase_decide_move_at (self : MinimaxAi) (d : Draws) (fuel : nat)
    (view : Ref) (side : Side) (h : Heap) :
  snd (decide_move_at_traced self d fuel view side h)
  = decide_move_at self d fuel view side h.
Proof.
  unfold decide_move_at_traced, decide_move_at. rewrite erase_tbind.
  apply bind_ext; [reflexivity|].
  intros b h1. unfold erase. destruct (forallb is_none b); [reflexivity|].
  destruct (Qle_bool _ _).
  - rewrite erase_tbind. apply bind_ext.
    + unfold erase. destruct (negb _); [|reflexivity]. rewrite erase_tbind.
      apply bind_ext; [apply erase_find_win_move|].
      intros [spot|] h2; unfold erase; [reflexivity|]. rewrite erase_tbind.
      apply bind_ext; [apply erase_find_win_move|].
      intros [spot|] h3; reflexivity.
    + intros [r|] h2; unfold erase; [reflexivity|]. rewrite erase_tbind.
      apply bind_ext; [reflexivity|].
      intros v h3. unfold erase. rewrite erase_tbind.
      apply bind_ext; [reflexivity|]. reflexivity.
  - rewrite erase_tbind. apply bind_ext; [apply erase_minimax_move|].
    reflexivity.
Qed.

Lemma erase_decide_move (self : MinimaxAi) (d : Draws) (fuel : nat)
    (view : Ref) (side : Side) (h : Heap) :
  snd (decide_move_traced self d fuel view side h)
  = decide_move self d fuel view side h.
Proof.
  unfold decide_move_traced, decide_move. rewrite erase_tbind.
  apply bind_ext; [apply erase_decide_move_at|]. reflexivity.
Qed.

(** ** Observed runs: which objects are touched *)

Lemma quiet_tret {A} (a : A) : quiet (tret a).
Proof. intros h. split; [reflexivity|]. intros a' h' [= _ ->]. reflexivity. Qed.

Lemma quiet_silent {A} (m : Py A) : preserves m -> quiet (silent m).
Proof.
  intros Hm h. split; [reflexivity|]. intros a h' H. exact (Hm h a h' H).
Qed.

Lemma quiet_tbind {A B} (m : Traced A) (k : A -> Traced B) :
  quiet m -> (forall a, quiet (k a)) -> quiet (tbind m k).
Proof.
  intros Hm Hk h. destruct (Hm h) as [Hl Hs]. unfold tbind.
  destruct (m h) as [l1 [[a h1]|e]]; cbn [fst snd] in *; subst l1.
  - rewrite (Hs a h1 eq_refl). destruct (Hk a h) as [Hl2 Hs2].
    rewrite Hl2. split; [reflexivity|exact Hs2].
  - split; [reflexivity|]. intros a h' H. discriminate H.
Qed.

Lemma quiet_scan_line (board : Ref) (side : Side) (line : list nat) :
  forall count e, quiet (scan_line_traced board side line count e).
Proof.
  induction line as [|i line IH]; intros count e; cbn [scan_line_traced];
    [apply quiet_tret|].
  apply quiet_tbind; [apply quiet_silent, preserves_getitem|].
  intros [s|]; [destruct (side_eqb s side)|]; apply IH.
Qed.

Lemma quiet_find_win_move (board : Ref) (side : Side) :
  quiet (_find_win_move_traced board side).
Proof.
  unfold _find_win_move_traced.
  induction to_checks as [|line lines IH]; cbn [find_in_lines_traced];
    [apply quiet_tret|].
  apply quiet_tbind; [apply quiet_scan_line|].
  intros [count e]. destruct (_ && _); [apply quiet_tret|exact IH].
Qed.

Lemma off_board_refl (w : Ref) (h : Heap) : off_board w h h.
Proof. split; [reflexivity|]. intros r _. reflexivity. Qed.

Lemma off_board_trans (w : Ref) (h h1 h2 : Heap) :
  off_board w h h1 -> off_board w h1 h2 -> off_board w h h2.
Proof.
  intros [Hl1 H1] [Hl2 H2]. split; [congruence|].
  intros r Hr. rewrite (H2 r Hr). apply H1, Hr.
Qed.

Lemma off_board_insert (w : Ref) (h : Heap) (b : Board) :
  off_board w h (<[w := b]> h).
Proof.
  split; [apply length_insert|]. intros r Hr.
  apply list_lookup_insert_ne. congruence.
Qed.

Lemma obs_on_later (w : Ref) (h h1 : Heap) (o : Obs) :
  off_board w h h1 -> obs_on w h1 o -> obs_on w h o.
Proof.
  intros Hoff (Ha & Hr & Hs). split; [exact Ha|]. split; [exact Hr|].
  exact (off_board_trans w h h1 _ Hoff Hs).
Qed.

Lemma confined_quiet {A} (w : Ref) (m : Traced A) : quiet m -> confined w m.
Proof.
  intros Hm h. destruct (Hm h) as [Hl Hs]. rewrite Hl.
  split; [constructor|]. intros a h' H. rewrite (Hs a h' H).
  apply off_board_refl.
Qed.

Lemma confined_tbind {A B} (w : Ref) (m : Traced A) (k : A -> Traced B) :
  confined w m -> (forall a, confined w (k a)) -> confined w (tbind m k).
Proof.
  intros Hm Hk h. destruct (Hm h) as [Hl Hs]. unfold tbind.
  destruct (m h) as [l1 [[a h1]|e]]; cbn [fst snd] in *.
  - specialize (Hs a h1 eq_refl). destruct (Hk a h1) as [Hl2 Hs2]. split.
    + apply Forall_app. split; [exact Hl|].
      eapply Forall_impl; [exact Hl2|]. intros o. apply obs_on_later, Hs.
    + intros b h2 H. exact (off_board_trans w h h1 h2 Hs (Hs2 b h2 H)).
  - split; [exact Hl|]. intros a h' H. discriminate H.
Qed.

Lemma confined_setitem (w : Ref) (i : nat) (t : Tile) :
  confined w (setitem_traced w i t).
Proof.
  intros h. unfold setitem_traced.
  destruct (setitem w i t h) as [[u h']|e] eqn:Hset; cbn [fst snd].
  - apply setitem_inv in Hset as (b & _ & _ & ->). split.
    + constructor; [|constructor].
      split; [reflexivity|]. split; [reflexivity|]. apply off_board_insert.
    + intros a h' [= _ <-]. apply off_board_insert.
  - split; [constructor|]. intros a h' H. discriminate H.
Qed.

Lemma confined_consider (w : Ref) (i : nat) : confined w (consider w i).
Proof.
  intros h. unfold consider. cbn [fst snd]. split.
  - constructor; [|constructor].
    split; [reflexivity|]. split; [reflexivity|]. apply off_board_refl.
  - intros t h' H. apply getitem_inv in H as [-> _]. apply off_board_refl.
Qed.

Lemma confined_move_scores_from (eval : Ref -> Side -> bool -> Traced Z)
    (w : Ref) (side : Side) (m : bool) :
  confined w (eval w side m) ->
  forall pending, confined w (move_scores_from_traced eval pending w side m).
Proof.
  intros Heval. induction pending as [|i rest IH];
    cbn [move_scores_from_traced]; [apply confined_quiet, quiet_tret|].
  apply confined_tbind; [apply confined_consider|].
  intros t. destruct (is_none t); [|exact IH].
  apply confined_tbind; [apply confined_setitem|]. intros _.
  apply confined_tbind; [exact Heval|]. intros v.
  apply confined_tbind; [apply confined_setitem|]. intros _.
  apply confined_tbind; [exact IH|]. intros more.
  apply confined_quiet, quiet_tret.
Qed.

Lemma confined_max_score (fuel : nat) :
  forall w side m, confined w (_max_score_traced fuel w side m).
Proof.
  induction fuel as [|fuel IH]; intros w side m; cbn [_max_score_traced].
  { apply confined_quiet, quiet_silent, preserves_raise. }
  apply confined_tbind.
  { apply confined_quiet, quiet_silent.
    destruct m; [apply preserves_has_won|apply preserves_ret]. }
  intros [|]; [apply confined_quiet, quiet_tret|].
  apply confined_tbind.
  { apply confined_quiet, quiet_silent.
    destruct (negb m); [apply preserves_has_won|apply preserves_ret]. }
  intros [|]; [apply confined_quiet, quiet_tret|].
  apply confined_tbind; [apply confined_quiet, quiet_silent, preserves_deref|].
  intros b. destruct (forallb _ b); [apply confined_quiet, quiet_tret|].
  apply confined_tbind; [apply confined_quiet, quiet_silent, preserves_len|].
  intros n. apply confined_tbind; [apply confined_move_scores_from, IH|].
  intros pairs. apply confined_quiet, quiet_silent.
  destruct (negb m); [apply preserves_py_max|apply preserves_py_min].
Qed.

Lemma confined_move_scores (fuel : nat) (w : Ref) (side : Side) (m : bool) :
  confined w (_move_scores_traced fuel w side m).
Proof.
  apply confined_tbind; [apply confined_quiet, quiet_silent, preserves_len|].
  intros n. apply confined_move_scores_from, confined_max_score.
Qed.

(** ** Observed runs: the generator, candidate by candidate *)

Lemma tbind_run {A B} (m : Traced A) (k : A -> Traced B) (h h1 : Heap)
    (l1 : list Obs) (a : A) :
  m h = (l1, Ok (a, h1)) ->
  tbind m k h = (l1 ++ fst (k a h1), snd (k a h1)).
Proof. intros Hm. unfold tbind. rewrite Hm. reflexivity. Qed.

Lemma tbind_silent_run {A B} (m : Py A) (k : A -> Traced B) (h h1 : Heap)
    (a : A) :
  m h = Ok (a, h1) -> tbind (silent m) k h = k a h1.
Proof.
  intros Hm. unfold tbind, silent. rewrite Hm. cbn [app].
  destruct (k a h1); reflexivity.
Qed.

Section ObservedGeneratorRun.

Variable eval : Ref -> Side -> bool -> Traced Z.
Variables (board : Ref) (side : Side) (m : bool).
Variables (b : Board) (h : Heap) (score : nat -> Z).

Hypothesis Hboard : h !! board = Some b.
Hypothesis Heval : forall i,
  b !! i = Some None ->
  snd (eval board side m (<[board := place b i (mover side m)]> h))
  = Ok (score i, <[board := place b i (mover side m)]> h).

Lemma move_scores_from_traced_run (pending : list nat) :
  Forall (fun i => i < length b) pending ->
  move_scores_from_traced eval pending board side m h
  = (flat_map (candidate_obs eval board side m h b) pending,
     Ok (map (fun i => (i, score i)) (List.filter (empty_at b) pending), h)).
Proof.
  induction pending as [|i rest IH]; intros Hrange; [reflexivity|].
  apply Forall_cons in Hrange as [Hi Hrange]. specialize (IH Hrange).
  destruct (lookup_lt_is_Some_2 b i Hi) as [t Ht].
  cbn [move_scores_from_traced flat_map List.filter].
  assert (He : empty_at b i = is_none t)
    by (unfold empty_at; rewrite Ht; destruct t; reflexivity).
  unfold candidate_obs at 1. rewrite He.
  rewrite (tbind_run (consider board i) _ h h [Considered board i h] t)
    by (unfold consider; rewrite (getitem_Ok _ _ _ _ _ Hboard Ht);
        reflexivity).
  destruct t as [s|]; cbn [is_none].
  { rewrite IH. reflexivity. }
  fold (mover side m). fold (place b i (mover side m)).
  set (marked := <[board := place b i (mover side m)]> h).
  assert (Hset : setitem_traced board i (Some (mover side m)) h
                 = ([Wrote board i (Some (mover side m)) marked],
                    Ok (tt, marked))).
  { unfold setitem_traced. rewrite (setitem_Ok _ _ _ _ _ Hboard Hi).
    reflexivity. }
  assert (Hunset : setitem_traced board i None marked
                   = ([Wrote board i None h], Ok (tt, h))).
  { unfold setitem_traced, marked.
    rewrite (setitem_Ok board i None _ (place b i (mover side m))
               (lookup_store_insert _ _ _ _ Hboard)
               ltac:(unfold place; rewrite length_insert; exact Hi)).
    unfold place. rewrite (store_restore h board b i None _ Hboard Ht).
    reflexivity. }
  assert (Hrun : eval board side m marked
                 = (fst (eval board side m marked), Ok (score i, marked))).
  { pose proof (Heval i Ht) as Hres. fold marked in Hres.
    destruct (eval board side m marked) as [l r]. cbn [fst snd] in *.
    rewrite Hres. reflexivity. }
  rewrite (tbind_run _ _ _ _ _ _ Hset). cbn [fst snd].
  rewrite (tbind_run _ _ _ _ _ _ Hrun). cbn [fst snd].
  rewrite (tbind_run _ _ _ _ _ _ Hunset). cbn [fst snd].
  rewrite (tbind_run _ _ _ _ _ _ IH). cbn [fst snd tret].
  rewrite app_nil_r. cbn [app]. rewrite <- !app_assoc. reflexivity.
Qed.

End ObservedGeneratorRun.

Lemma max_score_traced_run (fuel : nat) (board : Ref) (side : Side)
    (m : bool) (h : Heap) (b : Board) :
  h !! board = Some b ->
  count_empty b < fuel ->
  snd (_max_score_traced fuel board side m h) = Ok (game_value b side m, h).
Proof.
  intros Hb Hfuel. rewrite erase_max_score. apply max_score_Ok; assumption.
Qed.

Lemma generator_obs (fuel : nat) (board : Ref) (side : Side) (m : bool)
    (h : Heap) (b : Board) (pending : list nat) :
  h !! board = Some b ->
  count_empty b <= fuel ->
  Forall (fun i => i < length b) pending ->
  fst (move_scores_from_traced (_max_score_traced fuel) pending board side m h)
  = flat_map (candidate_obs (_max_score_traced fuel) board side m h b) pending.
Proof.
  intros Hb Hfuel Hrange.
  rewrite (move_scores_from_traced_run (_max_score_traced fuel) board side m
             b h (fun i => game_value (place b i (mover side m)) side m) Hb);
    [reflexivity| |exact Hrange].
  intros i Hi. apply max_score_traced_run.
  - apply (lookup_store_insert _ _ _ _ Hb).
  - pose proof (count_empty_insert_some b i (mover side m) Hi).
    unfold place. lia.
Qed.

(** ** Observed runs: [decide_move] *)

Lemma obs_on_working_copy (h : Heap) (b : Board) (o : Obs) :
  obs_on (length h) (h ++ [b]) o ->
  is_allocation o = false
  /\ obs_ref o = length h
  /\ forall r, r < length h -> obs_store o !! r = h !! r.
Proof.
  intros (Ha & Hr & _ & Hs). split; [exact Ha|]. split; [exact Hr|].
  intros r Hlt. rewrite (Hs r ltac:(lia)). apply lookup_app_l, Hlt.
Qed.

Lemma minimax_move_traced_obs (d : Draws) (fuel : nat) (view : Ref)
    (side : Side) (h : Heap) (b : Board) :
  h !! view = Some b ->
  exists tr,
    fst (minimax_move_traced d fuel view side h)
    = Allocated (length h) (h ++ [b]) :: tr
    /\ Forall (obs_on (length h) (h ++ [b])) tr.
Proof.
  intros Hb. unfold minimax_move_traced.
  assert (Hcopy : list_copy_traced view h
                  = ([Allocated (length h) (h ++ [b])],
                     Ok (length h, h ++ [b]))).
  { unfold list_copy_traced, list_copy. rewrite Hb. reflexivity. }
  rewrite (tbind_run _ _ _ _ _ _ Hcopy). cbn [fst app].
  eexists. split; [reflexivity|].
  apply (confined_tbind (length h)
           (_move_scores_traced fuel (length h) side true)).
  - apply confined_move_scores.
  - intros [|[m0 s0] rest]; apply confined_quiet, quiet_silent;
      [apply preserves_raise|apply preserves_choice].
Qed.

Lemma quiet_shallow (self : MinimaxAi) (d : Draws) (view : Ref) (side : Side) :
  quiet
    (obvious <~
       (if negb (Qle_bool (snd (think_chance self)) (second_random d)) then
          own <~ _find_win_move_traced view side ;;
          match own with
          | Some spot => tret (Some (WinReturn, spot))
          | None =>
              block <~ _find_win_move_traced view (swap_side side) ;;
              match block with
              | Some spot => tret (Some (BlockReturn, spot))
              | None => tret None
              end
          end
        else tret None) ;;
     match obvious with
     | Some r => tret r
     | None =>
         v <~ silent (deref view) ;;
         spot <~ silent (choice d (avail_moves v)) ;;
         tret (RandomReturn, spot)
     end).
Proof.
  apply quiet_tbind.
  - destruct (negb _); [|apply quiet_tret].
    apply quiet_tbind; [apply quiet_find_win_move|].
    intros [spot|]; [apply quiet_tret|].
    apply quiet_tbind; [apply quiet_find_win_move|].
    intros [spot|]; apply quiet_tret.
  - intros [r|]; [apply quiet_tret|].
    apply quiet_tbind; [apply quiet_silent, preserves_deref|]. intros v.
    apply quiet_tbind; [apply quiet_silent, preserves_choice|]. intros spot.
    apply quiet_tret.
Qed.

Lemma fst_tbind_tret {A B} (m : Traced A) (f : A -> B) (h : Heap) :
  fst (tbind m (fun a => tret (f a)) h) = fst (m h).
Proof.
  unfold tbind. destruct (m h) as [l [[a h1]|e]]; cbn [fst tret];
    [apply app_nil_r|reflexivity].
Qed.

Lemma decide_move_traced_obs (self : MinimaxAi) (d : Draws) (fuel : nat)
    (view : Ref) (side : Side) (h : Heap) (b : Board) :
  h !! view = Some b ->
  if searches self d b
  then exists tr,
         fst (decide_move_traced self d fuel view side h)
         = Allocated (length h) (h ++ [b]) :: tr
         /\ Forall (obs_on (length h) (h ++ [b])) tr
  else fst (decide_move_traced self d fuel view side h) = [].
Proof.
  intros Hb. unfold decide_move_traced. rewrite fst_tbind_tret.
  unfold decide_move_at_traced, searches.
  rewrite (tbind_silent_run _ _ h h b (deref_Ok _ _ _ Hb)).
  destruct (forallb is_none b); cbn [negb andb]; [reflexivity|].
  destruct (Qle_bool _ _); cbn [negb].
  - exact (proj1 (quiet_shallow self d view side h)).
  - rewrite fst_tbind_tret. apply minimax_move_traced_obs, Hb.
Qed.

Lemma decide_move_final_store (self : MinimaxAi) (d : Draws) (fuel : nat)
    (view : Ref) (side : Side) (h h' : Heap) (b : Board) (mv : nat) :
  h !! view = Some b ->
  decide_move self d fuel view side h = Ok (mv, h') ->
  if searches self d b then h' = h ++ [b] else h' = h.
Proof.
  intros Hb H. unfold decide_move in H.
  apply bind_inv in H as (r & h1 & H & Hret). injection Hret as _ <-.
  unfold decide_move_at in H. rewrite (bind_Ok _ _ _ _ _ (deref_Ok _ _ _ Hb)) in H.
  unfold searches.
  destruct (forallb is_none b); cbn [negb andb];
    [exact (preserves_ret _ _ _ _ H)|].
  destruct (Qle_bool _ _); cbn [negb].
  - revert H. apply preserves_bind.
    + destruct (negb _); [|apply preserves_ret].
      apply preserves_bind; [apply preserves_find_win_move|].
      intros [spot|]; [apply preserves_ret|].
      apply preserves_bind; [apply preserves_find_win_move|].
      intros [spot|]; apply preserves_ret.
    + intros [r'|]; [apply preserves_ret|].
      apply preserves_bind; [apply preserves_deref|]. intros v.
      apply preserves_bind; [apply preserves_choice|]. intros spot.
      apply preserves_ret.
  - apply bind_inv in H as (spot & h2 & Hmm & Hret).
    apply minimax_move_frame in Hmm as (b' & Hb' & ->).
    injection Hret as _ <-. congruence.
Qed.

Lemma confined_obs {A} (w : Ref) (m : Traced A) (h : Heap) (o : Obs) :
  confined w m -> In o (fst (m h)) ->
  is_allocation o = false /\ obs_ref o = w /\ off_board w h (obs_store o).
Proof.
  intros Hm Hin. destruct (Hm h) as [Hall _].
  exact (proj1 (List.Forall_forall _ _) Hall o Hin).
Qed.

(** * The properties of the specification *)

(** C2: on every 9-cell board, for every side and flag, [_max_score] returns
    the value of the position from the fixed perspective of the root side,
    a score in {-1, 0, 1}.  The value is [game_value]: +1 when [maximizing]
    and the root side has three in a row, else -1 when not [maximizing] and
    the opponent has three in a row, else 0 when no cell is empty, else the
    flag is flipped and the maximum (flipped flag true) or the minimum
    (flipped flag false) of the values of the children is taken. *)
Theorem max_score_is_game_value (fuel : nat) (board : Ref) (side : Side)
    (m : bool) (h : Heap) (b : Board) :
  h !! board = Some b ->
  length b = 9 ->
  count_empty b < fuel ->
  _max_score fuel board side m h = Ok (game_value b side m, h)
  /\ is_score (game_value b side m)
  /\ game_value b side m
     = (if m && board_has_won b side then 1%Z
        else if negb m && board_has_won b (swap_side side) then (-1)%Z
        else if board_full b then 0%Z
        else aggregate (negb m)
               (map (fun i => game_value (place b i (mover side (negb m)))
                                side (negb m))
                  (empties b))).
Proof.
  intros Hb _ Hfuel. split; [|split].
  - apply max_score_Ok; assumption.
  - apply game_value_score.
  - apply game_value_cases.
Qed.

Lemma max_score_is_game_value_witness :
  [top_row_board] !! 0 = Some top_row_board
  /\ length top_row_board = 9
  /\ count_empty top_row_board < 10
  /\ _max_score 10 0 X false [top_row_board]
     = Ok (game_value top_row_board X false, [top_row_board]).
Proof.
  assert (H1 : [top_row_board] !! 0 = Some top_row_board) by reflexivity.
  assert (H2 : length top_row_board = 9) by reflexivity.
  assert (H3 : count_empty top_row_board < 10) by (vm_compute; lia).
  split; [exact H1|]. split; [exact H2|]. split; [exact H3|].
  exact (proj1 (max_score_is_game_value 10 0 X false [top_row_board]
                  top_row_board H1 H2 H3)).
Defined.

(** C9: [_max_score] terminates on every 9-cell board.  The number of empty
    cells is at most 9 and strictly decreases at every mark placed, a fuel
    above that number always yields a result, a board without an empty cell
    returns in the base case without any recursive call, and [decide_move]
    never exhausts a fuel of at least the number of empty cells. *)
Theorem max_score_terminates (board : Ref) (side : Side) (m : bool)
    (h : Heap) (b : Board) :
  h !! board = Some b ->
  length b = 9 ->
  count_empty b <= 9
  /\ (forall i s, b !! i = Some None ->
        count_empty (place b i s) < count_empty b)
  /\ (forall fuel, count_empty b < fuel ->
        exists v, _max_score fuel board side m h = Ok (v, h))
  /\ (board_full b = true ->
        exists v, _max_score 1 board side m h = Ok (v, h))
  /\ (forall self d fuel, count_empty b <= fuel ->
        decide_move self d fuel board side h <> Raise OutOfFuel).
Proof.
  intros Hb Hlen. split; [|split; [|split; [|split]]].
  - rewrite <- Hlen. apply count_empty_le_length.
  - intros i s Hi. pose proof (count_empty_insert_some b i s Hi).
    unfold place. lia.
  - intros fuel Hfuel. eexists. apply max_score_Ok; eassumption.
  - intros Hfull. eexists. apply (max_score_Ok 1 _ _ _ _ b Hb).
    rewrite (board_full_count b Hfull). lia.
  - intros self d fuel Hfuel.
    destruct (empties b) as [|i rest] eqn:Hemp.
    + unfold decide_move.
      rewrite (bind_Raise _ _ _ _
                 (decide_move_at_full self d fuel board side h b Hb Hlen Hemp)).
      destruct (Qle_bool _ _); discriminate.
    + assert (Hfree : exists j, b !! j = Some None).
      { exists i. apply in_empties. rewrite Hemp. left. reflexivity. }
      destruct (decide_move_at_Ok self d fuel board side h b Hb Hlen Hfree
                  Hfuel) as (site & mv & h' & Hrun & _).
      rewrite (decide_move_unfold _ _ _ _ _ _ _ _ _ Hrun). discriminate.
Qed.

Lemma max_score_terminates_witness :
  [top_row_board] !! 0 = Some top_row_board
  /\ length top_row_board = 9
  /\ exists v, _max_score 7 0 X true [top_row_board] = Ok (v, [top_row_board]).
Proof.
  assert (H1 : [top_row_board] !! 0 = Some top_row_board) by reflexivity.
  assert (H2 : length top_row_board = 9) by reflexivity.
  split; [exact H1|]. split; [exact H2|].
  destruct (max_score_terminates 0 X true [top_row_board] top_row_board H1 H2)
    as (_ & _ & Hrun & _).
  apply Hrun. vm_compute. lia.
Defined.

(** C7: [decide_move] never mutates the board view of the caller, at no
    moment of the call.  In the observed run of [decide_move] every
    observation concerns the object created by [list(board_view)], which is
    not the view, and in every store the run goes through the view and all
    other objects of the caller hold what they held on entry; the working
    copy is created exactly once when [decide_move] searches and never
    otherwise, and it is the only object the call adds.  The observed runs
    are runs of the same functions: without the observations they are
    [decide_move], [_max_score] and [_move_scores].  [_max_score] and the
    generator touch their board argument only, every return leaves the store
    as it was on entry, and the generator, candidate by candidate, tests the
    cell in the store of its entry, writes the mark, evaluates, and removes
    the mark, which gives that store back before the next candidate is
    tested. *)
Theorem search_leaves_board_unchanged (view : Ref) (h : Heap) (b : Board) :
  h !! view = Some b ->
  (forall fuel side m v h',
      _max_score fuel view side m h = Ok (v, h') -> h' = h)
  /\ (forall fuel pending side m ps h',
        move_scores_from (_max_score fuel) pending view side m h
        = Ok (ps, h') -> h' = h)
  /\ (forall fuel side m ps h',
        _move_scores fuel view side m h = Ok (ps, h') -> h' = h)
  /\ (forall self d fuel side mv h',
        decide_move self d fuel view side h = Ok (mv, h') ->
        h' !! view = Some b
        /\ (forall r, r < length h -> h' !! r = h !! r)
        /\ (h' = h \/ h' = h ++ [b])
        /\ (if searches self d b then h' = h ++ [b] else h' = h))
  /\ (forall self d fuel side,
        snd (decide_move_traced self d fuel view side h)
        = decide_move self d fuel view side h
        /\ (if searches self d b
            then exists tr,
                   fst (decide_move_traced self d fuel view side h)
                   = Allocated (length h) (h ++ [b]) :: tr
                   /\ Forall (fun o => is_allocation o = false) tr
            else fst (decide_move_traced self d fuel view side h) = [])
        /\ forall o,
             In o (fst (decide_move_traced self d fuel view side h)) ->
             obs_ref o = length h
             /\ obs_ref o <> view
             /\ obs_store o !! view = Some b
             /\ forall r, r < length h -> obs_store o !! r = h !! r)
  /\ (forall fuel side m,
        snd (_max_score_traced fuel view side m h)
        = _max_score fuel view side m h
        /\ snd (_move_scores_traced fuel view side m h)
           = _move_scores fuel view side m h
        /\ (forall o, In o (fst (_max_score_traced fuel view side m h)) ->
              is_allocation o = false /\ obs_ref o = view
              /\ off_board view h (obs_store o))
        /\ (forall o, In o (fst (_move_scores_traced fuel view side m h)) ->
              is_allocation o = false /\ obs_ref o = view
              /\ off_board view h (obs_store o)))
  /\ (forall fuel side m pending,
        count_empty b <= fuel ->
        Forall (fun i => i < length b) pending ->
        snd (move_scores_from_traced (_max_score_traced fuel) pending view
               side m h)
        = move_scores_from (_max_score fuel) pending view side m h
        /\ fst (move_scores_from_traced (_max_score_traced fuel) pending view
                  side m h)
           = flat_map (candidate_obs (_max_score_traced fuel) view side m h b)
               pending).
Proof.
  intros Hb.
  assert (Hview : view < length h) by (eapply lookup_lt_Some, Hb).
  split; [|split; [|split; [|split; [|split; [|split]]]]].
  - intros fuel side m v h' H. exact (preserves_max_score _ _ _ _ _ _ _ H).
  - intros fuel pending side m ps h' H.
    exact (preserves_move_scores_from _ _ _ _ (preserves_max_score fuel)
             _ _ _ _ H).
  - intros fuel side m ps h' H. exact (preserves_move_scores _ _ _ _ _ _ _ H).
  - intros self d fuel side mv h' H.
    pose proof (decide_move_final_store self d fuel view side h h' b mv Hb H)
      as Hfinal.
    assert (Hh : h' = h \/ h' = h ++ [b])
      by (destruct (searches self d b); [right|left]; exact Hfinal).
    assert (Hkeep : forall r, r < length h -> h' !! r = h !! r).
    { intros r Hr. destruct Hh as [->| ->]; [reflexivity|].
      apply lookup_app_l, Hr. }
    split; [rewrite (Hkeep view Hview); exact Hb|].
    split; [exact Hkeep|]. split; [exact Hh|exact Hfinal].
  - intros self d fuel side.
    pose proof (decide_move_traced_obs self d fuel view side h b Hb) as Hobs.
    split; [apply erase_decide_move|]. split.
    + destruct (searches self d b); [|exact Hobs].
      destruct Hobs as (tr & Htr & Hall). exists tr. split; [exact Htr|].
      eapply Forall_impl; [exact Hall|]. intros o Ho.
      exact (proj1 (obs_on_working_copy h b o Ho)).
    + intros o Hin.
      assert (Hgood : obs_ref o = length h
                      /\ forall r, r < length h -> obs_store o !! r = h !! r).
      { destruct (searches self d b).
        - destruct Hobs as (tr & Htr & Hall). rewrite Htr in Hin.
          destruct Hin as [<-|Hin].
          + split; [reflexivity|]. intros r Hr. apply lookup_app_l, Hr.
          + pose proof (proj1 (List.Forall_forall _ _) Hall o Hin) as Ho.
            apply obs_on_working_copy in Ho as (_ & Href & Hstore).
            split; assumption.
        - rewrite Hobs in Hin. destruct Hin. }
      destruct Hgood as [Href Hstore].
      split; [exact Href|]. split; [lia|].
      split; [rewrite (Hstore view Hview); exact Hb|exact Hstore].
  - intros fuel side m.
    split; [apply erase_max_score|]. split; [apply erase_move_scores|].
    split; intros o Hin.
    + exact (confined_obs view _ h o (confined_max_score fuel view side m) Hin).
    + exact (confined_obs view _ h o (confined_move_scores fuel view side m)
               Hin).
  - intros fuel side m pending Hfuel Hrange.
    split; [apply erase_move_scores_from, erase_max_score|].
    apply generator_obs; assumption.
Qed.

Lemma search_leaves_board_unchanged_witness :
  [top_row_board] !! 0 = Some top_row_board
  /\ [top_row_board; top_row_board] !! 0 = Some top_row_board
  /\ forall o,
       In o (fst (decide_move_traced default_ai zero_draws 9 0 X
                    [top_row_board])) ->
       obs_ref o = 1 /\ obs_store o !! 0 = Some top_row_board.
Proof.
  assert (H1 : [top_row_board] !! 0 = Some top_row_board) by reflexivity.
  split; [exact H1|].
  destruct (search_leaves_board_unchanged 0 [top_row_board] top_row_board H1)
    as (_ & _ & _ & Hdecide & Hobserved & _).
  split.
  - refine (proj1 (Hdecide default_ai zero_draws 9 X 2
                     [top_row_board; top_row_board] _)).
    vm_compute. reflexivity.
  - intros o Hin.
    destruct (Hobserved default_ai zero_draws 9 X) as (_ & _ & Hall).
    destruct (Hall o Hin) as (Href & _ & Hstore & _).
    split; [exact Href|exact Hstore].
Defined.

(** C3: on every 9-cell board view with at least one empty cell, for every
    side, every pair of chances and every outcome of the random draws,
    [decide_move] returns an index in [0, 8] whose cell is empty in the
    view.  (The chances and the draws are not restricted at all.) *)
Theorem decide_move_returns_empty_cell (self : MinimaxAi) (d : Draws)
    (fuel : nat) (view : Ref) (side : Side) (h : Heap) (b : Board) :
  h !! view = Some b ->
  length b = 9 ->
  (exists i, b !! i = Some None) ->
  count_empty b <= fuel ->
  exists mv h',
    decide_move self d fuel view side h = Ok (mv, h')
    /\ mv < 9
    /\ b !! mv = Some None.
Proof.
  intros Hb Hlen Hfree Hfuel.
  destruct (decide_move_at_Ok self d fuel view side h b Hb Hlen Hfree Hfuel)
    as (site & mv & h' & Hrun & Hmv & _).
  exists mv, h'. split; [exact (decide_move_unfold _ _ _ _ _ _ _ _ _ Hrun)|].
  split; [|exact Hmv]. apply lookup_lt_Some in Hmv. lia.
Qed.

Lemma decide_move_returns_empty_cell_witness :
  [block_board] !! 0 = Some block_board
  /\ length block_board = 9
  /\ (exists i, block_board !! i = Some None)
  /\ count_empty block_board <= 9
  /\ exists mv h',
       decide_move {| think_chance := (0%Q, 1%Q) |} zero_draws 9 0 O
         [block_board] = Ok (mv, h')
       /\ mv < 9
       /\ block_board !! mv = Some None.
Proof.
  assert (H1 : [block_board] !! 0 = Some block_board) by reflexivity.
  assert (H2 : length block_board = 9) by reflexivity.
  assert (H3 : exists i, block_board !! i = Some None)
    by (exists 2; reflexivity).
  assert (H4 : count_empty block_board <= 9) by (vm_compute; lia).
  split; [exact H1|]. split; [exact H2|]. split; [exact H3|].
  split; [exact H4|].
  exact (decide_move_returns_empty_cell _ _ 9 0 O [block_board] block_board
           H1 H2 H3 H4).
Defined.

(** C4: on every 9-cell board, [_find_win_move] scans the 8 lines in the
    order rows, columns, diagonals and returns the empty cell of the first
    line with exactly 2 cells of [side] and exactly 1 empty cell, [None]
    when no line qualifies; the store is left untouched. *)
Theorem find_win_move_first_qualifying (board : Ref) (side : Side)
    (h : Heap) (b : Board) :
  h !! board = Some b ->
  length b = 9 ->
  to_checks = rows ++ columns ++ diagonals
  /\ _find_win_move board side h = Ok (first_win_move b side, h).
Proof.
  intros Hb Hlen. split; [reflexivity|].
  apply find_win_move_Ok; assumption.
Qed.

Lemma find_win_move_first_qualifying_witness :
  [block_board] !! 0 = Some block_board
  /\ length block_board = 9
  /\ _find_win_move 0 O [block_board]
     = Ok (first_win_move block_board O, [block_board]).
Proof.
  assert (H1 : [block_board] !! 0 = Some block_board) by reflexivity.
  assert (H2 : length block_board = 9) by reflexivity.
  split; [exact H1|]. split; [exact H2|].
  exact (proj2 (find_win_move_first_qualifying 0 O [block_board] block_board
                  H1 H2)).
Defined.

(** C10: on every 9-cell board whatsoever, [_find_win_move] returns without
    raising, and its result is [None] or the index of a cell that is empty
    on the board. *)
Theorem find_win_move_total (board : Ref) (side : Side) (h : Heap)
    (b : Board) :
  h !! board = Some b ->
  length b = 9 ->
  exists r,
    _find_win_move board side h = Ok (r, h)
    /\ match r with
       | None => True
       | Some i => i < 9 /\ b !! i = Some None
       end.
Proof.
  intros Hb Hlen. exists (first_win_move b side).
  split; [apply find_win_move_Ok; assumption|].
  destruct (first_win_move b side) as [i|] eqn:Hi; [|exact I].
  apply first_win_move_free in Hi. split; [|exact Hi].
  apply lookup_lt_Some in Hi. lia.
Qed.

Lemma find_win_move_total_witness :
  [unreachable_board] !! 0 = Some unreachable_board
  /\ length unreachable_board = 9
  /\ exists r,
       _find_win_move 0 O [unreachable_board] = Ok (r, [unreachable_board])
       /\ match r with
          | None => True
          | Some i => i < 9 /\ unreachable_board !! i = Some None
          end.
Proof.
  assert (H1 : [unreachable_board] !! 0 = Some unreachable_board)
    by reflexivity.
  assert (H2 : length unreachable_board = 9) by reflexivity.
  split; [exact H1|]. split; [exact H2|].
  exact (find_win_move_total 0 O [unreachable_board] unreachable_board H1 H2).
Defined.

Lemma Qle_bool_false (p u : Q) : (u < p)%Q -> Qle_bool p u = false.
Proof.
  intros Hlt. destruct (Qle_bool p u) eqn:E; [|reflexivity].
  apply Qle_bool_iff in E. exfalso. exact (Qlt_not_le _ _ Hlt E).
Qed.

(** C8: with the default chances (1.0, 1.0), on every board that is not
    entirely empty and for every outcome of the draws, [decide_move] runs
    the search: it behaves as the search branch alone, and a move it returns
    comes from the [return] statement of that branch. *)
Theorem default_config_takes_minimax_path (d : Draws) (fuel : nat)
    (view : Ref) (side : Side) (h : Heap) (b : Board) :
  h !! view = Some b ->
  forallb is_none b = false ->
  unit_interval (first_random d) ->
  decide_move_at default_ai d fuel view side h
  = bind (minimax_move d fuel view side)
      (fun spot => ret (MinimaxReturn, spot)) h
  /\ forall site mv h',
       decide_move_at default_ai d fuel view side h = Ok ((site, mv), h') ->
       site = MinimaxReturn.
Proof.
  intros Hb Hall [_ Hlt].
  assert (Heq : decide_move_at default_ai d fuel view side h
                = bind (minimax_move d fuel view side)
                    (fun spot => ret (MinimaxReturn, spot)) h).
  { unfold decide_move_at.
    rewrite (bind_Ok _ _ _ _ _ (deref_Ok _ _ _ Hb)), Hall.
    cbn [default_ai think_chance fst].
    rewrite (Qle_bool_false 1 (first_random d) Hlt). reflexivity. }
  split; [exact Heq|].
  intros site mv h' H. rewrite Heq in H.
  apply bind_inv in H as (spot & h1 & _ & Hret).
  injection Hret as <- _ _. reflexivity.
Qed.

Lemma default_config_takes_minimax_path_witness :
  [top_row_board] !! 0 = Some top_row_board
  /\ forallb is_none top_row_board = false
  /\ unit_interval (first_random zero_draws)
  /\ decide_move_at default_ai zero_draws 9 0 X [top_row_board]
     = bind (minimax_move zero_draws 9 0 X)
         (fun spot => ret (MinimaxReturn, spot)) [top_row_board].
Proof.
  assert (H1 : [top_row_board] !! 0 = Some top_row_board) by reflexivity.
  assert (H2 : forallb is_none top_row_board = false) by reflexivity.
  assert (H3 : unit_interval (first_random zero_draws))
    by (split; [apply Qle_refl|reflexivity]).
  split; [exact H1|]. split; [exact H2|]. split; [exact H3|].
  exact (proj1 (default_config_takes_minimax_path zero_draws 9 0 X
                  [top_row_board] top_row_board H1 H2 H3)).
Defined.

(** C1: with a chance of 1.0 to think deeply, on every 9-cell board with an
    empty cell from which the side to move can force at least a draw (some
    move has a minimax score of at least 0), every move [decide_move] can
    return, whatever the draws, is an empty cell of minimax score at least
    0; no empty cell has a better score than the move returned. *)
Theorem deep_move_never_loses (self : MinimaxAi) (d : Draws) (fuel : nat)
    (view : Ref) (side : Side) (h : Heap) (b : Board) :
  h !! view = Some b ->
  length b = 9 ->
  (fst (think_chance self) == 1)%Q ->
  unit_interval (first_random d) ->
  count_empty b <= fuel ->
  (exists i, b !! i = Some None /\ (0 <= minimax_score b side i)%Z) ->
  exists mv h',
    decide_move self d fuel view side h = Ok (mv, h')
    /\ b !! mv = Some None
    /\ (0 <= minimax_score b side mv)%Z
    /\ forall i, b !! i = Some None ->
         (minimax_score b side i <= minimax_score b side mv)%Z.
Proof.
  intros Hb Hlen Hdeep [_ Hlt] Hfuel (i0 & Hi0 & Hdraw).
  unfold decide_move, decide_move_at. rewrite bind_assoc.
  rewrite (bind_Ok _ _ _ _ _ (deref_Ok _ _ _ Hb)).
  destruct (forallb is_none b) eqn:Hall.
  - assert (b = empty_board) as ->.
    { rewrite (all_none_replicate b Hall), Hlen. reflexivity. }
    assert (Hmv : randrange d 0 9 < 9).
    { unfold randrange. pose proof (Nat.mod_upper_bound (pick d) (9 - 0)).
      lia. }
    exists (randrange d 0 9), h. split; [reflexivity|].
    split; [apply all_none_lookup; [exact Hall|exact Hmv]|].
    rewrite (opening_score side _ Hmv). split; [lia|].
    intros i Hi. apply lookup_lt_Some in Hi.
    rewrite (opening_score side i Hi). lia.
  - assert (Hq : Qle_bool (fst (think_chance self)) (first_random d) = false).
    { apply Qle_bool_false. rewrite Hdeep. exact Hlt. }
    rewrite Hq.
    destruct (minimax_move_Ok d fuel view side h b Hb Hfuel
                (ex_intro _ i0 Hi0)) as (mv & Hrun & Hin).
    rewrite bind_assoc, (bind_Ok _ _ _ _ _ Hrun).
    exists mv, (h ++ [b]). split; [reflexivity|].
    apply best_of_in in Hin as [Hin Htop].
    unfold root_scores in Hin.
    apply in_map_iff in Hin as (i & [= -> Hscore] & Hi).
    assert (Hle : forall j, b !! j = Some None ->
                    (minimax_score b side j <= minimax_score b side mv)%Z).
    { intros j Hj. rewrite Hscore.
      apply (Htop (j, minimax_score b side j)).
      unfold root_scores.
      apply (in_map (fun i => (i, minimax_score b side i))), in_empties, Hj. }
    split; [apply in_empties, Hi|]. split; [|exact Hle].
    specialize (Hle i0 Hi0). lia.
Qed.

Lemma deep_move_never_loses_witness :
  [top_row_board] !! 0 = Some top_row_board
  /\ length top_row_board = 9
  /\ (fst (think_chance default_ai) == 1)%Q
  /\ unit_interval (first_random zero_draws)
  /\ count_empty top_row_board <= 9
  /\ (exists i, top_row_board !! i = Some None
                /\ (0 <= minimax_score top_row_board X i)%Z)
  /\ exists mv h',
       decide_move default_ai zero_draws 9 0 X [top_row_board] = Ok (mv, h')
       /\ top_row_board !! mv = Some None
       /\ (0 <= minimax_score top_row_board X mv)%Z.
Proof.
  assert (H1 : [top_row_board] !! 0 = Some top_row_board) by reflexivity.
  assert (H2 : length top_row_board = 9) by reflexivity.
  assert (H3 : (fst (think_chance default_ai) == 1)%Q) by reflexivity.
  assert (H4 : unit_interval (first_random zero_draws))
    by (split; [apply Qle_refl|reflexivity]).
  assert (H5 : count_empty top_row_board <= 9) by (vm_compute; lia).
  assert (H6 : exists i, top_row_board !! i = Some None
                         /\ (0 <= minimax_score top_row_board X i)%Z).
  { exists 2. split; [reflexivity|]. vm_compute. discriminate. }
  split; [exact H1|]. split; [exact H2|]. split; [exact H3|].
  split; [exact H4|]. split; [exact H5|]. split; [exact H6|].
  destruct (deep_move_never_loses default_ai zero_draws 9 0 X
              [top_row_board] top_row_board H1 H2 H3 H4 H5 H6)
    as (mv & h' & Hrun & Hfree & Hscore & _).
  exists mv, h'. split; [exact Hrun|]. split; [exact Hfree|exact Hscore].
Defined.

(** ** The two concrete scenarios *)

Lemma top_row_scores :
  root_scores top_row_board X
  = [(2, 1%Z); (3, 1%Z); (5, 0%Z); (6, 1%Z); (7, 1%Z); (8, 1%Z)].
Proof.
  apply (root_scores_by_run top_row_board X 9 _ [top_row_board]).
  - vm_compute. lia.
  - vm_compute. reflexivity.
Qed.

Lemma root_scores_lookup (b : Board) (side : Side) (i : nat) (v : Z) :
  In (i, v) (root_scores b side) -> minimax_score b side i = v.
Proof.
  unfold root_scores. intros H.
  apply in_map_iff in H as (j & Hj & _). congruence.
Qed.

(** C5, as stated, fails: with the default chances and the tie-break draw
    landing on the second best move, [decide_move] returns 3 on the board
    [[X, X, None, None, O, None, None, None, None]], not 2. *)
Lemma top_row_scenario_may_return_3 :
  unit_interval (first_random pick_one)
  /\ unit_interval (second_random pick_one)
  /\ decide_move default_ai pick_one 9 0 X [top_row_board]
     = Ok (3, [top_row_board; top_row_board])
  /\ 3 <> 2.
Proof.
  split; [split; [apply Qle_refl|reflexivity]|].
  split; [split; [apply Qle_refl|reflexivity]|].
  split; [vm_compute; reflexivity|discriminate].
Qed.

(** C5, amended: on that board with X to move and a chance of 1.0 to think
    deeply, [decide_move] returns one of the moves 2, 3, 6, 7, 8, the one the
    tie-break draw selects among these five; each of them has the maximum
    minimax score 1 (a forced win for X), and 2 is returned when the draw
    selects the first of them. *)
Theorem top_row_scenario_winning_moves (self : MinimaxAi) (d : Draws)
    (fuel : nat) (view : Ref) (h : Heap) :
  h !! view = Some top_row_board ->
  (fst (think_chance self) == 1)%Q ->
  unit_interval (first_random d) ->
  6 <= fuel ->
  exists mv,
    decide_move self d fuel view X h = Ok (mv, h ++ [top_row_board])
    /\ [2; 3; 6; 7; 8] !! (pick d mod 5) = Some mv
    /\ minimax_score top_row_board X mv = 1%Z
    /\ (pick d mod 5 = 0 -> mv = 2).
Proof.
  intros Hb Hdeep [_ Hlt] Hfuel.
  assert (Hcount : count_empty top_row_board <= fuel)
    by (change (count_empty top_row_board) with 6; exact Hfuel).
  assert (Hrun : decide_move self d fuel view X h
                 = bind (choice d [2; 3; 6; 7; 8]) (fun spot => ret spot)
                     (h ++ [top_row_board])).
  { unfold decide_move, decide_move_at. rewrite bind_assoc.
    rewrite (bind_Ok _ _ _ _ _ (deref_Ok _ _ _ Hb)).
    change (forallb is_none top_row_board) with false. cbn iota.
    assert (Hq : Qle_bool (fst (think_chance self)) (first_random d) = false)
      by (apply Qle_bool_false; rewrite Hdeep; exact Hlt).
    rewrite Hq, bind_assoc. unfold bind at 1.
    rewrite (minimax_move_eq d fuel view X h top_row_board Hb Hcount).
    rewrite top_row_scores. cbv beta iota.
    change (fst (best_of _)) with [2; 3; 6; 7; 8].
    unfold bind. destruct (choice d _ _) as [[spot h1]|e]; reflexivity. }
  assert (Hlt5 : pick d mod 5 < 5) by (apply Nat.mod_upper_bound; lia).
  destruct (lookup_lt_is_Some_2 [2; 3; 6; 7; 8] (pick d mod 5) Hlt5)
    as [mv Hmv].
  exists mv. split; [|split; [exact Hmv|split]].
  - rewrite Hrun. unfold bind, choice. cbn [length]. rewrite Hmv. reflexivity.
  - apply root_scores_lookup. rewrite top_row_scores.
    destruct (pick d mod 5) as [|[|[|[|[|k]]]]];
      cbn in Hmv; try discriminate Hmv; injection Hmv as <-;
      simpl; auto 10.
  - intros H0. rewrite H0 in Hmv. cbn in Hmv. congruence.
Qed.

Lemma top_row_scenario_winning_moves_witness :
  [top_row_board] !! 0 = Some top_row_board
  /\ (fst (think_chance default_ai) == 1)%Q
  /\ unit_interval (first_random pick_one)
  /\ 6 <= 9
  /\ exists mv,
       decide_move default_ai pick_one 9 0 X [top_row_board]
       = Ok (mv, [top_row_board] ++ [top_row_board])
       /\ [2; 3; 6; 7; 8] !! (pick pick_one mod 5) = Some mv
       /\ minimax_score top_row_board X mv = 1%Z
       /\ (pick pick_one mod 5 = 0 -> mv = 2).
Proof.
  assert (H1 : [top_row_board] !! 0 = Some top_row_board) by reflexivity.
  assert (H2 : (fst (think_chance default_ai) == 1)%Q) by reflexivity.
  assert (H3 : unit_interval (first_random pick_one))
    by (split; [apply Qle_refl|reflexivity]).
  assert (H4 : 6 <= 9) by lia.
  split; [exact H1|]. split; [exact H2|]. split; [exact H3|].
  split; [exact H4|].
  exact (top_row_scenario_winning_moves default_ai pick_one 9 0
           [top_row_board] H1 H2 H3 H4).
Defined.

(** C6, as stated, fails: on the board
    [[X, X, None, O, O, None, None, None, None]] with chances (0, 1.0) and X
    to move, [decide_move] returns 2, not 5. *)
Lemma block_scenario_returns_2 :
  unit_interval (first_random zero_draws)
  /\ unit_interval (second_random zero_draws)
  /\ decide_move {| think_chance := (0%Q, 1%Q) |} zero_draws 9 0 X
       [block_board] = Ok (2, [block_board])
  /\ 2 <> 5.
Proof.
  split; [split; [apply Qle_refl|reflexivity]|].
  split; [split; [apply Qle_refl|reflexivity]|].
  split; [vm_compute; reflexivity|discriminate].
Qed.

(** C6, amended: on that board with X to move, a chance of 0 to think deeply
    and a chance of 1.0 to look for obvious moves, [decide_move] returns 2
    for every outcome of the draws: X has two marks in the top row with
    cell 2 empty, and the search for an own win comes before the search for
    a block. *)
Theorem block_scenario_completes_own_row (self : MinimaxAi) (d : Draws)
    (fuel : nat) (view : Ref) (h : Heap) :
  h !! view = Some block_board ->
  (fst (think_chance self) == 0)%Q ->
  (snd (think_chance self) == 1)%Q ->
  unit_interval (first_random d) ->
  unit_interval (second_random d) ->
  decide_move_at self d fuel view X h = Ok ((WinReturn, 2), h)
  /\ decide_move self d fuel view X h = Ok (2, h).
Proof.
  intros Hb Hdeep Hshallow [Hge _] [_ Hlt].
  assert (Hrun : decide_move_at self d fuel view X h = Ok ((WinReturn, 2), h)).
  { unfold decide_move_at.
    rewrite (bind_Ok _ _ _ _ _ (deref_Ok _ _ _ Hb)).
    change (forallb is_none block_board) with false. cbn iota.
    assert (Hq1 : Qle_bool (fst (think_chance self)) (first_random d) = true)
      by (apply Qle_bool_iff; rewrite Hdeep; exact Hge).
    assert (Hq2 : Qle_bool (snd (think_chance self)) (second_random d) = false)
      by (apply Qle_bool_false; rewrite Hshallow; exact Hlt).
    rewrite Hq1, Hq2. cbn [negb]. rewrite bind_assoc.
    rewrite (bind_Ok _ _ _ _ _
               (find_win_move_Ok view X h block_board Hb eq_refl)).
    reflexivity. }
  split; [exact Hrun|]. exact (decide_move_unfold _ _ _ _ _ _ _ _ _ Hrun).
Qed.

Lemma block_scenario_completes_own_row_witness :
  [block_board] !! 0 = Some block_board
  /\ (fst (think_chance {| think_chance := (0%Q, 1%Q) |}) == 0)%Q
  /\ (snd (think_chance {| think_chance := (0%Q, 1%Q) |}) == 1)%Q
  /\ unit_interval (first_random zero_draws)
  /\ unit_interval (second_random zero_draws)
  /\ decide_move {| think_chance := (0%Q, 1%Q) |} zero_draws 9 0 X
       [block_board] = Ok (2, [block_board]).
Proof.
  assert (H1 : [block_board] !! 0 = Some block_board) by reflexivity.
  assert (H2 : (fst (think_chance {| think_chance := (0%Q, 1%Q) |}) == 0)%Q)
    by reflexivity.
  assert (H3 : (snd (think_chance {| think_chance := (0%Q, 1%Q) |}) == 1)%Q)
    by reflexivity.
  assert (H4 : unit_interval (first_random zero_draws))
    by (split; [apply Qle_refl|reflexivity]).
  assert (H5 : unit_interval (second_random zero_draws))
    by (split; [apply Qle_refl|reflexivity]).
  split; [exact H1|]. split; [exact H2|]. split; [exact H3|].
  split; [exact H4|]. split; [exact H5|].
  exact (proj2 (block_scenario_completes_own_row _ zero_draws 9 0
                  [block_board] H1 H2 H3 H4 H5)).
Defined.

(** * Further properties of the code *)

(** ** The move found completes a line *)


Lemma winning_lines_distinct : Forall distinct_triple winning_lines.
Proof.
  unfold winning_lines.
  repeat (constructor;
          [eexists _, _, _; split; [reflexivity|]; repeat split; lia|]).
  constructor.
Qed.

Lemma empty_not_owned (b : Board) (side : Side) (k : nat) :
  empty_at b k = true -> owned_by b side k = false.
Proof.
  unfold empty_at, owned_by. destruct (b !! k) as [[s|]|]; congruence.
Qed.

Lemma owned_by_place_same (b : Board) (side : Side) (j : nat) :
  j < length b -> owned_by (place b j side) side j = true.
Proof.
  intros Hj. unfold owned_by, place. rewrite list_lookup_insert_eq by exact Hj.
  destruct side; reflexivity.
Qed.

Lemma owned_by_place_other (b : Board) (s side : Side) (j k : nat) :
  k <> j -> owned_by (place b j s) side k = owned_by b side k.
Proof.
  intros Hk. unfold owned_by, place.
  rewrite list_lookup_insert_ne by congruence. reflexivity.
Qed.

Lemma owned_by_place_mono (b : Board) (side : Side) (j k : nat) :
  owned_by b side k = true -> owned_by (place b j side) side k = true.
Proof.
  intros Hk. destruct (decide (k = j)) as [->|Hne].
  - apply owned_by_place_same. unfold owned_by in Hk.
    destruct (b !! j) eqn:Hj; [|discriminate]. eapply lookup_lt_Some, Hj.
  - rewrite owned_by_place_other by exact Hne. exact Hk.
Qed.

Lemma owned_by_place_inv (b : Board) (side : Side) (j k : nat) :
  owned_by (place b j side) side k = true ->
  k = j \/ owned_by b side k = true.
Proof.
  intros Hk. destruct (decide (k = j)) as [->|Hne]; [left; reflexivity|].
  right. rewrite owned_by_place_other in Hk by exact Hne. exact Hk.
Qed.

(** A qualifying line is complete once its empty cell takes the mark. *)
Lemma qualifying_line_completes (b : Board) (side : Side) (x y z j : nat) :
  qualifies b side [x; y; z] = true ->
  free_cell b [x; y; z] = Some j ->
  forallb (owned_by (place b j side) side) [x; y; z] = true.
Proof.
  unfold qualifies, count_owned, count_free, free_cell.
  cbn [List.filter List.find forallb]. intros Hq Hf.
  destruct (empty_at b x) eqn:Ex, (empty_at b y) eqn:Ey,
    (empty_at b z) eqn:Ez;
    try rewrite (empty_not_owned b side x Ex) in Hq;
    try rewrite (empty_not_owned b side y Ey) in Hq;
    try rewrite (empty_not_owned b side z Ez) in Hq;
    destruct (owned_by b side x) eqn:Ox, (owned_by b side y) eqn:Oy,
      (owned_by b side z) eqn:Oz;
    cbn in Hq; try discriminate Hq; injection Hf as <-;
    repeat match goal with
      | |- context [owned_by (place b ?j side) side ?j] =>
          rewrite (owned_by_place_same b side j)
            by (eapply lookup_lt_Some, empty_at_true; eassumption)
      | H : owned_by b side ?k = true
        |- context [owned_by (place b ?j side) side ?k] =>
          rewrite (owned_by_place_mono b side j k H)
      end;
    reflexivity.
Qed.

(** A line completed by a mark on an empty cell qualified before. *)
Lemma completed_line_qualified (b : Board) (side : Side) (x y z i : nat) :
  x <> y -> x <> z -> y <> z ->
  b !! i = Some None ->
  forallb (owned_by (place b i side) side) [x; y; z] = true ->
  forallb (owned_by b side) [x; y; z] = false ->
  qualifies b side [x; y; z] = true.
Proof.
  intros Hxy Hxz Hyz Hi Hafter Hbefore. cbn [forallb] in Hafter, Hbefore.
  apply andb_true_iff in Hafter as [Hx Hafter].
  apply andb_true_iff in Hafter as [Hy Hafter].
  apply andb_true_iff in Hafter as [Hz _].
  apply owned_by_place_inv in Hx, Hy, Hz.
  assert (Hei : empty_at b i = true) by (apply empty_at_true, Hi).
  assert (Hoi : owned_by b side i = false) by (apply empty_not_owned, Hei).
  assert (Hfree : forall k, owned_by b side k = true -> empty_at b k = false).
  { intros k Hk. destruct (empty_at b k) eqn:Ek; [|reflexivity].
    rewrite (empty_not_owned b side k Ek) in Hk. discriminate. }
  unfold qualifies, count_owned, count_free. cbn [List.filter].
  destruct Hx as [->|Hx], Hy as [->|Hy], Hz as [->|Hz]; try congruence;
    try match goal with
      | H1 : owned_by b side x = true, H2 : owned_by b side y = true,
        H3 : owned_by b side z = true |- _ =>
          rewrite H1, H2, H3 in Hbefore; discriminate Hbefore
      end;
    rewrite ?Hei, ?Hoi;
    repeat match goal with
      | H : owned_by b side ?k = true |- _ =>
          rewrite H, (Hfree k H); clear H
      end;
    reflexivity.
Qed.

Lemma qualifies_free_cell (b : Board) (side : Side) (line : list nat) :
  qualifies b side line = true -> exists j, free_cell b line = Some j.
Proof.
  unfold qualifies, count_free, free_cell. intros Hq.
  apply andb_true_iff in Hq as [_ Hq]. apply Nat.eqb_eq in Hq.
  induction line as [|k line IH]; [discriminate Hq|].
  cbn [List.filter List.find] in *.
  destruct (empty_at b k); [eauto|apply IH, Hq].
Qed.

(** X1: the move [_find_win_move] returns on a 9-cell board wins at once:
    with the mark of [side] on that cell, [side] has three in a row. *)
Theorem find_win_move_wins (board : Ref) (side : Side) (h h' : Heap)
    (b : Board) (j : nat) :
  h !! board = Some b ->
  length b = 9 ->
  _find_win_move board side h = Ok (Some j, h') ->
  b !! j = Some None
  /\ board_has_won (place b j side) side = true.
Proof.
  intros Hb Hlen Hrun.
  rewrite (find_win_move_Ok board side h b Hb Hlen) in Hrun.
  injection Hrun as Hfirst _.
  split; [exact (first_win_move_free b side j Hfirst)|].
  unfold first_win_move in Hfirst.
  destruct (List.find (qualifies b side) _) as [line|] eqn:Hfind;
    [|discriminate].
  apply find_some in Hfind as [Hin Hq].
  assert (Htriple : triple_in 9 line)
    by exact (proj1 (List.Forall_forall _ _) to_checks_triples line Hin).
  destruct Htriple as (x & y & z & -> & _).
  unfold board_has_won. apply existsb_exists. exists [x; y; z].
  split; [exact Hin|]. exact (qualifying_line_completes b side x y z j Hq Hfirst).
Qed.

Lemma find_win_move_wins_witness :
  [block_board] !! 0 = Some block_board
  /\ length block_board = 9
  /\ _find_win_move 0 O [block_board] = Ok (Some 5, [block_board])
  /\ board_has_won (place block_board 5 O) O = true.
Proof.
  assert (H1 : [block_board] !! 0 = Some block_board) by reflexivity.
  assert (H2 : length block_board = 9) by reflexivity.
  assert (H3 : _find_win_move 0 O [block_board] = Ok (Some 5, [block_board]))
    by reflexivity.
  split; [exact H1|]. split; [exact H2|]. split; [exact H3|].
  exact (proj2 (find_win_move_wins 0 O _ _ block_board 5 H1 H2 H3)).
Defined.

(** X2: [_find_win_move] misses no immediate win: on a 9-cell board where
    [side] has no line yet, if a mark of [side] on some empty cell gives it
    three in a row, then the result is a move, not [None]. *)
Theorem find_win_move_complete (board : Ref) (side : Side) (h : Heap)
    (b : Board) (i : nat) :
  h !! board = Some b ->
  length b = 9 ->
  board_has_won b side = false ->
  b !! i = Some None ->
  board_has_won (place b i side) side = true ->
  exists j, _find_win_move board side h = Ok (Some j, h).
Proof.
  intros Hb Hlen Hnot Hi Hwin.
  rewrite (find_win_move_Ok board side h b Hb Hlen).
  unfold board_has_won in Hwin, Hnot.
  apply existsb_exists in Hwin as (line & Hin & Hafter).
  assert (Hbefore : forallb (owned_by b side) line = false).
  { destruct (forallb (owned_by b side) line) eqn:E; [|reflexivity].
    assert (existsb (forallb (owned_by b side)) winning_lines = true)
      by (apply existsb_exists; eauto).
    congruence. }
  destruct (proj1 (List.Forall_forall _ _) winning_lines_distinct line Hin)
    as (x & y & z & -> & Hxy & Hxz & Hyz).
  pose proof (completed_line_qualified b side x y z i Hxy Hxz Hyz Hi Hafter
                Hbefore) as Hq.
  unfold first_win_move.
  destruct (List.find (qualifies b side) (rows ++ columns ++ diagonals))
    as [line'|] eqn:Hfind.
  - apply find_some in Hfind as [_ Hq'].
    destruct (qualifies_free_cell b side line' Hq') as [j Hj].
    exists j. rewrite Hj. reflexivity.
  - pose proof (find_none _ _ Hfind [x; y; z] Hin) as Hno. congruence.
Qed.

Lemma find_win_move_complete_witness :
  [block_board] !! 0 = Some block_board
  /\ length block_board = 9
  /\ board_has_won block_board X = false
  /\ block_board !! 2 = Some None
  /\ board_has_won (place block_board 2 X) X = true
  /\ exists j, _find_win_move 0 X [block_board] = Ok (Some j, [block_board]).
Proof.
  assert (H1 : [block_board] !! 0 = Some block_board) by reflexivity.
  assert (H2 : length block_board = 9) by reflexivity.
  assert (H3 : board_has_won block_board X = false) by reflexivity.
  assert (H4 : block_board !! 2 = Some None) by reflexivity.
  assert (H5 : board_has_won (place block_board 2 X) X = true) by reflexivity.
  split; [exact H1|]. split; [exact H2|]. split; [exact H3|].
  split; [exact H4|]. split; [exact H5|].
  exact (find_win_move_complete 0 X _ block_board 2 H1 H2 H3 H4 H5).
Defined.

(** ** [_find_win_move] on views of another length *)

Lemma getitem_out_of_range (r : Ref) (i : nat) (h : Heap) (b : Board) :
  h !! r = Some b -> length b <= i -> getitem r i h = Raise IndexError.
Proof.
  intros Hr Hi. unfold getitem.
  rewrite (bind_Ok _ _ _ _ _ (deref_Ok _ _ _ Hr)).
  rewrite (lookup_ge_None_2 b i Hi). reflexivity.
Qed.

Lemma last_free_spot (b : Board) (line : list nat) (e : option nat) (i : nat) :
  last_free b line e = Some i -> e = Some i \/ b !! i = Some None.
Proof.
  revert e. induction line as [|k line IH]; intros e H; [left; exact H|].
  unfold last_free in H. cbn [fold_left] in H. fold (last_free b line) in H.
  apply IH in H as [H|H]; [|right; exact H].
  destruct (empty_at b k) eqn:Hk; [|left; exact H].
  injection H as <-. right. apply empty_at_true, Hk.
Qed.

(** The inner loop either reads three cells in range or stops at the first
    index beyond the end of the view. *)
Lemma scan_line_cases (board : Ref) (side : Side) (h : Heap) (b : Board) :
  h !! board = Some b ->
  forall (line : list nat) (count : nat) (e : option nat),
    (Forall (fun i => i < length b) line
     /\ scan_line board side line count e h
        = Ok ((count + count_owned b side line, last_free b line e), h))
    \/ (~ Forall (fun i => i < length b) line
        /\ scan_line board side line count e h = Raise IndexError).
Proof.
  intros Hb line count e.
  destruct (decide (Forall (fun i => i < length b) line)) as [Hin|Hout].
  - left. split; [exact Hin|]. apply scan_line_Ok; assumption.
  - right. split; [exact Hout|]. revert count e.
    induction line as [|i line IH]; intros count e.
    + exfalso. apply Hout. constructor.
    + cbn [scan_line]. destruct (lt_dec i (length b)) as [Hi|Hi].
      * destruct (lookup_lt_is_Some_2 b i Hi) as [t Ht].
        rewrite (bind_Ok _ _ _ _ _ (getitem_Ok _ _ _ _ _ Hb Ht)).
        assert (Hrest : ~ Forall (fun i => i < length b) line)
          by (intros H; apply Hout; constructor; assumption).
        destruct t as [s|]; [destruct (side_eqb s side)|]; apply IH, Hrest.
      * apply bind_Raise, (getitem_out_of_range _ _ _ b Hb). lia.
Qed.

Lemma find_in_lines_cases (board : Ref) (side : Side) (h : Heap) (b : Board) :
  h !! board = Some b ->
  forall lines : list (list nat),
    find_in_lines board side lines h = Raise IndexError
    \/ (find_in_lines board side lines h = Ok (None, h)
        /\ Forall (Forall (fun i => i < length b)) lines)
    \/ (exists i, find_in_lines board side lines h = Ok (Some i, h)
                  /\ b !! i = Some None).
Proof.
  intros Hb. induction lines as [|line lines IH].
  - right. left. split; [reflexivity|constructor].
  - cbn [find_in_lines].
    destruct (scan_line_cases board side h b Hb line 0 None)
      as [[Hin Hscan]|[_ Hscan]].
    2:{ left. apply bind_Raise, Hscan. }
    rewrite (bind_Ok _ _ _ _ _ Hscan). cbn [Nat.add].
    destruct (last_free b line None) as [i|] eqn:Hspot.
    + destruct (count_owned b side line =? 2).
      * right. right. exists i. split; [reflexivity|].
        apply last_free_spot in Hspot as [Hspot|Hspot];
          [discriminate|exact Hspot].
      * destruct IH as [IH|[[IH Hall]|IH]];
          [left; exact IH
          |right; left; split; [exact IH|constructor; assumption]
          |right; right; exact IH].
    + rewrite andb_false_r.
      destruct IH as [IH|[[IH Hall]|IH]];
        [left; exact IH
        |right; left; split; [exact IH|constructor; assumption]
        |right; right; exact IH].
Qed.

(** X3: on a view with fewer than 9 cells [_find_win_move] never answers
    [None]: it returns an empty cell found in a line that lies within the
    view, or the read of an index beyond the end raises [IndexError]. *)
Theorem find_win_move_short_view (board : Ref) (side : Side) (h : Heap)
    (b : Board) :
  h !! board = Some b ->
  length b < 9 ->
  _find_win_move board side h = Raise IndexError
  \/ exists i, _find_win_move board side h = Ok (Some i, h)
               /\ b !! i = Some None.
Proof.
  intros Hb Hlen. unfold _find_win_move.
  destruct (find_in_lines_cases board side h b Hb to_checks)
    as [H|[[_ Hall]|H]]; [left; exact H| |right; exact H].
  exfalso. unfold to_checks in Hall.
  apply Forall_cons in Hall as [_ Hall].
  apply Forall_cons in Hall as [_ Hall].
  apply Forall_cons in Hall as [H678 _].
  apply Forall_cons in H678 as [_ H78].
  apply Forall_cons in H78 as [_ H8].
  apply Forall_cons in H8 as [H8 _]. lia.
Qed.

Lemma find_win_move_short_view_witness :
  [[Some X; Some X; None]] !! 0 = Some [Some X; Some X; None]
  /\ length [Some X; Some X; None] < 9
  /\ (_find_win_move 0 X [[Some X; Some X; None]] = Raise IndexError
      \/ exists i,
           _find_win_move 0 X [[Some X; Some X; None]]
           = Ok (Some i, [[Some X; Some X; None]])
           /\ [Some X; Some X; None] !! i = Some None).
Proof.
  assert (H1 : [[Some X; Some X; None]] !! 0 = Some [Some X; Some X; None])
    by reflexivity.
  assert (H2 : length [Some X; Some X; None] < 9) by (cbn; lia).
  split; [exact H1|]. split; [exact H2|].
  exact (find_win_move_short_view 0 X _ _ H1 H2).
Defined.

Lemma filter_agree {A} (f g : A -> bool) (l : list A) :
  Forall (fun x => f x = g x) l -> List.filter f l = List.filter g l.
Proof.
  induction 1 as [|x l Hx _ IH]; [reflexivity|].
  cbn [List.filter]. rewrite Hx, IH. reflexivity.
Qed.

Lemma find_agree {A} (f g : A -> bool) (l : list A) :
  Forall (fun x => f x = g x) l -> List.find f l = List.find g l.
Proof.
  induction 1 as [|x l Hx _ IH]; [reflexivity|].
  cbn [List.find]. rewrite Hx, IH. reflexivity.
Qed.

Lemma lines_below_9 :
  Forall (Forall (fun i => i < 9)) (rows ++ columns ++ diagonals).
Proof.
  unfold rows, columns, diagonals. cbn [app].
  repeat (constructor; [repeat (constructor; [lia|]); constructor|]).
  constructor.
Qed.

(** The reference answer depends on the first nine cells only. *)
Lemma first_win_move_agree (b1 b2 : Board) (side : Side) :
  (forall i, i < 9 -> b1 !! i = b2 !! i) ->
  first_win_move b1 side = first_win_move b2 side.
Proof.
  intros Hsame.
  assert (Hown : forall line, Forall (fun i => i < 9) line ->
            Forall (fun i => owned_by b1 side i = owned_by b2 side i) line).
  { intros line Hline. eapply Forall_impl; [exact Hline|].
    intros i Hi. unfold owned_by.
    rewrite (Hsame i Hi). reflexivity. }
  assert (Hfree : forall line, Forall (fun i => i < 9) line ->
            Forall (fun i => empty_at b1 i = empty_at b2 i) line).
  { intros line Hline. eapply Forall_impl; [exact Hline|].
    intros i Hi. unfold empty_at.
    rewrite (Hsame i Hi). reflexivity. }
  unfold first_win_move.
  rewrite (find_agree (qualifies b1 side) (qualifies b2 side)).
  2:{ eapply Forall_impl; [exact lines_below_9|]. intros line Hline.
      unfold qualifies, count_owned, count_free.
      rewrite (filter_agree _ _ _ (Hown line Hline)).
      rewrite (filter_agree _ _ _ (Hfree line Hline)). reflexivity. }
  destruct (List.find (qualifies b2 side) _) as [line|] eqn:Hfind;
    [|reflexivity].
  apply find_some in Hfind as [Hin _]. unfold free_cell.
  apply find_agree, Hfree.
  exact (proj1 (List.Forall_forall _ _) lines_below_9 line Hin).
Qed.

Lemma first_win_move_take (b : Board) (side : Side) :
  first_win_move (take 9 b) side = first_win_move b side.
Proof.
  apply first_win_move_agree. intros i Hi. apply lookup_take_lt, Hi.
Qed.

(** X4: on a view with 9 cells or more [_find_win_move] reads the first nine
    cells only: it returns what it returns on the view cut after the ninth
    cell, and leaves the store as it is. *)
Theorem find_win_move_long_view (board : Ref) (side : Side) (h : Heap)
    (b : Board) :
  h !! board = Some b ->
  9 <= length b ->
  _find_win_move board side h = Ok (first_win_move (take 9 b) side, h).
Proof.
  intros Hb Hlen. rewrite first_win_move_take.
  unfold _find_win_move, first_win_move.
  apply (find_in_lines_Ok board side h b Hb to_checks).
  eapply Forall_impl; [exact to_checks_triples|].
  intros line (i & j & k & -> & Hi & Hj & Hk).
  exists i, j, k. repeat split; lia.
Qed.

Lemma find_win_move_long_view_witness :
  [block_board ++ [Some X; None]] !! 0 = Some (block_board ++ [Some X; None])
  /\ 9 <= length (block_board ++ [Some X; None])
  /\ _find_win_move 0 O [block_board ++ [Some X; None]]
     = Ok (first_win_move (take 9 (block_board ++ [Some X; None])) O,
           [block_board ++ [Some X; None]]).
Proof.
  assert (H1 : [block_board ++ [Some X; None]] !! 0
               = Some (block_board ++ [Some X; None])) by reflexivity.
  assert (H2 : 9 <= length (block_board ++ [Some X; None])) by (cbn; lia).
  split; [exact H1|]. split; [exact H2|].
  exact (find_win_move_long_view 0 O _ _ H1 H2).
Defined.

(** ** What the generator yields *)

Lemma empties_length_from (pre b : Board) :
  length (List.filter (empty_at (pre ++ b)) (seq (length pre) (length b)))
  = length (List.filter is_none b).
Proof.
  revert pre. induction b as [|t b IH]; intros pre; [reflexivity|].
  cbn [length seq List.filter].
  assert (He : empty_at (pre ++ t :: b) (length pre) = is_none t).
  { unfold empty_at. rewrite list_lookup_middle by reflexivity.
    destruct t; reflexivity. }
  rewrite He. specialize (IH (pre ++ [t])).
  rewrite length_app, Nat.add_1_r, <- app_assoc in IH. cbn [app] in IH.
  destruct (is_none t); cbn [length]; rewrite IH; reflexivity.
Qed.

Lemma empties_length (b : Board) : length (empties b) = count_empty b.
Proof. exact (empties_length_from [] b). Qed.

Lemma filter_seq_ascending (f : nat -> bool) (n a : nat) :
  StronglySorted lt (List.filter f (seq a n)).
Proof.
  revert a. induction n as [|n IH]; intros a; [constructor|].
  cbn [seq List.filter]. destruct (f a); [|apply IH].
  constructor; [apply IH|]. apply List.Forall_forall. intros i Hi.
  apply filter_In in Hi as [Hi _]. apply in_seq in Hi. lia.
Qed.

(** X5: drained on a 9-cell board, [_move_scores] yields exactly one pair per
    empty cell, in ascending order of the cells; the score of a pair is the
    result of [_max_score] on the board carrying the mark on that cell, a
    value in {-1, 0, 1}; and the board is left as it was. *)
Theorem move_scores_yields_each_empty_cell (fuel : nat) (board : Ref)
    (side : Side) (m : bool) (h : Heap) (b : Board) :
  h !! board = Some b ->
  length b = 9 ->
  count_empty b <= fuel ->
  exists ps,
    _move_scores fuel board side m h = Ok (ps, h)
    /\ map fst ps = empties b
    /\ StronglySorted lt (map fst ps)
    /\ length ps = count_empty b
    /\ (forall i, In i (map fst ps) <-> b !! i = Some None)
    /\ forall i v, In (i, v) ps ->
         is_score v
         /\ _max_score fuel board side m
              (<[board := place b i (mover side m)]> h)
            = Ok (v, <[board := place b i (mover side m)]> h).
Proof.
  intros Hb _ Hfuel.
  exists (map (fun i => (i, game_value (place b i (mover side m)) side m))
            (empties b)).
  assert (Hfst : map fst
            (map (fun i => (i, game_value (place b i (mover side m)) side m))
               (empties b)) = empties b).
  { rewrite map_map. cbn [fst]. apply map_id. }
  split; [apply move_scores_Ok; assumption|].
  split; [exact Hfst|]. rewrite Hfst.
  split; [apply filter_seq_ascending|].
  split; [rewrite length_map; apply empties_length|].
  split; [intros i; apply in_empties|].
  intros i v Hin. apply in_map_iff in Hin as (j & Hj & Hin).
  injection Hj as -> <-. apply in_empties in Hin.
  split; [apply game_value_score|].
  apply max_score_Ok; [apply (lookup_store_insert _ _ _ _ Hb)|].
  pose proof (count_empty_insert_some b i (mover side m) Hin).
  unfold place. lia.
Qed.

Lemma move_scores_yields_each_empty_cell_witness :
  [block_board] !! 0 = Some block_board
  /\ length block_board = 9
  /\ count_empty block_board <= 5
  /\ exists ps,
       _move_scores 5 0 O true [block_board] = Ok (ps, [block_board])
       /\ map fst ps = empties block_board.
Proof.
  assert (H1 : [block_board] !! 0 = Some block_board) by reflexivity.
  assert (H2 : length block_board = 9) by reflexivity.
  assert (H3 : count_empty block_board <= 5) by (vm_compute; lia).
  split; [exact H1|]. split; [exact H2|]. split; [exact H3|].
  destruct (move_scores_yields_each_empty_cell 5 0 O true [block_board]
              block_board H1 H2 H3) as (ps & Hrun & Hfst & _).
  exists ps. split; [exact Hrun|exact Hfst].
Defined.

(** ** Symmetries of the evaluator *)

Lemma count_empty_swap (b : Board) : count_empty (swap_board b) = count_empty b.
Proof.
  unfold count_empty, swap_board. induction b as [|t b IH]; [reflexivity|].
  cbn [map List.filter]. destruct t; cbn [option_map is_none length];
    rewrite IH; reflexivity.
Qed.

Lemma fold_max_opp (l : list Z) (a : Z) :
  fold_left Z.max (map Z.opp l) (- a)%Z = (- fold_left Z.min l a)%Z.
Proof.
  revert a. induction l as [|x l IH]; intros a; [reflexivity|].
  cbn [map fold_left]. rewrite <- IH. f_equal. lia.
Qed.

Lemma fold_min_opp (l : list Z) (a : Z) :
  fold_left Z.min (map Z.opp l) (- a)%Z = (- fold_left Z.max l a)%Z.
Proof.
  revert a. induction l as [|x l IH]; intros a; [reflexivity|].
  cbn [map fold_left]. rewrite <- IH. f_equal. lia.
Qed.

Lemma aggregate_opp (m : bool) (l : list Z) :
  aggregate m (map Z.opp l) = (- aggregate (negb m) l)%Z.
Proof.
  unfold aggregate, maximum, minimum.
  destruct m, l as [|x l]; cbn [negb map]; try reflexivity.
  - apply fold_max_opp.
  - apply fold_min_opp.
Qed.

(** Seen from the other side, with the turn unchanged, the value of a
    position is the opposite. *)
Lemma game_value_dual (b : Board) (s : Side) (m : bool) :
  game_value b (swap_side s) (negb m) = (- game_value b s m)%Z.
Proof.
  remember (count_empty b) as n eqn:Hn. revert b s m Hn.
  induction n as [n IH] using lt_wf_ind. intros b s m Hn.
  rewrite (game_value_cases b (swap_side s)), (game_value_cases b s).
  rewrite swap_side_involutive, negb_involutive.
  destruct m; cbn [negb andb].
  - destruct (board_has_won b s); [reflexivity|].
    destruct (board_full b); [reflexivity|].
    etransitivity; [|exact (aggregate_opp true _)].
    rewrite map_map. f_equal. apply map_ext_in. intros i Hi.
    apply in_empties in Hi.
    change (mover (swap_side s) true) with (mover s false).
    refine (IH (count_empty (place b i (mover s false))) _ _ s false
              eq_refl).
    pose proof (count_empty_insert_some b i (mover s false) Hi).
    unfold place. lia.
  - destruct (board_has_won b (swap_side s)); [reflexivity|].
    destruct (board_full b); [reflexivity|].
    etransitivity; [|exact (aggregate_opp false _)].
    rewrite map_map. f_equal. apply map_ext_in. intros i Hi.
    apply in_empties in Hi.
    change (mover (swap_side s) false) with (swap_side (swap_side s)).
    rewrite swap_side_involutive. change s with (mover s true) at 1.
    refine (IH (count_empty (place b i (mover s true))) _ _ s true
              eq_refl).
    pose proof (count_empty_insert_some b i (mover s true) Hi).
    unfold place. lia.
Qed.

(** X6: [_max_score] is zero-sum: on a 9-cell board, scoring the same position
    for the opponent (the other root side, the flag flipped so that the same
    side is to move) returns the opposite score. *)
Theorem max_score_is_zero_sum (fuel : nat) (board : Ref) (side : Side)
    (m : bool) (h : Heap) (b : Board) :
  h !! board = Some b ->
  length b = 9 ->
  count_empty b < fuel ->
  exists v,
    _max_score fuel board side m h = Ok (v, h)
    /\ _max_score fuel board (swap_side side) (negb m) h = Ok ((- v)%Z, h).
Proof.
  intros Hb _ Hfuel. exists (game_value b side m).
  rewrite <- game_value_dual. split; apply max_score_Ok; assumption.
Qed.

Lemma max_score_is_zero_sum_witness :
  [top_row_board] !! 0 = Some top_row_board
  /\ length top_row_board = 9
  /\ count_empty top_row_board < 10
  /\ exists v,
       _max_score 10 0 X false [top_row_board] = Ok (v, [top_row_board])
       /\ _max_score 10 0 (swap_side X) (negb false) [top_row_board]
          = Ok ((- v)%Z, [top_row_board]).
Proof.
  assert (H1 : [top_row_board] !! 0 = Some top_row_board) by reflexivity.
  assert (H2 : length top_row_board = 9) by reflexivity.
  assert (H3 : count_empty top_row_board < 10) by (vm_compute; lia).
  split; [exact H1|]. split; [exact H2|]. split; [exact H3|].
  exact (max_score_is_zero_sum 10 0 X false [top_row_board] top_row_board
           H1 H2 H3).
Defined.

(** X7: [_max_score] does not depend on which side is which: exchanging the
    marks of the two sides on a 9-cell board together with the root side
    leaves the score unchanged. *)
Theorem max_score_ignores_side_names (fuel : nat) (board board' : Ref)
    (side : Side) (m : bool) (h h' : Heap) (b : Board) :
  h !! board = Some b ->
  h' !! board' = Some (swap_board b) ->
  length b = 9 ->
  count_empty b < fuel ->
  exists v,
    _max_score fuel board side m h = Ok (v, h)
    /\ _max_score fuel board' (swap_side side) m h' = Ok (v, h').
Proof.
  intros Hb Hb' _ Hfuel. exists (game_value b side m).
  split; [apply max_score_Ok; assumption|].
  rewrite <- game_value_swap. apply max_score_Ok; [exact Hb'|].
  rewrite count_empty_swap. exact Hfuel.
Qed.

Lemma max_score_ignores_side_names_witness :
  [top_row_board] !! 0 = Some top_row_board
  /\ [swap_board top_row_board] !! 0 = Some (swap_board top_row_board)
  /\ length top_row_board = 9
  /\ count_empty top_row_board < 10
  /\ exists v,
       _max_score 10 0 X true [top_row_board] = Ok (v, [top_row_board])
       /\ _max_score 10 0 (swap_side X) true [swap_board top_row_board]
          = Ok (v, [swap_board top_row_board]).
Proof.
  assert (H1 : [top_row_board] !! 0 = Some top_row_board) by reflexivity.
  assert (H2 : [swap_board top_row_board] !! 0
               = Some (swap_board top_row_board)) by reflexivity.
  assert (H3 : length top_row_board = 9) by reflexivity.
  assert (H4 : count_empty top_row_board < 10) by (vm_compute; lia).
  split; [exact H1|]. split; [exact H2|]. split; [exact H3|].
  split; [exact H4|].
  exact (max_score_ignores_side_names 10 0 0 X true [top_row_board]
           [swap_board top_row_board] top_row_board H1 H2 H3 H4).
Defined.

(** ** The search branch in full *)


Lemma decide_move_searches (self : MinimaxAi) (d : Draws) (fuel : nat)
    (view : Ref) (side : Side) (h : Heap) (b : Board) :
  h !! view = Some b ->
  forallb is_none b = false ->
  (first_random d < fst (think_chance self))%Q ->
  decide_move self d fuel view side h = minimax_move d fuel view side h.
Proof.
  intros Hb Hall Hlt. unfold decide_move, decide_move_at.
  rewrite bind_assoc, (bind_Ok _ _ _ _ _ (deref_Ok _ _ _ Hb)), Hall.
  rewrite (Qle_bool_false _ _ Hlt), bind_assoc. unfold bind.
  destruct (minimax_move d fuel view side h) as [[mv h']|e]; reflexivity.
Qed.

Lemma root_scores_nonempty (b : Board) (side : Side) :
  (exists i, b !! i = Some None) -> root_scores b side <> [].
Proof.
  intros Hfree Hnil. unfold root_scores in Hnil. apply map_eq_nil in Hnil.
  exact (has_empty_empties b Hfree Hnil).
Qed.

Lemma decide_move_search_result (self : MinimaxAi) (d : Draws) (fuel : nat)
    (view : Ref) (side : Side) (h : Heap) (b : Board) :
  h !! view = Some b ->
  forallb is_none b = false ->
  (first_random d < fst (think_chance self))%Q ->
  count_empty b <= fuel ->
  (exists i, b !! i = Some None) ->
  exists mv,
    decide_move self d fuel view side h = Ok (mv, h ++ [b])
    /\ best_moves b side !! (pick d mod length (best_moves b side)) = Some mv.
Proof.
  intros Hb Hall Hlt Hfuel Hfree.
  rewrite (decide_move_searches self d fuel view side h b Hb Hall Hlt).
  rewrite (minimax_move_eq d fuel view side h b Hb Hfuel).
  pose proof (root_scores_nonempty b side Hfree) as Hne.
  pose proof (best_of_nonempty _ Hne) as Hbest. fold (best_moves b side) in *.
  destruct (root_scores b side) as [|p rest]; [congruence|].
  unfold choice.
  assert (Hlt' : pick d mod length (best_moves b side)
                 < length (best_moves b side)).
  { apply Nat.mod_upper_bound. destruct (best_moves b side);
      [congruence|discriminate]. }
  destruct (lookup_lt_is_Some_2 _ _ Hlt') as [mv Hmv].
  exists mv. rewrite Hmv. split; reflexivity.
Qed.

(** The best moves are the empty cells whose score no empty cell beats. *)
Lemma best_moves_iff (b : Board) (side : Side) (mv : nat) :
  In mv (best_moves b side)
  <-> b !! mv = Some None
      /\ forall i, b !! i = Some None ->
           (minimax_score b side i <= minimax_score b side mv)%Z.
Proof.
  unfold best_moves. split.
  - intros Hin. apply best_of_in in Hin as [Hin Htop].
    pose proof (root_scores_lookup b side mv _ Hin) as Hscore.
    unfold root_scores in Hin. apply in_map_iff in Hin as (j & Hj & Hin).
    injection Hj as -> _. split; [apply in_empties, Hin|].
    intros i Hi. rewrite Hscore.
    apply (Htop (i, minimax_score b side i)). unfold root_scores.
    apply (in_map (fun i => (i, minimax_score b side i))), in_empties, Hi.
  - intros [Hfree Hmax].
    assert (Hin : In (mv, minimax_score b side mv) (root_scores b side)).
    { unfold root_scores.
      apply (in_map (fun i => (i, minimax_score b side i))), in_empties,
        Hfree. }
    assert (Hne : map snd (root_scores b side) <> []).
    { intros Hnil. apply map_eq_nil in Hnil. rewrite Hnil in Hin.
      destruct Hin. }
    pose proof (maximum_in _ Hne) as Htop.
    apply in_map_iff in Htop as ([j s] & Hs & Hj). cbn [snd] in Hs.
    pose proof (root_scores_lookup b side j s Hj) as Hjs.
    assert (Hjfree : b !! j = Some None).
    { unfold root_scores in Hj. apply in_map_iff in Hj as (k & Hk & Hin').
      injection Hk as -> _. apply in_empties, Hin'. }
    pose proof (maximum_ge _ _ (in_map snd _ _ Hin)) as Hge. cbn [snd] in Hge.
    specialize (Hmax j Hjfree).
    unfold best_of. cbn [fst].
    apply (in_map fst _ (mv, minimax_score b side mv)).
    apply filter_In. split; [exact Hin|]. cbn [snd]. apply Z.eqb_eq. lia.
Qed.

(** X8: when [decide_move] searches (the board is not all empty and the first
    draw is below the chance to think deeply), on a 9-cell board with an
    empty cell it returns the move at position [pick mod k] of the [k] empty
    cells whose minimax score is maximal, and the working copy is the only
    object it adds to the store. *)
Theorem search_draws_among_best_moves (self : MinimaxAi) (d : Draws)
    (fuel : nat) (view : Ref) (side : Side) (h : Heap) (b : Board) :
  h !! view = Some b ->
  length b = 9 ->
  forallb is_none b = false ->
  (first_random d < fst (think_chance self))%Q ->
  count_empty b <= fuel ->
  (exists i, b !! i = Some None) ->
  exists mv,
    decide_move self d fuel view side h = Ok (mv, h ++ [b])
    /\ best_moves b side !! (pick d mod length (best_moves b side)) = Some mv
    /\ forall i, In i (best_moves b side)
         <-> b !! i = Some None
             /\ forall k, b !! k = Some None ->
                  (minimax_score b side k <= minimax_score b side i)%Z.
Proof.
  intros Hb _ Hall Hlt Hfuel Hfree.
  destruct (decide_move_search_result self d fuel view side h b Hb Hall Hlt
              Hfuel Hfree) as (mv & Hrun & Hmv).
  exists mv. split; [exact Hrun|]. split; [exact Hmv|].
  intros i. apply best_moves_iff.
Qed.

Lemma search_draws_among_best_moves_witness :
  [top_row_board] !! 0 = Some top_row_board
  /\ length top_row_board = 9
  /\ forallb is_none top_row_board = false
  /\ (first_random pick_one < fst (think_chance default_ai))%Q
  /\ count_empty top_row_board <= 9
  /\ (exists i, top_row_board !! i = Some None)
  /\ exists mv,
       decide_move default_ai pick_one 9 0 X [top_row_board]
       = Ok (mv, [top_row_board] ++ [top_row_board])
       /\ best_moves top_row_board X
            !! (pick pick_one mod length (best_moves top_row_board X))
          = Some mv.
Proof.
  assert (H1 : [top_row_board] !! 0 = Some top_row_board) by reflexivity.
  assert (H2 : length top_row_board = 9) by reflexivity.
  assert (H3 : forallb is_none top_row_board = false) by reflexivity.
  assert (H4 : (first_random pick_one < fst (think_chance default_ai))%Q)
    by reflexivity.
  assert (H5 : count_empty top_row_board <= 9) by (vm_compute; lia).
  assert (H6 : exists i, top_row_board !! i = Some None)
    by (exists 2; reflexivity).
  split; [exact H1|]. split; [exact H2|]. split; [exact H3|].
  split; [exact H4|]. split; [exact H5|]. split; [exact H6|].
  destruct (search_draws_among_best_moves default_ai pick_one 9 0 X
              [top_row_board] top_row_board H1 H2 H3 H4 H5 H6)
    as (mv & Hrun & Hmv & _).
  exists mv. split; [exact Hrun|exact Hmv].
Defined.

(** X9: every move of maximal score can be returned: for each of them some
    outcome of the tie-break draw makes the searching [decide_move] return
    it. *)
Theorem every_best_move_is_possible (self : MinimaxAi) (u1 u2 : Q)
    (fuel : nat) (view : Ref) (side : Side) (h : Heap) (b : Board)
    (mv : nat) :
  h !! view = Some b ->
  length b = 9 ->
  forallb is_none b = false ->
  (u1 < fst (think_chance self))%Q ->
  count_empty b <= fuel ->
  b !! mv = Some None ->
  (forall i, b !! i = Some None ->
     (minimax_score b side i <= minimax_score b side mv)%Z) ->
  exists k,
    decide_move self
      {| first_random := u1; second_random := u2; pick := k |}
      fuel view side h
    = Ok (mv, h ++ [b]).
Proof.
  intros Hb _ Hall Hlt Hfuel Hfree Hmax.
  assert (Hin : In mv (best_moves b side))
    by (apply best_moves_iff; split; assumption).
  apply list_elem_of_In, list_elem_of_lookup in Hin as [k Hk].
  exists k.
  destruct (decide_move_search_result self
              {| first_random := u1; second_random := u2; pick := k |}
              fuel view side h b Hb Hall Hlt Hfuel
              (ex_intro _ mv Hfree)) as (mv' & Hrun & Hmv').
  cbn [pick] in Hmv'.
  rewrite Nat.mod_small in Hmv' by (eapply lookup_lt_Some, Hk).
  rewrite Hrun. congruence.
Qed.

Lemma every_best_move_is_possible_witness :
  [block_board] !! 0 = Some block_board
  /\ forallb is_none block_board = false
  /\ (0 < fst (think_chance default_ai))%Q
  /\ block_board !! 2 = Some None
  /\ exists k,
       decide_move default_ai
         {| first_random := 0%Q; second_random := 0%Q; pick := k |}
         9 0 X [block_board]
       = Ok (2, [block_board] ++ [block_board]).
Proof.
  assert (H1 : [block_board] !! 0 = Some block_board) by reflexivity.
  assert (H2 : length block_board = 9) by reflexivity.
  assert (H3 : forallb is_none block_board = false) by reflexivity.
  assert (H4 : (0 < fst (think_chance default_ai))%Q) by reflexivity.
  assert (H5 : count_empty block_board <= 9) by (vm_compute; lia).
  assert (H6 : block_board !! 2 = Some None) by reflexivity.
  assert (H7 : forall i, block_board !! i = Some None ->
                 (minimax_score block_board X i
                  <= minimax_score block_board X 2)%Z).
  { intros i _.
    assert (Hwin : minimax_score block_board X 2 = 1%Z)
      by (vm_compute; reflexivity).
    rewrite Hwin. unfold minimax_score.
    destruct (game_value_score (place block_board i X) X true)
      as [Hv|[Hv|Hv]]; rewrite Hv; lia. }
  split; [exact H1|]. split; [exact H3|]. split; [exact H4|].
  split; [exact H6|].
  exact (every_best_move_is_possible default_ai 0%Q 0%Q 9 0 X [block_board]
           block_board 2 H1 H2 H3 H4 H5 H6 H7).
Defined.

(** The maximum kept by the loop is the value of the position with the
    side to move as root. *)
Lemma position_value (b : Board) (side : Side) :
  board_has_won b (swap_side side) = false ->
  (exists i, b !! i = Some None) ->
  game_value b side false = maximum (map snd (root_scores b side)).
Proof.
  intros Hnot Hfree. rewrite game_value_cases. cbn [andb negb].
  rewrite Hnot.
  assert (Hfull : board_full b = false).
  { destruct (board_full b) eqn:E; [|reflexivity].
    destruct Hfree as [i Hi]. unfold board_full in E.
    rewrite forallb_forall in E.
    assert (Hin : In (@None Side) b)
      by (apply list_elem_of_In, list_elem_of_lookup; eauto).
    apply E in Hin. discriminate. }
  rewrite Hfull. unfold aggregate, root_scores, minimax_score, mover.
  rewrite map_map. reflexivity.
Qed.

Lemma best_move_score (b : Board) (side : Side) (mv : nat) :
  In mv (best_moves b side) ->
  minimax_score b side mv = maximum (map snd (root_scores b side)).
Proof.
  intros Hin. unfold best_moves in Hin. apply best_of_in in Hin as [Hin _].
  exact (root_scores_lookup b side mv _ Hin).
Qed.

(** X10: the move a searching [decide_move] returns realises the value of the
    position: on a 9-cell board with an empty cell where the opponent has no
    line, its minimax score is the score [_max_score(board, side, False)]
    gives to the board as it stands. *)
Theorem search_move_realises_position_value (self : MinimaxAi) (d : Draws)
    (fuel : nat) (view : Ref) (side : Side) (h : Heap) (b : Board) :
  h !! view = Some b ->
  length b = 9 ->
  forallb is_none b = false ->
  (first_random d < fst (think_chance self))%Q ->
  count_empty b < fuel ->
  (exists i, b !! i = Some None) ->
  board_has_won b (swap_side side) = false ->
  exists mv,
    decide_move self d fuel view side h = Ok (mv, h ++ [b])
    /\ _max_score fuel view side false h = Ok (minimax_score b side mv, h).
Proof.
  intros Hb _ Hall Hlt Hfuel Hfree Hnot.
  destruct (decide_move_search_result self d fuel view side h b Hb Hall Hlt
              ltac:(lia) Hfree) as (mv & Hrun & Hmv).
  exists mv. split; [exact Hrun|].
  rewrite (max_score_Ok fuel view side false h b Hb Hfuel).
  rewrite (position_value b side Hnot Hfree).
  rewrite (best_move_score b side mv); [reflexivity|].
  apply list_elem_of_In, list_elem_of_lookup. eauto.
Qed.

Lemma search_move_realises_position_value_witness :
  [top_row_board] !! 0 = Some top_row_board
  /\ length top_row_board = 9
  /\ forallb is_none top_row_board = false
  /\ (first_random zero_draws < fst (think_chance default_ai))%Q
  /\ count_empty top_row_board < 9
  /\ (exists i, top_row_board !! i = Some None)
  /\ board_has_won top_row_board (swap_side X) = false
  /\ exists mv,
       decide_move default_ai zero_draws 9 0 X [top_row_board]
       = Ok (mv, [top_row_board] ++ [top_row_board])
       /\ _max_score 9 0 X false [top_row_board]
          = Ok (minimax_score top_row_board X mv, [top_row_board]).
Proof.
  assert (H1 : [top_row_board] !! 0 = Some top_row_board) by reflexivity.
  assert (H2 : length top_row_board = 9) by reflexivity.
  assert (H3 : forallb is_none top_row_board = false) by reflexivity.
  assert (H4 : (first_random zero_draws < fst (think_chance default_ai))%Q)
    by reflexivity.
  assert (H5 : count_empty top_row_board < 9) by (vm_compute; lia).
  assert (H6 : exists i, top_row_board !! i = Some None)
    by (exists 2; reflexivity).
  assert (H7 : board_has_won top_row_board (swap_side X) = false)
    by reflexivity.
  split; [exact H1|]. split; [exact H2|]. split; [exact H3|].
  split; [exact H4|]. split; [exact H5|]. split; [exact H6|].
  split; [exact H7|].
  exact (search_move_realises_position_value default_ai zero_draws 9 0 X
           [top_row_board] top_row_board H1 H2 H3 H4 H5 H6 H7).
Defined.

(** X11: the search does not miss a win: when [_find_win_move] finds a move
    for the side to move on a 9-cell board, the searching [decide_move]
    returns a move of minimax score 1. *)
Theorem search_wins_when_a_win_is_found (self : MinimaxAi) (d : Draws)
    (fuel : nat) (view : Ref) (side : Side) (h : Heap) (b : Board)
    (j : nat) :
  h !! view = Some b ->
  length b = 9 ->
  (first_random d < fst (think_chance self))%Q ->
  count_empty b <= fuel ->
  _find_win_move view side h = Ok (Some j, h) ->
  exists mv,
    decide_move self d fuel view side h = Ok (mv, h ++ [b])
    /\ minimax_score b side mv = 1%Z.
Proof.
  intros Hb Hlen Hlt Hfuel Hfind.
  rewrite (find_win_move_Ok view side h b Hb Hlen) in Hfind.
  injection Hfind as Hfirst.
  pose proof (first_win_move_free b side j Hfirst) as Hj.
  assert (Hwin : board_has_won (place b j side) side = true).
  { unfold first_win_move in Hfirst.
    destruct (List.find (qualifies b side) _) as [line|] eqn:Hline;
      [|discriminate].
    apply find_some in Hline as [Hin Hq].
    destruct (proj1 (List.Forall_forall _ _) to_checks_triples line Hin)
      as (x & y & z & -> & _).
    unfold board_has_won. apply existsb_exists. exists [x; y; z].
    split; [exact Hin|].
    exact (qualifying_line_completes b side x y z j Hq Hfirst). }
  assert (Hscore : minimax_score b side j = 1%Z).
  { unfold minimax_score. rewrite game_value_cases, Hwin. reflexivity. }
  assert (Hall : forallb is_none b = false).
  { destruct (forallb is_none b) eqn:E; [|reflexivity].
    exfalso. unfold first_win_move in Hfirst.
    destruct (List.find (qualifies b side) _) as [line|] eqn:Hline;
      [|discriminate].
    apply find_some in Hline as [Hin Hq].
    destruct (proj1 (List.Forall_forall _ _) to_checks_triples line Hin)
      as (x & y & z & -> & Hx & Hy & Hz).
    unfold qualifies, count_owned in Hq. cbn [List.filter] in Hq.
    assert (Hown : forall k, k < 9 -> owned_by b side k = false).
    { intros k Hk. apply empty_not_owned, empty_at_true, all_none_lookup;
        [exact E|lia]. }
    rewrite (Hown x Hx), (Hown y Hy), (Hown z Hz) in Hq.
    discriminate Hq. }
  destruct (decide_move_search_result self d fuel view side h b Hb Hall Hlt
              Hfuel (ex_intro _ j Hj)) as (mv & Hrun & Hmv).
  exists mv. split; [exact Hrun|].
  assert (Hin : In mv (best_moves b side))
    by (apply list_elem_of_In, list_elem_of_lookup; eauto).
  apply best_moves_iff in Hin as [_ Hmax]. specialize (Hmax j Hj).
  unfold minimax_score in *.
  destruct (game_value_score (place b mv side) side true) as [Hv|[Hv|Hv]];
    rewrite Hv in *; lia.
Qed.

Lemma search_wins_when_a_win_is_found_witness :
  [top_row_board] !! 0 = Some top_row_board
  /\ length top_row_board = 9
  /\ (first_random pick_one < fst (think_chance default_ai))%Q
  /\ count_empty top_row_board <= 9
  /\ _find_win_move 0 X [top_row_board] = Ok (Some 2, [top_row_board])
  /\ exists mv,
       decide_move default_ai pick_one 9 0 X [top_row_board]
       = Ok (mv, [top_row_board] ++ [top_row_board])
       /\ minimax_score top_row_board X mv = 1%Z.
Proof.
  assert (H1 : [top_row_board] !! 0 = Some top_row_board) by reflexivity.
  assert (H2 : length top_row_board = 9) by reflexivity.
  assert (H3 : (first_random pick_one < fst (think_chance default_ai))%Q)
    by reflexivity.
  assert (H4 : count_empty top_row_board <= 9) by (vm_compute; lia).
  assert (H5 : _find_win_move 0 X [top_row_board]
               = Ok (Some 2, [top_row_board])) by reflexivity.
  split; [exact H1|]. split; [exact H2|]. split; [exact H3|].
  split; [exact H4|]. split; [exact H5|].
  exact (search_wins_when_a_win_is_found default_ai pick_one 9 0 X
           [top_row_board] top_row_board 2 H1 H2 H3 H4 H5).
Defined.

(** ** The branches that do not search *)

Lemma random_move_eq (d : Draws) (view : Ref) (h : Heap) (b : Board) :
  h !! view = Some b ->
  bind (deref view) (fun v =>
    bind (choice d (avail_moves v)) (fun spot => ret (RandomReturn, spot))) h
  = match empties b !! (pick d mod length (empties b)) with
    | Some j => Ok ((RandomReturn, j), h)
    | None => Raise IndexError
    end.
Proof.
  intros Hb. rewrite (bind_Ok _ _ _ _ _ (deref_Ok _ _ _ Hb)).
  rewrite avail_moves_empties. unfold bind, choice.
  destruct (empties b !! _); reflexivity.
Qed.

(** X12: when the search is skipped and obvious moves are looked for, on a
    9-cell board that is not all empty [decide_move] returns the winning
    move of the side to move if [_find_win_move] finds one, else the winning
    move of the opponent (a block) if there is one, else the empty cell at
    position [pick mod k] of the [k] empty cells; the store is untouched. *)
Theorem shallow_prefers_win_then_block (self : MinimaxAi) (d : Draws)
    (fuel : nat) (view : Ref) (side : Side) (h : Heap) (b : Board) :
  h !! view = Some b ->
  length b = 9 ->
  forallb is_none b = false ->
  (fst (think_chance self) <= first_random d)%Q ->
  (second_random d < snd (think_chance self))%Q ->
  _find_win_move view side h = Ok (first_win_move b side, h)
  /\ _find_win_move view (swap_side side) h
     = Ok (first_win_move b (swap_side side), h)
  /\ decide_move_at self d fuel view side h
     = match first_win_move b side with
       | Some j => Ok ((WinReturn, j), h)
       | None =>
           match first_win_move b (swap_side side) with
           | Some j => Ok ((BlockReturn, j), h)
           | None =>
               match empties b !! (pick d mod length (empties b)) with
               | Some j => Ok ((RandomReturn, j), h)
               | None => Raise IndexError
               end
           end
       end.
Proof.
  intros Hb Hlen Hall Hskip Hlook.
  pose proof (find_win_move_Ok view side h b Hb Hlen) as Hown.
  pose proof (find_win_move_Ok view (swap_side side) h b Hb Hlen) as Hblock.
  split; [exact Hown|]. split; [exact Hblock|].
  unfold decide_move_at.
  rewrite (bind_Ok _ _ _ _ _ (deref_Ok _ _ _ Hb)), Hall.
  rewrite (proj2 (Qle_bool_iff _ _) Hskip), (Qle_bool_false _ _ Hlook).
  cbn [negb]. rewrite bind_assoc, (bind_Ok _ _ _ _ _ Hown).
  destruct (first_win_move b side) as [j|]; [reflexivity|].
  rewrite bind_assoc, (bind_Ok _ _ _ _ _ Hblock).
  destruct (first_win_move b (swap_side side)) as [j|]; [reflexivity|].
  change (bind (ret None) ?k h) with (k (@None (ReturnSite * nat)) h).
  cbn beta iota. apply random_move_eq, Hb.
Qed.

Lemma shallow_prefers_win_then_block_witness :
  [block_board] !! 0 = Some block_board
  /\ length block_board = 9
  /\ forallb is_none block_board = false
  /\ (fst (think_chance {| think_chance := (0%Q, 1%Q) |})
      <= first_random zero_draws)%Q
  /\ (second_random zero_draws
      < snd (think_chance {| think_chance := (0%Q, 1%Q) |}))%Q
  /\ decide_move_at {| think_chance := (0%Q, 1%Q) |} zero_draws 0 0 O
       [block_board]
     = match first_win_move block_board O with
       | Some j => Ok ((WinReturn, j), [block_board])
       | None =>
           match first_win_move block_board (swap_side O) with
           | Some j => Ok ((BlockReturn, j), [block_board])
           | None =>
               match empties block_board
                       !! (pick zero_draws mod length (empties block_board))
               with
               | Some j => Ok ((RandomReturn, j), [block_board])
               | None => Raise IndexError
               end
           end
       end.
Proof.
  assert (H1 : [block_board] !! 0 = Some block_board) by reflexivity.
  assert (H2 : length block_board = 9) by reflexivity.
  assert (H3 : forallb is_none block_board = false) by reflexivity.
  assert (H4 : (fst (think_chance {| think_chance := (0%Q, 1%Q) |})
                <= first_random zero_draws)%Q) by apply Qle_refl.
  assert (H5 : (second_random zero_draws
                < snd (think_chance {| think_chance := (0%Q, 1%Q) |}))%Q)
    by reflexivity.
  split; [exact H1|]. split; [exact H2|]. split; [exact H3|].
  split; [exact H4|]. split; [exact H5|].
  exact (proj2 (proj2 (shallow_prefers_win_then_block _ zero_draws 0 0 O
                         [block_board] block_board H1 H2 H3 H4 H5))).
Defined.

(** X13: when neither the search nor the look for obvious moves is engaged,
    [decide_move] returns the empty cell at position [pick mod k] of the [k]
    empty cells in ascending order, whatever wins or threats are on the
    board, and raises [IndexError] when no cell is empty. *)
Theorem careless_move_is_any_empty_cell (self : MinimaxAi) (d : Draws)
    (fuel : nat) (view : Ref) (side : Side) (h : Heap) (b : Board) :
  h !! view = Some b ->
  forallb is_none b = false ->
  (fst (think_chance self) <= first_random d)%Q ->
  (snd (think_chance self) <= second_random d)%Q ->
  decide_move_at self d fuel view side h
  = match empties b !! (pick d mod length (empties b)) with
    | Some j => Ok ((RandomReturn, j), h)
    | None => Raise IndexError
    end.
Proof.
  intros Hb Hall Hskip Hcareless. unfold decide_move_at.
  rewrite (bind_Ok _ _ _ _ _ (deref_Ok _ _ _ Hb)), Hall.
  rewrite (proj2 (Qle_bool_iff _ _) Hskip).
  rewrite (proj2 (Qle_bool_iff _ _) Hcareless). cbn [negb].
  change (bind (ret None) ?k h) with (k (@None (ReturnSite * nat)) h).
  cbn beta iota. apply random_move_eq, Hb.
Qed.

Lemma careless_move_is_any_empty_cell_witness :
  [top_row_board] !! 0 = Some top_row_board
  /\ forallb is_none top_row_board = false
  /\ (fst (think_chance {| think_chance := (0%Q, 0%Q) |})
      <= first_random pick_one)%Q
  /\ (snd (think_chance {| think_chance := (0%Q, 0%Q) |})
      <= second_random pick_one)%Q
  /\ decide_move_at {| think_chance := (0%Q, 0%Q) |} pick_one 0 0 X
       [top_row_board]
     = match empties top_row_board
               !! (pick pick_one mod length (empties top_row_board)) with
       | Some j => Ok ((RandomReturn, j), [top_row_board])
       | None => Raise IndexError
       end.
Proof.
  assert (H1 : [top_row_board] !! 0 = Some top_row_board) by reflexivity.
  assert (H2 : forallb is_none top_row_board = false) by reflexivity.
  assert (H3 : (fst (think_chance {| think_chance := (0%Q, 0%Q) |})
                <= first_random pick_one)%Q) by apply Qle_refl.
  assert (H4 : (snd (think_chance {| think_chance := (0%Q, 0%Q) |})
                <= second_random pick_one)%Q) by apply Qle_refl.
  split; [exact H1|]. split; [exact H2|]. split; [exact H3|].
  split; [exact H4|].
  exact (careless_move_is_any_empty_cell _ pick_one 0 0 X [top_row_board]
           top_row_board H1 H2 H3 H4).
Defined.

Lemma board_full_empties (b : Board) : board_full b = true -> empties b = [].
Proof.
  intros Hfull. destruct (empties b) as [|i rest] eqn:E; [reflexivity|].
  exfalso. assert (Hi : In i (empties b)) by (rewrite E; left; reflexivity).
  apply in_empties in Hi. unfold board_full in Hfull.
  rewrite forallb_forall in Hfull.
  assert (Hin : In (@None Side) b)
    by (apply list_elem_of_In, list_elem_of_lookup; eauto).
  apply Hfull in Hin. discriminate.
Qed.

(** X14: on a 9-cell board without an empty cell [decide_move] raises: the
    search branch raises [StopIteration] at [next(move_scores)], the other
    branches raise [IndexError] at [random.choice] of no move. *)
Theorem full_board_raises (self : MinimaxAi) (d : Draws) (fuel : nat)
    (view : Ref) (side : Side) (h : Heap) (b : Board) :
  h !! view = Some b ->
  length b = 9 ->
  board_full b = true ->
  ((first_random d < fst (think_chance self))%Q ->
     decide_move self d fuel view side h = Raise StopIteration)
  /\ ((fst (think_chance self) <= first_random d)%Q ->
        decide_move self d fuel view side h = Raise IndexError).
Proof.
  intros Hb Hlen Hfull.
  pose proof (decide_move_at_full self d fuel view side h b Hb Hlen
                (board_full_empties b Hfull)) as Hrun.
  split; intros Hq; unfold decide_move; rewrite (bind_Raise _ _ _ _ Hrun).
  - rewrite (Qle_bool_false _ _ Hq). reflexivity.
  - rewrite (proj2 (Qle_bool_iff _ _) Hq). reflexivity.
Qed.

Lemma full_board_raises_witness :
  [unreachable_board] !! 0 = Some unreachable_board
  /\ length unreachable_board = 9
  /\ board_full unreachable_board = true
  /\ (first_random zero_draws < fst (think_chance default_ai))%Q
  /\ decide_move default_ai zero_draws 0 0 X [unreachable_board]
     = Raise StopIteration.
Proof.
  assert (H1 : [unreachable_board] !! 0 = Some unreachable_board)
    by reflexivity.
  assert (H2 : length unreachable_board = 9) by reflexivity.
  assert (H3 : board_full unreachable_board = true) by reflexivity.
  assert (H4 : (first_random zero_draws < fst (think_chance default_ai))%Q)
    by reflexivity.
  split; [exact H1|]. split; [exact H2|]. split; [exact H3|].
  split; [exact H4|].
  exact (proj1 (full_board_raises default_ai zero_draws 0 0 X
                  [unreachable_board] unreachable_board H1 H2 H3) H4).
Defined.

(** X15: the shortcut on the empty board agrees with the search: on a 9-cell
    view of empty cells [decide_move] returns [pick mod 9] without searching
    (for any fuel and any chances, the store untouched), and that move is one
    of the moves of maximal minimax score, all nine cells having the same
    score. *)
Theorem opening_move_is_a_best_move (self : MinimaxAi) (d : Draws)
    (fuel : nat) (view : Ref) (side : Side) (h : Heap) (b : Board) :
  h !! view = Some b ->
  length b = 9 ->
  forallb is_none b = true ->
  decide_move_at self d fuel view side h
  = Ok ((OpeningReturn, pick d mod 9), h)
  /\ In (pick d mod 9) (best_moves b side)
  /\ forall i j, i < 9 -> j < 9 ->
       minimax_score b side i = minimax_score b side j.
Proof.
  intros Hb Hlen Hall.
  assert (b = empty_board) as ->.
  { rewrite (all_none_replicate b Hall), Hlen. reflexivity. }
  assert (Hmv : pick d mod 9 < 9) by (apply Nat.mod_upper_bound; lia).
  split; [|split].
  - unfold decide_move_at.
    rewrite (bind_Ok _ _ _ _ _ (deref_Ok _ _ _ Hb)), Hall. reflexivity.
  - apply best_moves_iff. split; [apply all_none_lookup; assumption|].
    intros i Hi. apply lookup_lt_Some in Hi.
    rewrite (opening_score side i Hi), (opening_score side _ Hmv). lia.
  - intros i j Hi Hj.
    rewrite (opening_score side i Hi), (opening_score side j Hj). reflexivity.
Qed.

Lemma opening_move_is_a_best_move_witness :
  [empty_board] !! 0 = Some empty_board
  /\ length empty_board = 9
  /\ forallb is_none empty_board = true
  /\ decide_move_at default_ai pick_one 0 0 O [empty_board]
     = Ok ((OpeningReturn, pick pick_one mod 9), [empty_board]).
Proof.
  assert (H1 : [empty_board] !! 0 = Some empty_board) by reflexivity.
  assert (H2 : length empty_board = 9) by reflexivity.
  assert (H3 : forallb is_none empty_board = true) by reflexivity.
  split; [exact H1|]. split; [exact H2|]. split; [exact H3|].
  exact (proj1 (opening_move_is_a_best_move default_ai pick_one 0 0 O
                  [empty_board] empty_board H1 H2 H3)).
Defined.

(** X16: the opening shortcut does not look at the length of the view: on any
    view whose tiles are all empty, the empty sequence included,
    [decide_move] returns [pick mod 9] from the first [return] without
    touching the store, so on a view shorter than that index the answer is
    not a cell of the view. *)
Theorem opening_shortcut_ignores_length (self : MinimaxAi) (d : Draws)
    (fuel : nat) (view : Ref) (side : Side) (h : Heap) (b : Board) :
  h !! view = Some b ->
  forallb is_none b = true ->
  decide_move_at self d fuel view side h
  = Ok ((OpeningReturn, pick d mod 9), h)
  /\ pick d mod 9 < 9
  /\ (length b <= pick d mod 9 -> b !! (pick d mod 9) = None).
Proof.
  intros Hb Hall. split; [|split].
  - unfold decide_move_at.
    rewrite (bind_Ok _ _ _ _ _ (deref_Ok _ _ _ Hb)), Hall. reflexivity.
  - apply Nat.mod_upper_bound. lia.
  - apply lookup_ge_None_2.
Qed.

Lemma opening_shortcut_ignores_length_witness :
  [@nil (option Side)] !! 0 = Some []
  /\ forallb is_none [] = true
  /\ decide_move_at default_ai pick_one 0 0 X [@nil (option Side)]
     = Ok ((OpeningReturn, pick pick_one mod 9), [@nil (option Side)])
  /\ (@nil (option Side)) !! (pick pick_one mod 9) = None.
Proof.
  assert (H1 : [@nil (option Side)] !! 0 = Some []) by reflexivity.
  assert (H2 : forallb is_none [] = true) by reflexivity.
  split; [exact H1|]. split; [exact H2|].
  destruct (opening_shortcut_ignores_length default_ai pick_one 0 0 X
              [@nil (option Side)] [] H1 H2) as (Hrun & _ & Hout).
  split; [exact Hrun|]. apply Hout. cbn. lia.
Defined.
